(** * byre: extraction and reconciliation core, verified against its source

    A shallow embedding of [src/byre/bt.py] (the qBittorrent wrapper
    [BtClient]) and [src/byre/api.py] (the tracker scraper [ByrApi]),
    followed by the properties their specification states about them.

    Conventions of the embedding:
    - a Python [str] is a Rocq [string] holding its UTF-8 bytes; [chars]
      gives its characters, and the character classes of [re], [str] and
      [int] are those of the Unicode database of CPython 3.11 (Unicode
      14.0);
    - a Python [int] is a [Z];
    - a raised exception is the [Raise] branch of [result], carrying the
      exception class only (messages are not modelled);
    - calls to an external collaborator (the qBittorrent Web API, the HTTP
      session) are recorded, in order, in a trace. *)

From Stdlib Require Import ZArith QArith Lia Bool List String Ascii.
From stdpp Require Import base option list strings gmap.

Local Open Scope Z_scope.

#[local] Arguments String.append !s1 s2 : simpl nomatch.

(** ** Python values: exceptions, strings, integers *)

Module Py.

(** The exception classes the embedded code can raise. [ConnectionError]
    is the builtin class. [RequestException] stands for the exceptions of
    the [requests] library ([requests.exceptions.ConnectionError],
    [Timeout] and the others): they derive from [OSError] through
    [RequestException], and none of them is the builtin
    [ConnectionError]. *)
Inductive exn : Type :=
  | ValueError
  | KeyError
  | IndexError
  | AttributeError
  | StopIteration
  | ConnectionError
  | OverflowError
  | RequestException.

(** The outcome of a call: a returned value or a raised exception. *)
Inductive result (A : Type) : Type :=
  | Return (a : A)
  | Raise (e : exn).
Arguments Return {A} a.
Arguments Raise {A} e.

Definition rbind {A B} (r : result A) (k : A -> result B) : result B :=
  match r with
  | Return a => k a
  | Raise e => Raise e
  end.

Notation "x <- e ;; k" := (rbind e (fun x => k))
  (at level 100, e at next level, right associativity).

Definition is_return {A} (r : result A) : bool :=
  match r with Return _ => true | Raise _ => false end.

(** [o] when it is there, else raise [e] (a lookup or an attribute access
    on [None]). *)
Definition or_raise {A} (e : exn) (o : option A) : result A :=
  match o with
  | Some a => Return a
  | None => Raise e
  end.

(** *** Character classes *)

Definition code (c : ascii) : N := N_of_ascii c.

(** The decimal digits of the ASCII range. *)
Definition is_digit (c : ascii) : bool :=
  ((48 <=? code c) && (code c <=? 57))%N.

Definition is_alpha (c : ascii) : bool :=
  (((65 <=? code c) && (code c <=? 90)) || ((97 <=? code c) && (code c <=? 122)))%N.

(** The letters and digits of the ASCII range. *)
Definition is_alnum (c : ascii) : bool := is_alpha c || is_digit c.

(** The word characters of the ASCII range: letters, digits and the
    underscore. *)
Definition is_word (c : ascii) : bool := is_alnum c || (code c =? 95)%N.

(** The whitespace of the ASCII range as [str.isspace] has it: TAB, LF, VT,
    FF, CR, FS, GS, RS, US and the space. *)
Definition is_space (c : ascii) : bool :=
  (((9 <=? code c) && (code c <=? 13)) || ((28 <=? code c) && (code c <=? 32)))%N.

(** The whitespace [int] skips around an ASCII literal ([Py_ISSPACE]):
    TAB, LF, VT, FF, CR and the space. *)
Definition is_c_space (c : ascii) : bool :=
  (((9 <=? code c) && (code c <=? 13)) || (code c =? 32))%N.

Definition digit_val (c : ascii) : Z := Z.of_N (code c) - 48.

Definition digit_char (d : Z) : ascii := ascii_of_N (Z.to_N (d + 48)).

(** *** Strings *)

Fixpoint all_chars (p : ascii -> bool) (s : string) : bool :=
  match s with
  | EmptyString => true
  | String c s' => p c && all_chars p s'
  end.

(** [bool(s)]: a string is truthy when it is not empty. *)
Definition truthy (s : string) : bool :=
  match s with EmptyString => false | String _ _ => true end.

(** [s.startswith(p)]. *)
Fixpoint startswith (s p : string) {struct p} : bool :=
  match p, s with
  | EmptyString, _ => true
  | String a p', String b s' => if Ascii.eqb a b then startswith s' p' else false
  | String _ _, EmptyString => false
  end.

(** [s.endswith(c)] for a one-character [c]. *)
Fixpoint endswith_char (s : string) (c : ascii) : bool :=
  match s with
  | EmptyString => false
  | String a EmptyString => Ascii.eqb a c
  | String _ s' => endswith_char s' c
  end.

(** [s.index(c)] for a one-character [c]: the position of its first
    occurrence; [ValueError] when there is none. *)
Fixpoint find_char (s : string) (c : ascii) : option nat :=
  match s with
  | EmptyString => None
  | String a s' => if Ascii.eqb a c then Some O else option_map S (find_char s' c)
  end.

Definition index (s : string) (c : ascii) : result nat :=
  or_raise ValueError (find_char s c).

(** [s[i:j]] for non-negative [i] and [j]. *)
Definition slice (s : string) (i j : nat) : string := substring i (j - i) s.

(** [sub in s]. *)
Fixpoint contains (s sub : string) : bool :=
  startswith s sub ||
  match s with
  | EmptyString => false
  | String _ s' => contains s' sub
  end.

(** *** Characters

    The characters of a [str], each as the string of its UTF-8 bytes. The
    bytes are read from the right: a byte that opens a sequence of two,
    three or four bytes takes the continuation bytes that follow it. A byte
    that belongs to no sequence (which no [str] holds) stands alone. *)

Definition is_continuation (c : ascii) : bool :=
  ((128 <=? code c) && (code c <? 192))%N.

(** The number of continuation bytes a byte announces. *)
Definition trail (c : ascii) : nat :=
  if (code c <? 192)%N then 0
  else if (code c <? 224)%N then 1
  else if (code c <? 240)%N then 2
  else if (code c <? 248)%N then 3
  else 0.

Definition is_trail_item (ch : string) : bool :=
  match ch with
  | String c EmptyString => is_continuation c
  | _ => false
  end.

(** ["".join(l)]. *)
Fixpoint joined (l : list string) : string :=
  match l with
  | [] => EmptyString
  | x :: l' => x +:+ joined l'
  end.

Definition absorb (c : ascii) (r : list string) : list string :=
  let k := trail c in
  if (0 <? k)%nat && (k <=? length r)%nat && forallb is_trail_item (firstn k r)
  then String c (joined (firstn k r)) :: skipn k r
  else String c EmptyString :: r.

(** [list(s)]. *)
Fixpoint chars (s : string) : list string :=
  match s with
  | EmptyString => []
  | String c s' => absorb c (chars s')
  end.

Definition low6 (c : ascii) : N := (code c - 128)%N.

(** [ord(ch)] for a one-character string. *)
Definition ord (ch : string) : option N :=
  match ch with
  | String c EmptyString => if (code c <? 128)%N then Some (code c) else None
  | String c (String c1 EmptyString) =>
      if (trail c =? 1)%nat && is_continuation c1
      then Some ((code c - 192) * 64 + low6 c1)%N else None
  | String c (String c1 (String c2 EmptyString)) =>
      if (trail c =? 2)%nat && is_continuation c1 && is_continuation c2
      then Some (((code c - 224) * 64 + low6 c1) * 64 + low6 c2)%N else None
  | String c (String c1 (String c2 (String c3 EmptyString))) =>
      if (trail c =? 3)%nat && is_continuation c1 && is_continuation c2 && is_continuation c3
      then Some ((((code c - 240) * 64 + low6 c1) * 64 + low6 c2) * 64 + low6 c3)%N
      else None
  | _ => None
  end.

(** *** The Unicode database

    The code points above the ASCII range of three classes, as inclusive
    ranges in increasing order (Unicode 14.0, the database of CPython
    3.11). *)

Definition in_range (cp : N) (r : N * N) : bool := ((fst r <=? cp) && (cp <=? snd r))%N.

Definition in_ranges (cp : N) (ranges : list (N * N)) : bool :=
  existsb (in_range cp) ranges.

(** [str.isalnum]: letters and numbers. *)
Definition alnum_table : list (N * N) :=
  [
   (170, 170); (178, 179); (181, 181); (185, 186); (188, 190); (192, 214);
   (216, 246); (248, 705); (710, 721); (736, 740); (748, 748); (750, 750);
   (880, 884); (886, 887); (890, 893); (895, 895); (902, 902); (904, 906);
   (908, 908); (910, 929); (931, 1013); (1015, 1153); (1162, 1327); (1329, 1366);
   (1369, 1369); (1376, 1416); (1488, 1514); (1519, 1522); (1568, 1610); (1632, 1641);
   (1646, 1647); (1649, 1747); (1749, 1749); (1765, 1766); (1774, 1788); (1791, 1791);
   (1808, 1808); (1810, 1839); (1869, 1957); (1969, 1969); (1984, 2026); (2036, 2037);
   (2042, 2042); (2048, 2069); (2074, 2074); (2084, 2084); (2088, 2088); (2112, 2136);
   (2144, 2154); (2160, 2183); (2185, 2190); (2208, 2249); (2308, 2361); (2365, 2365);
   (2384, 2384); (2392, 2401); (2406, 2415); (2417, 2432); (2437, 2444); (2447, 2448);
   (2451, 2472); (2474, 2480); (2482, 2482); (2486, 2489); (2493, 2493); (2510, 2510);
   (2524, 2525); (2527, 2529); (2534, 2545); (2548, 2553); (2556, 2556); (2565, 2570);
   (2575, 2576); (2579, 2600); (2602, 2608); (2610, 2611); (2613, 2614); (2616, 2617);
   (2649, 2652); (2654, 2654); (2662, 2671); (2674, 2676); (2693, 2701); (2703, 2705);
   (2707, 2728); (2730, 2736); (2738, 2739); (2741, 2745); (2749, 2749); (2768, 2768);
   (2784, 2785); (2790, 2799); (2809, 2809); (2821, 2828); (2831, 2832); (2835, 2856);
   (2858, 2864); (2866, 2867); (2869, 2873); (2877, 2877); (2908, 2909); (2911, 2913);
   (2918, 2927); (2929, 2935); (2947, 2947); (2949, 2954); (2958, 2960); (2962, 2965);
   (2969, 2970); (2972, 2972); (2974, 2975); (2979, 2980); (2984, 2986); (2990, 3001);
   (3024, 3024); (3046, 3058); (3077, 3084); (3086, 3088); (3090, 3112); (3114, 3129);
   (3133, 3133); (3160, 3162); (3165, 3165); (3168, 3169); (3174, 3183); (3192, 3198);
   (3200, 3200); (3205, 3212); (3214, 3216); (3218, 3240); (3242, 3251); (3253, 3257);
   (3261, 3261); (3293, 3294); (3296, 3297); (3302, 3311); (3313, 3314); (3332, 3340);
   (3342, 3344); (3346, 3386); (3389, 3389); (3406, 3406); (3412, 3414); (3416, 3425);
   (3430, 3448); (3450, 3455); (3461, 3478); (3482, 3505); (3507, 3515); (3517, 3517);
   (3520, 3526); (3558, 3567); (3585, 3632); (3634, 3635); (3648, 3654); (3664, 3673);
   (3713, 3714); (3716, 3716); (3718, 3722); (3724, 3747); (3749, 3749); (3751, 3760);
   (3762, 3763); (3773, 3773); (3776, 3780); (3782, 3782); (3792, 3801); (3804, 3807);
   (3840, 3840); (3872, 3891); (3904, 3911); (3913, 3948); (3976, 3980); (4096, 4138);
   (4159, 4169); (4176, 4181); (4186, 4189); (4193, 4193); (4197, 4198); (4206, 4208);
   (4213, 4225); (4238, 4238); (4240, 4249); (4256, 4293); (4295, 4295); (4301, 4301);
   (4304, 4346); (4348, 4680); (4682, 4685); (4688, 4694); (4696, 4696); (4698, 4701);
   (4704, 4744); (4746, 4749); (4752, 4784); (4786, 4789); (4792, 4798); (4800, 4800);
   (4802, 4805); (4808, 4822); (4824, 4880); (4882, 4885); (4888, 4954); (4969, 4988);
   (4992, 5007); (5024, 5109); (5112, 5117); (5121, 5740); (5743, 5759); (5761, 5786);
   (5792, 5866); (5870, 5880); (5888, 5905); (5919, 5937); (5952, 5969); (5984, 5996);
   (5998, 6000); (6016, 6067); (6103, 6103); (6108, 6108); (6112, 6121); (6128, 6137);
   (6160, 6169); (6176, 6264); (6272, 6276); (6279, 6312); (6314, 6314); (6320, 6389);
   (6400, 6430); (6470, 6509); (6512, 6516); (6528, 6571); (6576, 6601); (6608, 6618);
   (6656, 6678); (6688, 6740); (6784, 6793); (6800, 6809); (6823, 6823); (6917, 6963);
   (6981, 6988); (6992, 7001); (7043, 7072); (7086, 7141); (7168, 7203); (7232, 7241);
   (7245, 7293); (7296, 7304); (7312, 7354); (7357, 7359); (7401, 7404); (7406, 7411);
   (7413, 7414); (7418, 7418); (7424, 7615); (7680, 7957); (7960, 7965); (7968, 8005);
   (8008, 8013); (8016, 8023); (8025, 8025); (8027, 8027); (8029, 8029); (8031, 8061);
   (8064, 8116); (8118, 8124); (8126, 8126); (8130, 8132); (8134, 8140); (8144, 8147);
   (8150, 8155); (8160, 8172); (8178, 8180); (8182, 8188); (8304, 8305); (8308, 8313);
   (8319, 8329); (8336, 8348); (8450, 8450); (8455, 8455); (8458, 8467); (8469, 8469);
   (8473, 8477); (8484, 8484); (8486, 8486); (8488, 8488); (8490, 8493); (8495, 8505);
   (8508, 8511); (8517, 8521); (8526, 8526); (8528, 8585); (9312, 9371); (9450, 9471);
   (10102, 10131); (11264, 11492); (11499, 11502); (11506, 11507); (11517, 11517); (11520, 11557);
   (11559, 11559); (11565, 11565); (11568, 11623); (11631, 11631); (11648, 11670); (11680, 11686);
   (11688, 11694); (11696, 11702); (11704, 11710); (11712, 11718); (11720, 11726); (11728, 11734);
   (11736, 11742); (11823, 11823); (12293, 12295); (12321, 12329); (12337, 12341); (12344, 12348);
   (12353, 12438); (12445, 12447); (12449, 12538); (12540, 12543); (12549, 12591); (12593, 12686);
   (12690, 12693); (12704, 12735); (12784, 12799); (12832, 12841); (12872, 12879); (12881, 12895);
   (12928, 12937); (12977, 12991); (13312, 19903); (19968, 42124); (42192, 42237); (42240, 42508);
   (42512, 42539); (42560, 42606); (42623, 42653); (42656, 42735); (42775, 42783); (42786, 42888);
   (42891, 42954); (42960, 42961); (42963, 42963); (42965, 42969); (42994, 43009); (43011, 43013);
   (43015, 43018); (43020, 43042); (43056, 43061); (43072, 43123); (43138, 43187); (43216, 43225);
   (43250, 43255); (43259, 43259); (43261, 43262); (43264, 43301); (43312, 43334); (43360, 43388);
   (43396, 43442); (43471, 43481); (43488, 43492); (43494, 43518); (43520, 43560); (43584, 43586);
   (43588, 43595); (43600, 43609); (43616, 43638); (43642, 43642); (43646, 43695); (43697, 43697);
   (43701, 43702); (43705, 43709); (43712, 43712); (43714, 43714); (43739, 43741); (43744, 43754);
   (43762, 43764); (43777, 43782); (43785, 43790); (43793, 43798); (43808, 43814); (43816, 43822);
   (43824, 43866); (43868, 43881); (43888, 44002); (44016, 44025); (44032, 55203); (55216, 55238);
   (55243, 55291); (63744, 64109); (64112, 64217); (64256, 64262); (64275, 64279); (64285, 64285);
   (64287, 64296); (64298, 64310); (64312, 64316); (64318, 64318); (64320, 64321); (64323, 64324);
   (64326, 64433); (64467, 64829); (64848, 64911); (64914, 64967); (65008, 65019); (65136, 65140);
   (65142, 65276); (65296, 65305); (65313, 65338); (65345, 65370); (65382, 65470); (65474, 65479);
   (65482, 65487); (65490, 65495); (65498, 65500); (65536, 65547); (65549, 65574); (65576, 65594);
   (65596, 65597); (65599, 65613); (65616, 65629); (65664, 65786); (65799, 65843); (65856, 65912);
   (65930, 65931); (66176, 66204); (66208, 66256); (66273, 66299); (66304, 66339); (66349, 66378);
   (66384, 66421); (66432, 66461); (66464, 66499); (66504, 66511); (66513, 66517); (66560, 66717);
   (66720, 66729); (66736, 66771); (66776, 66811); (66816, 66855); (66864, 66915); (66928, 66938);
   (66940, 66954); (66956, 66962); (66964, 66965); (66967, 66977); (66979, 66993); (66995, 67001);
   (67003, 67004); (67072, 67382); (67392, 67413); (67424, 67431); (67456, 67461); (67463, 67504);
   (67506, 67514); (67584, 67589); (67592, 67592); (67594, 67637); (67639, 67640); (67644, 67644);
   (67647, 67669); (67672, 67702); (67705, 67742); (67751, 67759); (67808, 67826); (67828, 67829);
   (67835, 67867); (67872, 67897); (67968, 68023); (68028, 68047); (68050, 68096); (68112, 68115);
   (68117, 68119); (68121, 68149); (68160, 68168); (68192, 68222); (68224, 68255); (68288, 68295);
   (68297, 68324); (68331, 68335); (68352, 68405); (68416, 68437); (68440, 68466); (68472, 68497);
   (68521, 68527); (68608, 68680); (68736, 68786); (68800, 68850); (68858, 68899); (68912, 68921);
   (69216, 69246); (69248, 69289); (69296, 69297); (69376, 69415); (69424, 69445); (69457, 69460);
   (69488, 69505); (69552, 69579); (69600, 69622); (69635, 69687); (69714, 69743); (69745, 69746);
   (69749, 69749); (69763, 69807); (69840, 69864); (69872, 69881); (69891, 69926); (69942, 69951);
   (69956, 69956); (69959, 69959); (69968, 70002); (70006, 70006); (70019, 70066); (70081, 70084);
   (70096, 70106); (70108, 70108); (70113, 70132); (70144, 70161); (70163, 70187); (70272, 70278);
   (70280, 70280); (70282, 70285); (70287, 70301); (70303, 70312); (70320, 70366); (70384, 70393);
   (70405, 70412); (70415, 70416); (70419, 70440); (70442, 70448); (70450, 70451); (70453, 70457);
   (70461, 70461); (70480, 70480); (70493, 70497); (70656, 70708); (70727, 70730); (70736, 70745);
   (70751, 70753); (70784, 70831); (70852, 70853); (70855, 70855); (70864, 70873); (71040, 71086);
   (71128, 71131); (71168, 71215); (71236, 71236); (71248, 71257); (71296, 71338); (71352, 71352);
   (71360, 71369); (71424, 71450); (71472, 71483); (71488, 71494); (71680, 71723); (71840, 71922);
   (71935, 71942); (71945, 71945); (71948, 71955); (71957, 71958); (71960, 71983); (71999, 71999);
   (72001, 72001); (72016, 72025); (72096, 72103); (72106, 72144); (72161, 72161); (72163, 72163);
   (72192, 72192); (72203, 72242); (72250, 72250); (72272, 72272); (72284, 72329); (72349, 72349);
   (72368, 72440); (72704, 72712); (72714, 72750); (72768, 72768); (72784, 72812); (72818, 72847);
   (72960, 72966); (72968, 72969); (72971, 73008); (73030, 73030); (73040, 73049); (73056, 73061);
   (73063, 73064); (73066, 73097); (73112, 73112); (73120, 73129); (73440, 73458); (73648, 73648);
   (73664, 73684); (73728, 74649); (74752, 74862); (74880, 75075); (77712, 77808); (77824, 78894);
   (82944, 83526); (92160, 92728); (92736, 92766); (92768, 92777); (92784, 92862); (92864, 92873);
   (92880, 92909); (92928, 92975); (92992, 92995); (93008, 93017); (93019, 93025); (93027, 93047);
   (93053, 93071); (93760, 93846); (93952, 94026); (94032, 94032); (94099, 94111); (94176, 94177);
   (94179, 94179); (94208, 100343); (100352, 101589); (101632, 101640); (110576, 110579); (110581, 110587);
   (110589, 110590); (110592, 110882); (110928, 110930); (110948, 110951); (110960, 111355); (113664, 113770);
   (113776, 113788); (113792, 113800); (113808, 113817); (119520, 119539); (119648, 119672); (119808, 119892);
   (119894, 119964); (119966, 119967); (119970, 119970); (119973, 119974); (119977, 119980); (119982, 119993);
   (119995, 119995); (119997, 120003); (120005, 120069); (120071, 120074); (120077, 120084); (120086, 120092);
   (120094, 120121); (120123, 120126); (120128, 120132); (120134, 120134); (120138, 120144); (120146, 120485);
   (120488, 120512); (120514, 120538); (120540, 120570); (120572, 120596); (120598, 120628); (120630, 120654);
   (120656, 120686); (120688, 120712); (120714, 120744); (120746, 120770); (120772, 120779); (120782, 120831);
   (122624, 122654); (123136, 123180); (123191, 123197); (123200, 123209); (123214, 123214); (123536, 123565);
   (123584, 123627); (123632, 123641); (124896, 124902); (124904, 124907); (124909, 124910); (124912, 124926);
   (124928, 125124); (125127, 125135); (125184, 125251); (125259, 125259); (125264, 125273); (126065, 126123);
   (126125, 126127); (126129, 126132); (126209, 126253); (126255, 126269); (126464, 126467); (126469, 126495);
   (126497, 126498); (126500, 126500); (126503, 126503); (126505, 126514); (126516, 126519); (126521, 126521);
   (126523, 126523); (126530, 126530); (126535, 126535); (126537, 126537); (126539, 126539); (126541, 126543);
   (126545, 126546); (126548, 126548); (126551, 126551); (126553, 126553); (126555, 126555); (126557, 126557);
   (126559, 126559); (126561, 126562); (126564, 126564); (126567, 126570); (126572, 126578); (126580, 126583);
   (126585, 126588); (126590, 126590); (126592, 126601); (126603, 126619); (126625, 126627); (126629, 126633);
   (126635, 126651); (127232, 127244); (130032, 130041); (131072, 173791); (173824, 177976); (177984, 178205);
   (178208, 183969); (183984, 191456); (194560, 195101); (196608, 201546)]%N.

(** [str.isdecimal]: the decimal digits. Every range starts at a digit
    zero and holds whole runs of the ten digits in order. *)
Definition decimal_table : list (N * N) :=
  [
   (1632, 1641); (1776, 1785); (1984, 1993); (2406, 2415); (2534, 2543); (2662, 2671);
   (2790, 2799); (2918, 2927); (3046, 3055); (3174, 3183); (3302, 3311); (3430, 3439);
   (3558, 3567); (3664, 3673); (3792, 3801); (3872, 3881); (4160, 4169); (4240, 4249);
   (6112, 6121); (6160, 6169); (6470, 6479); (6608, 6617); (6784, 6793); (6800, 6809);
   (6992, 7001); (7088, 7097); (7232, 7241); (7248, 7257); (42528, 42537); (43216, 43225);
   (43264, 43273); (43472, 43481); (43504, 43513); (43600, 43609); (44016, 44025); (65296, 65305);
   (66720, 66729); (68912, 68921); (69734, 69743); (69872, 69881); (69942, 69951); (70096, 70105);
   (70384, 70393); (70736, 70745); (70864, 70873); (71248, 71257); (71360, 71369); (71472, 71481);
   (71904, 71913); (72016, 72025); (72784, 72793); (73040, 73049); (73120, 73129); (92768, 92777);
   (92864, 92873); (93008, 93017); (120782, 120831); (123200, 123209); (123632, 123641); (125264, 125273);
   (130032, 130041)]%N.

(** [str.isdigit]: the decimal digits and the other digits (superscripts,
    circled digits and the like). *)
Definition digit_table : list (N * N) :=
  [
   (178, 179); (185, 185); (1632, 1641); (1776, 1785); (1984, 1993); (2406, 2415);
   (2534, 2543); (2662, 2671); (2790, 2799); (2918, 2927); (3046, 3055); (3174, 3183);
   (3302, 3311); (3430, 3439); (3558, 3567); (3664, 3673); (3792, 3801); (3872, 3881);
   (4160, 4169); (4240, 4249); (4969, 4977); (6112, 6121); (6160, 6169); (6470, 6479);
   (6608, 6618); (6784, 6793); (6800, 6809); (6992, 7001); (7088, 7097); (7232, 7241);
   (7248, 7257); (8304, 8304); (8308, 8313); (8320, 8329); (9312, 9320); (9332, 9340);
   (9352, 9360); (9450, 9450); (9461, 9469); (9471, 9471); (10102, 10110); (10112, 10120);
   (10122, 10130); (42528, 42537); (43216, 43225); (43264, 43273); (43472, 43481); (43504, 43513);
   (43600, 43609); (44016, 44025); (65296, 65305); (66720, 66729); (68160, 68163); (68912, 68921);
   (69216, 69224); (69714, 69722); (69734, 69743); (69872, 69881); (69942, 69951); (70096, 70105);
   (70384, 70393); (70736, 70745); (70864, 70873); (71248, 71257); (71360, 71369); (71472, 71481);
   (71904, 71913); (72016, 72025); (72784, 72793); (73040, 73049); (73120, 73129); (92768, 92777);
   (92864, 92873); (93008, 93017); (120782, 120831); (123200, 123209); (123632, 123641); (125264, 125273);
   (127232, 127242); (130032, 130041)]%N.

(** [str.isspace]. *)
Definition space_table : list (N * N) :=
  [(133, 133); (160, 160); (5760, 5760); (8192, 8202); (8232, 8233);
   (8239, 8239); (8287, 8287); (12288, 12288)]%N.

(** A class of characters: [ascii_class] on the ASCII range, [table]
    above it. *)
Definition char_in (ascii_class : ascii -> bool) (table : list (N * N)) (ch : string) : bool :=
  match ch with
  | String c EmptyString => ascii_class c
  | _ =>
      match ord ch with
      | Some cp => in_ranges cp table
      | None => false
      end
  end.

(** [\w] of [re] on a [str] pattern: [str.isalnum] or the underscore. *)
Definition is_word_char : string -> bool := char_in is_word alnum_table.

(** [str.isdigit] on one character. *)
Definition is_digit_char : string -> bool := char_in is_digit digit_table.

(** [str.isspace] on one character. *)
Definition is_space_char : string -> bool := char_in is_space space_table.

(** The value of a decimal digit, [None] for any other character. *)
Definition decimal_of (ch : string) : option Z :=
  match ch with
  | String c EmptyString => if is_digit c then Some (digit_val c) else None
  | _ =>
      match ord ch with
      | Some cp =>
          match List.find (in_range cp) decimal_table with
          | Some r => Some (Z.of_N ((cp - fst r) mod 10))
          | None => None
          end
      | None => None
      end
  end.

(** [\d] of [re] on a [str] pattern: [str.isdecimal]. *)
Definition is_decimal_char (ch : string) : bool :=
  match decimal_of ch with
  | Some _ => true
  | None => false
  end.

(** The longest prefix of [l] whose characters satisfy [p], and the rest. *)
Fixpoint span_chars (p : string -> bool) (l : list string) : list string * list string :=
  match l with
  | ch :: l' =>
      if p ch then let '(a, b) := span_chars p l' in (ch :: a, b) else ([], l)
  | [] => ([], [])
  end.

Fixpoint lstrip_chars (l : list string) : list string :=
  match l with
  | ch :: l' => if is_space_char ch then lstrip_chars l' else l
  | [] => []
  end.

(** [s.lstrip()]. *)
Definition lstrip (s : string) : string := joined (lstrip_chars (chars s)).

(** [s.strip()]. *)
Definition strip (s : string) : string :=
  joined (rev (lstrip_chars (rev (lstrip_chars (chars s))))).

(** [s.isdigit()]: not empty and digits only. *)
Definition isdigit (s : string) : bool := truthy s && forallb is_digit_char (chars s).

(** The longest prefix of [s] whose characters satisfy [p], and the rest. *)
Fixpoint span (p : ascii -> bool) (s : string) : string * string :=
  match s with
  | String c s' =>
      if p c then let '(a, b) := span p s' in (String c a, b) else (EmptyString, s)
  | EmptyString => (EmptyString, EmptyString)
  end.

(** [s.split(sep, 1)] for a one-character [sep] that occurs in [s]: the
    text before its first occurrence and the text after it. *)
Fixpoint split_once (s : string) (sep : ascii) : option (string * string) :=
  match s with
  | EmptyString => None
  | String c s' =>
      if Ascii.eqb c sep then Some (EmptyString, s')
      else option_map (fun '(a, b) => (String c a, b)) (split_once s' sep)
  end.

(** [s.split(sep)] for a one-character [sep]. *)
Fixpoint split (s : string) (sep : ascii) : list string :=
  match s with
  | EmptyString => [EmptyString]
  | String c s' =>
      if Ascii.eqb c sep then EmptyString :: split s' sep
      else
        match split s' sep with
        | w :: ws => String c w :: ws
        | [] => [String c EmptyString]
        end
  end.

(** *** Integers and their decimal form *)

(** The value of a run of decimal digits read after the value [acc]. *)
Fixpoint digits_value (acc : Z) (s : string) : Z :=
  match s with
  | EmptyString => acc
  | String c s' => digits_value (acc * 10 + digit_val c) s'
  end.

(** The whitespace [int] skips before and after a literal. *)
Fixpoint skip_spaces (s : string) : string :=
  match s with
  | String c s' => if is_c_space c then skip_spaces s' else s
  | EmptyString => EmptyString
  end.

Fixpoint skip_spaces_end (s : string) : string :=
  match s with
  | EmptyString => EmptyString
  | String c s' =>
      match skip_spaces_end s' with
      | EmptyString => if is_c_space c then EmptyString else String c EmptyString
      | r => String c r
      end
  end.

(** What [int] makes of a character before it reads the literal: an ASCII
    character stays, whitespace beyond ASCII becomes a space, a decimal
    digit beyond ASCII its ASCII digit, and anything else a character no
    literal holds. *)
Definition int_char (ch : string) : string :=
  match ch with
  | String c EmptyString => ch
  | _ =>
      if is_space_char ch then " "
      else
        match decimal_of ch with
        | Some d => String (digit_char d) EmptyString
        | None => "?"
        end
  end.

Definition int_text (s : string) : string := joined (map int_char (chars s)).

(** The body of an integer literal as [int] accepts it: decimal digits, with
    single underscores allowed between two digits. [after_digit] tells
    whether the character just read was a digit. *)
Fixpoint int_body (acc : Z) (after_digit : bool) (s : string) : option Z :=
  match s with
  | EmptyString => if after_digit then Some acc else None
  | String c s' =>
      if is_digit c then int_body (acc * 10 + digit_val c) true s'
      else if (code c =? 95)%N && after_digit then int_body acc false s'
      else None
  end.

(** [int(s)] for a string [s]: surrounding whitespace is dropped, one sign is
    allowed; [None] stands for [ValueError]. *)
Definition int_literal (s : string) : option Z :=
  match skip_spaces_end (skip_spaces s) with
  | String c b =>
      if Ascii.eqb c "-" then option_map Z.opp (int_body 0 false b)
      else if Ascii.eqb c "+" then int_body 0 false b
      else int_body 0 false (String c b)
  | EmptyString => None
  end.

Definition int_of_str (s : string) : option Z := int_literal (int_text s).

Definition int (s : string) : result Z := or_raise ValueError (int_of_str s).

(** The decimal digits of a non-negative [n], most significant first, put
    in front of [acc]; [fuel] bounds the number of digits. *)
Fixpoint digits_of (fuel : nat) (n : Z) (acc : string) : string :=
  match fuel with
  | O => acc
  | S fuel' =>
      let acc' := String (digit_char (n mod 10)) acc in
      if n <? 10 then acc' else digits_of fuel' (n / 10) acc'
  end.

(** [str(n)] for an integer [n], also what an f-string prints for it. *)
Definition str_of_int (n : Z) : string :=
  if n <? 0 then String "-" (digits_of (S (Z.to_nat (Z.log2 (- n)))) (- n) "")
  else digits_of (S (Z.to_nat (Z.log2 n))) n "".

End Py.

Import Py.

(** ** [os.path] on POSIX *)

Module OsPath.

(** [os.path.join(a, b)]: an absolute [b] replaces [a]; otherwise [b] is
    appended, after a separator unless [a] is empty or ends with one. *)
Definition join (a b : string) : string :=
  if startswith b "/" then b
  else if negb (truthy a) || endswith_char a "/" then a +:+ b
  else a +:+ "/" +:+ b.

(** [os.path.join(a, b, c)]. *)
Definition join3 (a b c : string) : string := join (join a b) c.

End OsPath.

(** ** [byre.utils] *)

Module Utils.

(** Modelled from the spec: [byre.utils.int_or] is not in the sources at
    hand; counts and ids are read defensively, an unparseable text giving
    the default, which is 0 when the caller passes none. A text counts as
    parseable when [int] reads it. *)
Definition int_or (s : string) (default : Z) : Z :=
  match int_of_str s with
  | Some n => n
  | None => default
  end.

End Utils.

(** ** [urllib.parse] *)

Module Urllib.

(** [urlparse(href).query]: what stands between the first question mark
    and the fragment. This is [urlparse] on the addresses the site writes
    and a user pastes, whose part before the query is plain; the checks
    [urlparse] makes on a network location (brackets, characters beyond
    ASCII) and its removal of tabs and line breaks are not modelled. *)
Definition query_of (href : string) : string :=
  match split_once (hd EmptyString (split href "#")) "?" with
  | Some (_, q) => q
  | None => EmptyString
  end.

(** [parse_qs(query)] as a list of (name, values) in order of first
    appearance; fields without a value are left out, as [parse_qs] does by
    default. Percent escapes and plus signs are not decoded: this is
    [parse_qs] on the queries without them. *)
Fixpoint add_value (name value : string) (d : list (string * list string))
  : list (string * list string) :=
  match d with
  | [] => [(name, [value])]
  | (n, vs) :: d' =>
      if String.eqb n name then (n, vs ++ [value]) :: d'
      else (n, vs) :: add_value name value d'
  end.

Definition parse_qs (query : string) : list (string * list string) :=
  fold_left
    (fun d field =>
       match split_once field "=" with
       | Some (name, value) => if truthy value then add_value name value d else d
       | None => d
       end)
    (split query "&") [].

Fixpoint lookup (name : string) (d : list (string * list string)) : option (list string) :=
  match d with
  | [] => None
  | (n, vs) :: d' => if String.eqb n name then Some vs else lookup name d'
  end.

End Urllib.

(** ** [byre/bt.py]: the qBittorrent wrapper *)

Module Bt.

(** [byre.clients.data.TorrentInfo], with the fields [bt.py] reads. *)
Module TorrentInfo.
Record t : Type := mk {
  title : string;
  seed_id : Z;
  site : string;
  category : string;
  second_category : string
}.
End TorrentInfo.

(** [qbittorrentapi.TorrentDictionary] behind [TypedTorrent], with the
    fields [bt.py] reads. *)
Module TypedTorrent.
Record t : Type := mk {
  name : string;
  hash : string;
  save_path : string
}.
End TypedTorrent.

(** [LocalTorrent(torrent, seed_id, site, info)]. *)
Module LocalTorrent.
Record t : Type := mk {
  torrent : TypedTorrent.t;
  seed_id : Z;
  site : string;
  info : option TorrentInfo.t
}.
End LocalTorrent.

(** [re.match("^\\[(\\w+)-\\d+]", name)], returning [group(1)]. The pattern
    is a [str], so [\w] and [\d] are the Unicode classes. Both repetitions
    are greedy, and the character that must follow each run is outside its
    class, so the longest run is the only one that can match. *)
Definition re_match_site (name : string) : option string :=
  match chars name with
  | c0 :: rest =>
      if String.eqb c0 "[" then
        let '(w, after_w) := span_chars is_word_char rest in
        match after_w with
        | c1 :: rest' =>
            if negb (Nat.eqb (length w) 0) && String.eqb c1 "-" then
              let '(d, after_d) := span_chars is_decimal_char rest' in
              match after_d with
              | c2 :: _ =>
                  if negb (Nat.eqb (length d) 0) && String.eqb c2 "]"
                  then Some (joined w) else None
              | [] => None
              end
            else None
        | [] => None
        end
      else None
  | [] => None
  end.

(** [BtClient.local_torrent_from(torrent, site)]. *)
Definition local_torrent_from (torrent : TypedTorrent.t) (site : option string)
  : result LocalTorrent.t :=
  let t := torrent in
  let name := TypedTorrent.name t in
  rbind
    (match site with
     | None =>
         match re_match_site name with
         | None => Raise ValueError
         | Some group1 => Return group1
         end
     | Some site => Return site
     end)
    (fun site =>
       let prefix := "[" +:+ site +:+ "-" in
       if startswith name prefix then
         rbind (index name "]") (fun close =>
           let seed_id := Utils.int_or (slice name (String.length prefix) close) 0 in
           if negb (seed_id =? 0) then
             Return (LocalTorrent.mk t seed_id site None)
           else Raise ValueError)
       else Raise ValueError).

(** [BtClient._generate_rename(info)]:
    [f"[{info.site}-{info.seed_id}]{info.title}"]. *)
Definition _generate_rename (info : TorrentInfo.t) : string :=
  "[" +:+ TorrentInfo.site info +:+ "-" +:+ str_of_int (TorrentInfo.seed_id info)
      +:+ "]" +:+ TorrentInfo.title info.

(** What a Python iterable gives when it is iterated: a collection (list,
    set, tuple) gives its items every time, a generator gives them once and
    is empty afterwards. *)
Inductive iterable (A : Type) : Type :=
  | collection (items : list A)
  | generator (items : list A).
Arguments collection {A} items.
Arguments generator {A} items.

(** One full iteration: the items seen, and the iterable as it is left. *)
Definition iterate {A} (it : iterable A) : list A * iterable A :=
  match it with
  | collection items => (items, collection items)
  | generator items => (items, generator [])
  end.

(** The [exists] argument of [add_torrent]: a [bool] or a [LocalTorrent]. *)
Inductive exists_arg : Type :=
  | exists_flag (b : bool)
  | exists_local (l : LocalTorrent.t).

(** [bool(exists)]: a [LocalTorrent] is an object without [__bool__] or
    [__len__], hence truthy. *)
Definition bool_of_exists (e : exists_arg) : bool :=
  match e with
  | exists_flag b => b
  | exists_local _ => true
  end.

(** The calls [bt.py] makes to its collaborators, as they reach them. *)
Inductive call : Type :=
  | torrents_create_category (name torrent_dir : string)
  | torrents_add (torrent_files : string) (save_path category : string)
      (is_skip_checking is_paused : bool) (rename : string)
      (tags : list string) (upload_limit : Z)
  | torrents_rename (torrent_hash new_name : string)
  | torrents_delete (delete_files : bool) (torrent_hashes : list string)
  | time_sleep (milliseconds : Z).

(** The qBittorrent instance behind [self.client]: its categories with
    their save paths, and the calls received so far. A call that raises
    (a lost connection, a request the client refuses) ends the method that
    made it; the calls of such a run are a prefix of the ones given here. *)
Record qbittorrent : Type := mk_qbittorrent {
  categories : gmap string string;
  calls : list call
}.

Definition record (c : call) (q : qbittorrent) : qbittorrent :=
  mk_qbittorrent (categories q) (calls q ++ [c]).

(** The client's side of [torrents_create_category]: a category it already
    has is kept as it is. *)
Definition create_category (name torrent_dir : string) (q : qbittorrent) : qbittorrent :=
  record (torrents_create_category name torrent_dir)
    (mk_qbittorrent
       (match categories q !! name with
        | Some _ => categories q
        | None => <[name := torrent_dir]> (categories q)
        end)
       (calls q)).

Section Client.

(** [os.path.realpath] depends on the file system (symbolic links, the
    working directory). *)
Variable realpath : string -> string.

(** Python's [float], as far as [BtClient] computes with it:
    [x * n] for an integer [n], and [int(x)], which raises
    [OverflowError] on an infinity and [ValueError] on a NaN. *)
Variable float : Type.
Variable float_mul : float -> Z -> float.
Variable float_int : float -> result Z.

Record BtClient : Type := mk_BtClient {
  upload_limit : float
}.

(** [BtClient._get_download_dir(download_dir, torrent)]. *)
Definition _get_download_dir (download_dir : string) (torrent : TorrentInfo.t) : string :=
  let realpath := realpath download_dir in
  if truthy (TorrentInfo.second_category torrent)
  then OsPath.join3 realpath (TorrentInfo.category torrent)
         (TorrentInfo.second_category torrent)
  else OsPath.join realpath (TorrentInfo.category torrent).

(** The loop of [init_categories]: [download_dir] is the variable the loop
    body assigns to. *)
Fixpoint init_categories_loop (existing : gset string) (download_dir : string)
    (categories : list string) (q : qbittorrent) : qbittorrent :=
  match categories with
  | [] => q
  | category :: rest =>
      if decide (category ∈ existing) then
        init_categories_loop existing download_dir rest q
      else
        let download_dir := OsPath.join (realpath download_dir) category in
        init_categories_loop existing download_dir rest
          (create_category category download_dir q)
  end.

(** [BtClient.init_categories(download_dir, categories)]. *)
Definition init_categories (download_dir : string) (categories : list string)
    (q : qbittorrent) : qbittorrent :=
  let existing := dom (Bt.categories q) in
  init_categories_loop existing download_dir categories q.

(** [BtClient.add_torrent(torrent, info, download_dir, paused, exists)].
    The arguments of [torrents_add] are computed before the call is made:
    when [int] raises on the upload limit, no call is issued. *)
Definition add_torrent (self : BtClient) (torrent : string)
    (info : TorrentInfo.t) (download_dir : string) (paused : bool)
    (exists_ : exists_arg) (q : qbittorrent) : result unit * qbittorrent :=
  let title := _generate_rename info in
  let save_path :=
    match exists_ with
    | exists_local l => TypedTorrent.save_path (LocalTorrent.torrent l)
    | exists_flag _ => _get_download_dir download_dir info
    end in
  match float_int (float_mul (float_mul (upload_limit self) 1024) 1024) with
  | Return upload_limit =>
      (Return tt,
       record
         (torrents_add torrent save_path (TorrentInfo.category info)
            (bool_of_exists exists_) paused title [TorrentInfo.site info]
            upload_limit)
         q)
  | Raise e => (Raise e, q)
  end.

(** [BtClient.rename_torrent(torrent, info)]. *)
Definition rename_torrent (torrent : LocalTorrent.t) (info : TorrentInfo.t)
    (q : qbittorrent) : qbittorrent :=
  let title := _generate_rename info in
  record (torrents_rename (TypedTorrent.hash (LocalTorrent.torrent torrent)) title) q.

(** [BtClient.remove_torrent(torrent, extra)]. [extra] is iterated twice:
    once for the names in the log message, once for the hashes. *)
Definition remove_torrent (torrent : LocalTorrent.t)
    (extra : option (iterable LocalTorrent.t)) (q : qbittorrent) : qbittorrent :=
  let q :=
    match extra with
    | Some extra =>
        let '(_logged, extra) := iterate extra in
        let '(siblings, _) := iterate extra in
        let q :=
          record
            (torrents_delete false
               (map (fun t => TypedTorrent.hash (LocalTorrent.torrent t)) siblings))
            q in
        record (time_sleep 500) q
    | None => q
    end in
  record (torrents_delete true [TypedTorrent.hash (LocalTorrent.torrent torrent)]) q.

End Client.

End Bt.

(** ** [bs4]: the parsed page *)

Module Bs4.

(** A node of the parse tree: a string, or a tag with its name, its
    attributes as written and its contents. *)
Inductive node : Type :=
  | NavigableString (s : string)
  | Tag (name : string) (attrs : list (string * string)) (contents : list node).

(** A [bs4] object knows where it sits in its document: it is modelled as
    the document and the path (child indices from the root) leading to it. *)
Record element : Type := mk_element {
  document : node;
  path : list nat
}.

Definition contents_of (n : node) : list node :=
  match n with
  | NavigableString _ => []
  | Tag _ _ contents => contents
  end.

Fixpoint node_at (n : node) (p : list nat) : option node :=
  match p with
  | [] => Some n
  | i :: p' =>
      match nth_error (contents_of n) i with
      | Some c => node_at c p'
      | None => None
      end
  end.

(** The node an element stands for. *)
Definition here (e : element) : option node := node_at (document e) (path e).

(** The paths of the nodes below [n], in document order. *)
Fixpoint descendants (n : node) : list (list nat) :=
  match n with
  | NavigableString _ => []
  | Tag _ _ contents =>
      (fix below (i : nat) (cs : list node) : list (list nat) :=
         match cs with
         | [] => []
         | c :: cs' => ([i] :: map (cons i) (descendants c)) ++ below (S i) cs'
         end) O contents
  end.

Definition is_tag (n : node) : bool :=
  match n with Tag _ _ _ => true | NavigableString _ => false end.

Definition name_of (n : node) : string :=
  match n with Tag name _ _ => name | NavigableString _ => "" end.

Fixpoint assoc (k : string) (l : list (string * string)) : option string :=
  match l with
  | [] => None
  | (k', v) :: l' => if String.eqb k k' then Some v else assoc k l'
  end.

(** [tag.attrs.get(key)]. *)
Definition get (n : node) (key : string) : option string :=
  match n with
  | Tag _ attrs _ => assoc key attrs
  | NavigableString _ => None
  end.

(** The whitespace-separated words of an attribute value (the classes of a
    [class] attribute). *)
Fixpoint words_from (cur : string) (s : string) : list string :=
  match s with
  | EmptyString => if truthy cur then [cur] else []
  | String c s' =>
      if is_space c then
        (if truthy cur then [cur] else []) ++ words_from EmptyString s'
      else words_from (cur +:+ String c EmptyString) s'
  end.

Definition classes_of (n : node) : list string :=
  match get n "class" with
  | Some v => words_from EmptyString v
  | None => []
  end.

(** *** Selectors *)

Inductive attr_test : Type :=
  | attr_equals (key value : string)      (* [key=value]  *)
  | attr_prefix (key value : string).     (* [key^=value] *)

(** A compound selector: [name#id.class[attr...]], each part optional. *)
Record compound : Type := mk_compound {
  c_name : option string;
  c_id : option string;
  c_classes : list string;
  c_attrs : list attr_test
}.

Inductive combinator : Type :=
  | descendant   (* [A B]   *)
  | child.       (* [A > B] *)

(** A complex selector, right to left: the compound the selected element
    must match, then what must hold of its ancestors. *)
Definition selector : Type := (compound * list (combinator * compound))%type.

Definition is_ident (c : ascii) : bool :=
  negb (is_space c) &&
  negb (existsb (Ascii.eqb c) [">"; "."; "#"; "["; "]"; "="; "^"]%char).

(** The parts following the name of a compound selector. *)
Fixpoint parse_parts (fuel : nat) (c : compound) (s : string)
  : option (compound * string) :=
  match fuel with
  | O => None
  | S fuel' =>
      match s with
      | String "." s' =>
          let '(cls, r) := span is_ident s' in
          if truthy cls then
            parse_parts fuel'
              (mk_compound (c_name c) (c_id c) (c_classes c ++ [cls]) (c_attrs c)) r
          else None
      | String "#" s' =>
          let '(i, r) := span is_ident s' in
          if truthy i then
            parse_parts fuel' (mk_compound (c_name c) (Some i) (c_classes c) (c_attrs c)) r
          else None
      | String "[" s' =>
          let '(k, r) := span is_ident s' in
          if truthy k then
            match r with
            | String "=" r' =>
                let '(v, r'') := span (fun x => negb (Ascii.eqb x "]")) r' in
                match r'' with
                | String "]" r3 =>
                    parse_parts fuel'
                      (mk_compound (c_name c) (c_id c) (c_classes c)
                         (c_attrs c ++ [attr_equals k v])) r3
                | _ => None
                end
            | String "^" (String "=" r') =>
                let '(v, r'') := span (fun x => negb (Ascii.eqb x "]")) r' in
                match r'' with
                | String "]" r3 =>
                    parse_parts fuel'
                      (mk_compound (c_name c) (c_id c) (c_classes c)
                         (c_attrs c ++ [attr_prefix k v])) r3
                | _ => None
                end
            | _ => None
            end
          else None
      | _ => Some (c, s)
      end
  end.

Definition parse_compound (s : string) : option (compound * string) :=
  let '(name, r) := span is_ident s in
  match
    parse_parts (S (String.length r))
      (mk_compound (if truthy name then Some name else None) None [] []) r
  with
  | Some (c, r') =>
      match c_name c, c_id c, c_classes c, c_attrs c with
      | None, None, [], [] => None
      | _, _, _, _ => Some (c, r')
      end
  | None => None
  end.

(** The selector of a string such as ["td.embedded>table>tr"]; [acc] holds
    the compounds read so far, the last one first. *)
Fixpoint parse_complex (fuel : nat) (acc : selector) (s : string) : option selector :=
  match fuel with
  | O => None
  | S fuel' =>
      let r := lstrip s in
      match r with
      | EmptyString => Some acc
      | String ">" r' =>
          match parse_compound (lstrip r') with
          | Some (c, r'') => parse_complex fuel' (c, (child, fst acc) :: snd acc) r''
          | None => None
          end
      | _ =>
          if truthy r && negb (String.eqb r s) then
            match parse_compound r with
            | Some (c, r'') => parse_complex fuel' (c, (descendant, fst acc) :: snd acc) r''
            | None => None
            end
          else None
      end
  end.

Definition parse_selector (s : string) : option selector :=
  match parse_compound (strip s) with
  | Some (c, r) => parse_complex (S (String.length r)) (c, []) r
  | None => None
  end.

(** *** Matching *)

Definition test_attr (n : node) (t : attr_test) : bool :=
  match t with
  | attr_equals key value =>
      match get n key with Some v => String.eqb v value | None => false end
  | attr_prefix key value =>
      match get n key with Some v => startswith v value | None => false end
  end.

Definition matches_compound (c : compound) (n : node) : bool :=
  is_tag n &&
  match c_name c with Some name => String.eqb name (name_of n) | None => true end &&
  match c_id c with
  | Some i => match get n "id" with Some v => String.eqb v i | None => false end
  | None => true
  end &&
  forallb (fun cls => existsb (String.eqb cls) (classes_of n)) (c_classes c) &&
  forallb (test_attr n) (c_attrs c).

Definition matches_at (doc : node) (c : compound) (p : list nat) : bool :=
  match node_at doc p with
  | Some n => matches_compound c n
  | None => false
  end.

(** The paths of the ancestors of the node at [p], the root first. *)
Fixpoint ancestors (p : list nat) : list (list nat) :=
  match p with
  | [] => []
  | i :: p' => [] :: map (cons i) (ancestors p')
  end.

Definition parent (p : list nat) : option (list nat) := last (ancestors p).

(** What a complex selector asks of the ancestors of the node at [p]. *)
Fixpoint matches_above (doc : node) (rest : list (combinator * compound))
    (p : list nat) : bool :=
  match rest with
  | [] => true
  | (child, c) :: rest' =>
      match parent p with
      | Some pp => matches_at doc c pp && matches_above doc rest' pp
      | None => false
      end
  | (descendant, c) :: rest' =>
      existsb (fun pp => matches_at doc c pp && matches_above doc rest' pp) (ancestors p)
  end.

Definition matches (doc : node) (sel : selector) (p : list nat) : bool :=
  matches_at doc (fst sel) p && matches_above doc (snd sel) p.

(** The elements below [e], in document order. *)
Definition below (e : element) : list element :=
  match here e with
  | Some n => map (fun p => mk_element (document e) (path e ++ p)) (descendants n)
  | None => []
  end.

(** [e.select(sel)]: the tags below [e] that match the selector, in
    document order. *)
Definition select (e : element) (sel : string) : list element :=
  match parse_selector sel with
  | Some s => List.filter (fun e' => matches (document e) s (path e')) (below e)
  | None => []
  end.

(** [e.select_one(sel)]. *)
Definition select_one (e : element) (sel : string) : option element :=
  head (select e sel).

Definition is_named (name : string) (e : element) : bool :=
  match here e with
  | Some n => is_tag n && String.eqb name (name_of n)
  | None => false
  end.

(** [e.find(name)]: the first tag of that name below [e]. *)
Definition find (e : element) (name : string) : option element :=
  head (List.filter (is_named name) (below e)).

(** [e.find_all(name, recursive=False)]: the children of [e] of that name. *)
Definition find_all_children (e : element) (name : string) : list element :=
  List.filter (is_named name)
    (map (fun i => mk_element (document e) (path e ++ [i]))
       (seq 0 (length (match here e with Some n => contents_of n | None => [] end)))).

(** [e.find_parent(name)]: the nearest ancestor of that name. *)
Definition find_parent (e : element) (name : string) : option element :=
  head (List.filter (is_named name)
          (map (mk_element (document e)) (rev (ancestors (path e))))).

(** [e.next_sibling]. *)
Definition next_sibling (e : element) : option element :=
  match rev (path e) with
  | i :: rp =>
      let p := rev rp ++ [S i] in
      match node_at (document e) p with
      | Some _ => Some (mk_element (document e) p)
      | None => None
      end
  | [] => None
  end.

(** The first node after the subtree at the path whose reverse is [rp]. *)
Fixpoint after (doc : node) (rp : list nat) : option (list nat) :=
  match rp with
  | [] => None
  | i :: rp' =>
      let p := rev rp' ++ [S i] in
      match node_at doc p with
      | Some _ => Some p
      | None => after doc rp'
      end
  end.

(** [e.next] (also [e.next_element]): the node parsed right after [e], its
    first child when it has one. *)
Definition next (e : element) : option element :=
  match here e with
  | Some (Tag _ _ (_ :: _)) => Some (mk_element (document e) (path e ++ [O]))
  | _ => option_map (mk_element (document e)) (after (document e) (rev (path e)))
  end.

(** The strings below a node, in document order. *)
Fixpoint strings (n : node) : list string :=
  match n with
  | NavigableString s => [s]
  | Tag _ _ contents =>
      (fix all (cs : list node) : list string :=
         match cs with
         | [] => []
         | c :: cs' => strings c ++ all cs'
         end) contents
  end.

Definition join_strings (l : list string) : string :=
  fold_right String.append EmptyString l.

(** [n.text], [n.get_text()]. *)
Definition text (n : node) : string := join_strings (strings n).

(** [n.get_text(strip=True)]: the strings stripped, the empty ones left
    out. *)
Definition get_text_strip (n : node) : string :=
  join_strings (List.filter truthy (map strip (strings n))).

Definition quote_char : ascii := ascii_of_N 34.

Definition void_names : list string :=
  ["area"; "base"; "br"; "col"; "embed"; "hr"; "img"; "input"; "link"; "meta";
   "param"; "source"; "track"; "wbr"].

(** [str(n)]: a string as it is, a tag as markup (character references are
    not modelled). *)
Fixpoint str (n : node) : string :=
  match n with
  | NavigableString s => s
  | Tag name attrs contents =>
      let attrs_str :=
        join_strings
          (map (fun kv => " " +:+ fst kv +:+ "=" +:+ String quote_char (snd kv +:+ String quote_char EmptyString))
             attrs) in
      match contents with
      | [] =>
          if existsb (String.eqb name) void_names
          then "<" +:+ name +:+ attrs_str +:+ "/>"
          else "<" +:+ name +:+ attrs_str +:+ "></" +:+ name +:+ ">"
      | _ =>
          "<" +:+ name +:+ attrs_str +:+ ">" +:+
          (fix all (cs : list node) : string :=
             match cs with
             | [] => EmptyString
             | c :: cs' => str c +:+ all cs'
             end) contents
          +:+ "</" +:+ name +:+ ">"
      end
  end.

(** The same readings on an element (one obtained from a selection always
    stands for a node). *)
Definition attrs_get (e : element) (key : string) : option string :=
  match here e with Some n => get n key | None => None end.

Definition text_of (e : element) : string :=
  match here e with Some n => text n | None => EmptyString end.

Definition get_text (e : element) : string :=
  match here e with Some n => get_text_strip n | None => EmptyString end.

Definition is_string (e : element) : bool :=
  match here e with Some (NavigableString _) => true | _ => false end.

(** [str(x)] for [x] an element or [None]. *)
Definition str_of (x : option element) : string :=
  match x with
  | Some e => match here e with Some n => str n | None => "None" end
  | None => "None"
  end.

End Bs4.

(** ** [byre/api.py]: the tracker scraper *)

Module Api.

Module ByrUser.

Record t (float : Type) : Type := mk {
  user_id : Z;
  username : string;
  level : string;
  mana : float;
  invitations : option Z;
  ratio : float;
  uploaded : float;
  downloaded : float;
  ranking : option Z;
  seeding : Z;
  downloading : Z;
  connectable : bool
}.
Arguments mk {float}.
Arguments user_id {float}.
Arguments username {float}.
Arguments level {float}.
Arguments mana {float}.
Arguments invitations {float}.
Arguments ratio {float}.
Arguments uploaded {float}.
Arguments downloaded {float}.
Arguments ranking {float}.
Arguments seeding {float}.
Arguments downloading {float}.
Arguments connectable {float}.

(** The assignments [user.field = v]. *)
Definition set_user_id {float} (v : Z) (u : t float) : t float :=
  mk v (username u) (level u) (mana u) (invitations u) (ratio u) (uploaded u) (downloaded u) (ranking u) (seeding u) (downloading u) (connectable u).
Definition set_username {float} (v : string) (u : t float) : t float :=
  mk (user_id u) v (level u) (mana u) (invitations u) (ratio u) (uploaded u) (downloaded u) (ranking u) (seeding u) (downloading u) (connectable u).
Definition set_level {float} (v : string) (u : t float) : t float :=
  mk (user_id u) (username u) v (mana u) (invitations u) (ratio u) (uploaded u) (downloaded u) (ranking u) (seeding u) (downloading u) (connectable u).
Definition set_mana {float} (v : float) (u : t float) : t float :=
  mk (user_id u) (username u) (level u) v (invitations u) (ratio u) (uploaded u) (downloaded u) (ranking u) (seeding u) (downloading u) (connectable u).
Definition set_invitations {float} (v : option Z) (u : t float) : t float :=
  mk (user_id u) (username u) (level u) (mana u) v (ratio u) (uploaded u) (downloaded u) (ranking u) (seeding u) (downloading u) (connectable u).
Definition set_ratio {float} (v : float) (u : t float) : t float :=
  mk (user_id u) (username u) (level u) (mana u) (invitations u) v (uploaded u) (downloaded u) (ranking u) (seeding u) (downloading u) (connectable u).
Definition set_uploaded {float} (v : float) (u : t float) : t float :=
  mk (user_id u) (username u) (level u) (mana u) (invitations u) (ratio u) v (downloaded u) (ranking u) (seeding u) (downloading u) (connectable u).
Definition set_downloaded {float} (v : float) (u : t float) : t float :=
  mk (user_id u) (username u) (level u) (mana u) (invitations u) (ratio u) (uploaded u) v (ranking u) (seeding u) (downloading u) (connectable u).
Definition set_ranking {float} (v : option Z) (u : t float) : t float :=
  mk (user_id u) (username u) (level u) (mana u) (invitations u) (ratio u) (uploaded u) (downloaded u) v (seeding u) (downloading u) (connectable u).
Definition set_seeding {float} (v : Z) (u : t float) : t float :=
  mk (user_id u) (username u) (level u) (mana u) (invitations u) (ratio u) (uploaded u) (downloaded u) (ranking u) v (downloading u) (connectable u).
Definition set_downloading {float} (v : Z) (u : t float) : t float :=
  mk (user_id u) (username u) (level u) (mana u) (invitations u) (ratio u) (uploaded u) (downloaded u) (ranking u) (seeding u) v (connectable u).
Definition set_connectable {float} (v : bool) (u : t float) : t float :=
  mk (user_id u) (username u) (level u) (mana u) (invitations u) (ratio u) (uploaded u) (downloaded u) (ranking u) (seeding u) (downloading u) v.

(** Modelled from the spec: the class [ByrUser] ([byre.data]) is not in the
    sources at hand. Its fields are the ones [api.py] assigns; [ByrUser()]
    gives the defaults of the spec's user record: id 0, empty texts, zero
    amounts, no invitations and no ranking, no live seeding or downloading,
    not connectable. [zero] is the float [0.]. *)
Definition init {float} (zero : float) : t float :=
  mk 0 EmptyString EmptyString zero None zero zero zero None 0 0 false.

End ByrUser.

(** [byre.data.TorrentInfo], with the fields [api.py] fills in. *)
Module TorrentInfo.
Record t (float : Type) : Type := mk {
  title : string;
  sub_title : string;
  seed_id : Z;
  cat : string;
  category : string;
  promotions : list string;
  file_size : float;
  live_time : float;
  seeders : Z;
  leechers : Z;
  finished : Z;
  comments : Z;
  uploader : ByrUser.t float;
  uploaded : float;
  downloaded : float
}.
Arguments mk {float}.
Arguments title {float}.
Arguments sub_title {float}.
Arguments seed_id {float}.
Arguments cat {float}.
Arguments category {float}.
Arguments promotions {float}.
Arguments file_size {float}.
Arguments live_time {float}.
Arguments seeders {float}.
Arguments leechers {float}.
Arguments finished {float}.
Arguments comments {float}.
Arguments uploader {float}.
Arguments uploaded {float}.
Arguments downloaded {float}.
End TorrentInfo.

(** [ByrClient], as far as [ByrApi] uses it: the paths requested so far. *)
Record ByrClient : Type := mk_ByrClient {
  requests : list string
}.

(** [ByrApi]: its client and the cached id of the current user. *)
Record ByrApi : Type := mk_ByrApi {
  client : ByrClient;
  _user_id : Z
}.

(** A method of [ByrApi]: it returns or raises, and leaves the object in a
    new state either way. *)
Definition M (A : Type) : Type := ByrApi -> result A * ByrApi.

Definition ret {A} (a : A) : M A := fun self => (Return a, self).

Definition lift {A} (r : result A) : M A := fun self => (r, self).

Definition bind {A B} (m : M A) (k : A -> M B) : M B :=
  fun self =>
    match m self with
    | (Return a, self') => k a self'
    | (Raise e, self') => (Raise e, self')
    end.

Notation "x <~ m ;; k" := (bind m (fun x => k))
  (at level 100, m at next level, right associativity).

Definition _LEVEL : string := "等级".
Definition _MANA : string := "魔力值".
Definition _INVITATIONS : string := "邀请".
Definition _TRANSFER : string := "传输".

(** [ByrApi._extract_url_id(href)]:
    [int(parse_qs(urlparse(href).query)["id"][0])]. *)
Definition _extract_url_id (href : string) : result Z :=
  values <- or_raise KeyError (Urllib.lookup "id" (Urllib.parse_qs (Urllib.query_of href))) ;;
  first <- or_raise IndexError (head values) ;;
  int first.

Section ByrApi.

(** Python's [float] and [datetime], as far as [ByrApi] computes with them:
    the float [0.], [float(s)] ([None] for [ValueError]), [x / n] for an
    integer [n]; [datetime.fromisoformat(s)] ([None] for [ValueError]) and
    [(a - b).total_seconds()]. *)
Variable float : Type.
Variable float_zero : float.
Variable float_of_str : string -> option float.
Variable float_div : float -> Z -> float.
Variable datetime : Type.
Variable fromisoformat : string -> option datetime.
Variable total_seconds : datetime -> datetime -> float.

(** Parts of the program that are not in the sources at hand:
    [byre.utils.convert_byr_size], [TorrentInfo.convert_byr_category] and
    the four promotion constants of [byre.data]. *)
Variable convert_byr_size : string -> result float.
Variable convert_byr_category : string -> string.
Variable PROMOTION_FREE : string.
Variable PROMOTION_TWO_UP : string.
Variable PROMOTION_HALF_DOWN : string.
Variable PROMOTION_THIRTY_DOWN : string.

(** The session behind [ByrClient.get_soup]: the document the site answers
    a request with, given the requests made before it, or the exception
    that ends the request: the [ConnectionError] after the retries, or an
    exception of the session itself. *)
Variable respond : list string -> string -> result Bs4.node.

(** [ByrClient.get_soup(path)]. *)
Definition get_soup (path : string) : M Bs4.element :=
  fun self =>
    (page <- respond (requests (client self)) path ;; Return (Bs4.mk_element page []),
     mk_ByrApi (mk_ByrClient (requests (client self) ++ [path])) (_user_id self)).

(** [ByrApi.current_user_id()]. *)
Definition current_user_id : M Z :=
  fun self =>
    if negb (_user_id self =? 0) then (Return (_user_id self), self)
    else
      (page <~ get_soup EmptyString ;;
       user_id <~ lift
         (link <- or_raise IndexError (head (Bs4.select page "a[class=User_Name]")) ;;
          href <- or_raise KeyError (Bs4.attrs_get link "href") ;;
          _extract_url_id href) ;;
       fun self => (Return user_id, mk_ByrApi (client self) user_id)) self.

(** [float(s)]. *)
Definition float_ (s : string) : result float := or_raise ValueError (float_of_str s).

(** One turn of the loop over the cells of the transfer entry in
    [_extract_user_info]. *)
Definition _extract_transfer_cell (user : ByrUser.t float) (cell : Bs4.element)
  : result (ByrUser.t float) :=
  let text := Bs4.get_text cell in
  match split_once text ":" with
  | None => Return user
  | Some (field, value) =>
      let field := strip field in
      let value := strip value in
      if String.eqb field "分享率" then
        v <- float_ value ;; Return (ByrUser.set_ratio v user)
      else if String.eqb field "上传量" then
        v <- convert_byr_size value ;; Return (ByrUser.set_uploaded v user)
      else if String.eqb field "下载量" then
        v <- convert_byr_size value ;; Return (ByrUser.set_downloaded v user)
      else Return user
  end.

Fixpoint _extract_transfer (user : ByrUser.t float) (cells : list Bs4.element)
  : result (ByrUser.t float) :=
  match cells with
  | [] => Return user
  | cell :: rest => user <- _extract_transfer_cell user cell ;; _extract_transfer user rest
  end.

(** [ByrApi._extract_user_info(user, info)]: the user record is passed in
    and handed back with the fields assigned. *)
Definition _extract_user_info (user : ByrUser.t float) (info : gmap string Bs4.element)
  : result (ByrUser.t float) :=
  let user :=
    match info !! _LEVEL with
    | Some entry =>
        match Bs4.select_one entry "img" with
        | Some level_img =>
            ByrUser.set_level (default EmptyString (Bs4.attrs_get level_img "title")) user
        | None => user
        end
    | None => user
    end in
  user <-
    match info !! _MANA with
    | Some entry => v <- float_ (Bs4.get_text entry) ;; Return (ByrUser.set_mana v user)
    | None => Return user
    end ;;
  user <-
    match info !! _INVITATIONS with
    | Some entry =>
        let invitations := Bs4.get_text entry in
        if negb (contains invitations "没有邀请资格") then
          v <- int invitations ;; Return (ByrUser.set_invitations (Some v) user)
        else Return user
    | None => Return user
    end ;;
  match info !! _TRANSFER with
  | Some transferred => _extract_transfer user (Bs4.select transferred "td")
  | None => Return user
  end.

(** [ByrApi._extract_info_bar(user, page)]. *)
Definition _extract_info_bar (user : ByrUser.t float) (page : Bs4.element)
  : result (ByrUser.t float) :=
  ranking_tag <-
    or_raise StopIteration
      (head (List.filter (fun tag => contains (Bs4.text_of tag) "上传排行")
               (Bs4.select page "#info_block font.color_bonus"))) ;;
  let ranking := strip (Bs4.str_of (Bs4.next ranking_tag)) in
  user <-
    (if isdigit ranking then v <- int ranking ;; Return (ByrUser.set_ranking (Some v) user)
     else Return user) ;;
  let up_arrow := Bs4.select_one page "#info_block img.arrowup[title=当前做种]" in
  let seeding :=
    strip (match up_arrow with None => "0" | Some up_arrow => Bs4.str_of (Bs4.next up_arrow) end) in
  user <-
    (if isdigit seeding then v <- int seeding ;; Return (ByrUser.set_seeding v user)
     else Return user) ;;
  let down_arrow := Bs4.select_one page "#info_block img.arrowdown[title=当前下载]" in
  let downloading :=
    strip (match down_arrow with
           | None => "0"
           | Some down_arrow => Bs4.str_of (Bs4.next down_arrow)
           end) in
  user <-
    (if isdigit downloading then v <- int downloading ;; Return (ByrUser.set_downloading v user)
     else Return user) ;;
  let connectable := Bs4.select_one page "#info_block font[color=green]" in
  Return
    (ByrUser.set_connectable
       (match connectable with
        | Some connectable => contains (Bs4.text_of connectable) "是"
        | None => false
        end)
       user).

(** The table of labelled entries [user_info] builds from the rows of the
    profile: a row counts when it has exactly two cells, and a later row
    replaces an earlier one with the same label. *)
Definition info_of_entries (info_entries : list Bs4.element) : gmap string Bs4.element :=
  fold_left
    (fun info entry =>
       match Bs4.find_all_children entry "td" with
       | [label; value] => <[Bs4.get_text label := value]> info
       | _ => info
       end)
    info_entries ∅.

(** [ByrApi.user_info(user_id)]. *)
Definition user_info (user_id : Z) : M (ByrUser.t float) :=
  user_id <~ (if user_id =? 0 then current_user_id else ret user_id) ;;
  page <~ get_soup ("userdetails.php?id=" +:+ str_of_int user_id) ;;
  let user := ByrUser.init float_zero in
  let user := ByrUser.set_user_id user_id user in
  let name := Bs4.find page "h1" in
  let user :=
    ByrUser.set_username
      (match name with None => EmptyString | Some name => Bs4.get_text name end) user in
  let info_entries := Bs4.select page "td.embedded>table>tr" in
  let info := info_of_entries info_entries in
  user <~ lift (_extract_user_info user info) ;;
  current <~ current_user_id ;;
  if user_id =? current then lift (_extract_info_bar user page)
  else ret user.

(** The table of [_extract_promotion_info], in the order of the dictionary
    literal. *)
Definition selectors : list (string * list string) :=
  [ ("tr.free_bg", [PROMOTION_FREE]);
    ("tr.twoup_bg", [PROMOTION_TWO_UP]);
    ("tr.twoupfree_bg", [PROMOTION_FREE; PROMOTION_TWO_UP]);
    ("tr.halfdown_bg", [PROMOTION_HALF_DOWN]);
    ("tr.twouphalfdown_bg", [PROMOTION_HALF_DOWN; PROMOTION_TWO_UP]);
    ("tr.thirtypercentdown_bg", [PROMOTION_THIRTY_DOWN]);
    ("font.free", [PROMOTION_FREE]);
    ("font.twoup", [PROMOTION_TWO_UP]);
    ("font.twoupfree", [PROMOTION_FREE; PROMOTION_TWO_UP]);
    ("font.halfdown", [PROMOTION_HALF_DOWN]);
    ("font.twouphalfdown", [PROMOTION_HALF_DOWN; PROMOTION_TWO_UP]);
    ("font.thirtypercent", [PROMOTION_THIRTY_DOWN]);
    ("img.pro_free", [PROMOTION_FREE]);
    ("img.pro_2up", [PROMOTION_TWO_UP]);
    ("img.pro_free2up", [PROMOTION_FREE; PROMOTION_TWO_UP]);
    ("img.pro_50pctdown", [PROMOTION_HALF_DOWN]);
    ("img.pro_50pctdown2up", [PROMOTION_HALF_DOWN; PROMOTION_TWO_UP]);
    ("img.pro_30pctdown", [PROMOTION_THIRTY_DOWN]) ].

(** The loop of [_extract_promotion_info] over the items of the table. *)
Fixpoint _extract_promotion_loop (title_cell : Bs4.element)
    (items : list (string * list string)) : list string :=
  match items with
  | [] => []
  | (selector, promotions) :: rest =>
      match Bs4.select_one title_cell selector with
      | Some _ => promotions
      | None => _extract_promotion_loop title_cell rest
      end
  end.

(** [ByrApi._extract_promotion_info(title_cell)]. *)
Definition _extract_promotion_info (title_cell : Bs4.element) : list string :=
  _extract_promotion_loop title_cell selectors.

(** [cells[i]]. *)
Definition item {A} (cells : list A) (i : nat) : result A :=
  or_raise IndexError (nth_error cells i).

(** [x.attrs[key]] for [x] an element or [None]. *)
Definition attr_of (x : option Bs4.element) (key : string) : result string :=
  x <- or_raise AttributeError x ;;
  or_raise KeyError (Bs4.attrs_get x key).

(** The body of the loop of [_extract_torrent_table] on one row; [now] is
    what [datetime.datetime.now()] returns when the row reads it. *)
Definition _extract_torrent_row (now : datetime) (row : Bs4.element)
  : result (TorrentInfo.t float) :=
  let cells := Bs4.find_all_children row "td" in
  cell0 <- item cells 0 ;;
  cat <- attr_of (Bs4.select_one cell0 "img") "title" ;;
  cell2 <- item cells 2 ;;
  let comments := Utils.int_or (Bs4.get_text cell2) 0 in
  cell3 <- item cells 3 ;;
  uploaded_at_text <- attr_of (Bs4.select_one cell3 "span") "title" ;;
  uploaded_at <- or_raise ValueError (fromisoformat uploaded_at_text) ;;
  cell4 <- item cells 4 ;;
  size <- convert_byr_size (Bs4.get_text cell4) ;;
  cell5 <- item cells 5 ;;
  let seeders := Utils.int_or (Bs4.get_text cell5) 0 in
  cell6 <- item cells 6 ;;
  let leechers := Utils.int_or (Bs4.get_text cell6) 0 in
  cell7 <- item cells 7 ;;
  let finished := Utils.int_or (Bs4.get_text cell7) 0 in
  cell8 <- item cells 8 ;;
  let user_cell := Bs4.select_one cell8 "a[href^=userdetails]" in
  let user := ByrUser.init float_zero in
  user <-
    match user_cell with
    | Some user_cell =>
        href <- or_raise KeyError (Bs4.attrs_get user_cell "href") ;;
        user_id <- _extract_url_id href ;;
        Return (ByrUser.set_username (Bs4.get_text user_cell)
                  (ByrUser.set_user_id user_id user))
    | None => Return (ByrUser.set_username "匿名" user)
    end ;;
  title_cell <- item cells 1 ;;
  let torrent_link :=
    Bs4.select_one title_cell "table.torrentname td.embedded a[href^=details]" in
  title <- attr_of torrent_link "title" ;;
  href <- attr_of torrent_link "href" ;;
  byr_id <- _extract_url_id href ;;
  torrent_link <- or_raise AttributeError torrent_link ;;
  link_cell <- or_raise AttributeError (Bs4.find_parent torrent_link "td") ;;
  let subtitle_newline := Bs4.find link_cell "br" in
  let subtitle :=
    match subtitle_newline with
    | Some subtitle_newline =>
        match Bs4.next_sibling subtitle_newline with
        | Some subtitle_node =>
            if Bs4.is_string subtitle_node then Bs4.text_of subtitle_node else EmptyString
        | None => EmptyString
        end
    | None => EmptyString
    end in
  let promotions := _extract_promotion_info title_cell in
  Return
    (TorrentInfo.mk title subtitle byr_id cat (convert_byr_category cat) promotions
       size (float_div (total_seconds now uploaded_at) (60 * 60 * 24))
       seeders leechers finished comments user float_zero float_zero).

(** The loop of [_extract_torrent_table]: [torrents] is the list built so
    far, [clock k] the time at the [k]-th reading of the clock, and [k] the
    number of readings made. *)
Fixpoint _extract_torrent_loop (clock : nat -> datetime) (k : nat)
    (rows : list Bs4.element) (torrents : list (TorrentInfo.t float))
  : result (list (TorrentInfo.t float)) :=
  match rows with
  | [] => Return torrents
  | row :: rest =>
      torrent <- _extract_torrent_row (clock k) row ;;
      _extract_torrent_loop clock (S k) rest (torrents ++ [torrent])
  end.

(** [ByrApi._extract_torrent_table(rows)]. *)
Definition _extract_torrent_table (clock : nat -> datetime) (rows : list Bs4.element)
  : result (list (TorrentInfo.t float)) :=
  _extract_torrent_loop clock O rows [].

(** [ByrApi.list_torrents()]. *)
Definition list_torrents (clock : nat -> datetime) : M (list (TorrentInfo.t float)) :=
  page <~ get_soup "torrents.php" ;;
  lift (_extract_torrent_table clock (drop 1 (Bs4.select page "table.torrents > form > tr"))).

End ByrApi.

End Api.

(** ** An environment for the examples

    The values below stand in, on the inputs of the examples, for the
    parts of the program and of Python's library that the sources at hand
    do not hold. The general statements do not depend on them. *)

Module Example.

(** Floats are read as rationals. [float(s)] on an unsigned decimal literal
    with an optional fraction. *)
Definition float : Type := Q.

Definition float_zero : float := 0%Q.

Definition float_of_str (s : string) : option float :=
  let s := strip s in
  let '(whole, rest) := span is_digit s in
  match rest with
  | EmptyString =>
      if truthy whole then Some (inject_Z (digits_value 0 whole)) else None
  | String c frac =>
      if Ascii.eqb c "." && truthy whole && isdigit frac then
        Some (Qred (Qmake (digits_value 0 (whole +:+ frac))
                      (Z.to_pos (10 ^ Z.of_nat (String.length frac)))))
      else None
  end.

Definition float_div (x : float) (n : Z) : float := Qred (x / inject_Z n)%Q.

(** A [datetime] with its six fields; [fromisoformat] on the form
    [YYYY-MM-DD HH:MM:SS]. *)
Record datetime : Type := mk_datetime {
  year : Z; month : Z; day : Z; hour : Z; minute : Z; second : Z
}.

Definition is_leap (y : Z) : bool :=
  ((y mod 4 =? 0) && negb (y mod 100 =? 0)) || (y mod 400 =? 0).

Definition days_in_month (y m : Z) : Z :=
  if m =? 2 then (if is_leap y then 29 else 28)
  else if (m =? 4) || (m =? 6) || (m =? 9) || (m =? 11) then 30
  else 31.

Definition field (s : string) (i j : nat) : option Z :=
  let f := slice s i j in
  if isdigit f && (String.length f =? j - i)%nat then Some (digits_value 0 f) else None.

Definition fromisoformat (s : string) : option datetime :=
  match field s 0 4, field s 5 7, field s 8 10, field s 11 13, field s 14 16, field s 17 19 with
  | Some y, Some m, Some d, Some hh, Some mm, Some ss =>
      if (String.length s =? 19)%nat
         && String.eqb (slice s 4 5) "-" && String.eqb (slice s 7 8) "-"
         && (String.eqb (slice s 10 11) " " || String.eqb (slice s 10 11) "T")
         && String.eqb (slice s 13 14) ":" && String.eqb (slice s 16 17) ":"
         && (1 <=? y) && (1 <=? m) && (m <=? 12) && (1 <=? d) && (d <=? days_in_month y m)
         && (hh <? 24) && (mm <? 60) && (ss <? 60)
      then Some (mk_datetime y m d hh mm ss)
      else None
  | _, _, _, _, _, _ => None
  end.

(** Days from 1970-01-01 to a date of the proleptic Gregorian calendar. *)
Definition days_from_civil (y m d : Z) : Z :=
  let y := if m <=? 2 then y - 1 else y in
  let era := y / 400 in
  let yoe := y - era * 400 in
  let doy := (153 * (if 2 <? m then m - 3 else m + 9) + 2) / 5 + d - 1 in
  let doe := yoe * 365 + yoe / 4 - yoe / 100 + doy in
  era * 146097 + doe - 719468.

Definition seconds_of (t : datetime) : Z :=
  days_from_civil (year t) (month t) (day t) * 86400
  + hour t * 3600 + minute t * 60 + second t.

(** [(a - b).total_seconds()]. *)
Definition total_seconds (a b : datetime) : float := inject_Z (seconds_of a - seconds_of b).

(** Modelled from the spec: [byre.utils.convert_byr_size] is not in the
    sources at hand; it parses a number followed by a unit through a fixed
    table of multipliers, and fails on an unknown unit or a magnitude that
    is not a number. Here: a decimal number and then KB, MB, GB or TB, with
    binary multipliers, the result counted in GB as the listing prints it. *)
Definition convert_byr_size (s : string) : result float :=
  let '(number, unit) := span (fun c => is_digit c || Ascii.eqb c ".") (strip s) in
  x <- or_raise ValueError (float_of_str number) ;;
  let unit := strip unit in
  if String.eqb unit "GB" then Return x
  else if String.eqb unit "TB" then Return (Qred (x * 1024)%Q)
  else if String.eqb unit "MB" then Return (Qred (x / 1024)%Q)
  else if String.eqb unit "KB" then Return (Qred (x / 1048576)%Q)
  else Raise ValueError.

(** Modelled from the spec: [TorrentInfo.convert_byr_category] is not in the
    sources at hand; it maps the raw label through a fixed table and keeps
    the raw label of one the table does not hold. The table of the examples
    is empty. *)
Definition convert_byr_category (cat : string) : string := cat.

(** Modelled from the spec: the promotion constants of [byre.data] are not
    in the sources at hand; they are four distinct flags (free download,
    double upload, half download, thirty percent download). *)
Definition PROMOTION_FREE : string := "free".
Definition PROMOTION_TWO_UP : string := "two_up".
Definition PROMOTION_HALF_DOWN : string := "half_down".
Definition PROMOTION_THIRTY_DOWN : string := "thirty_down".

(** The clock of the examples stands still at noon on 2023-05-02. *)
Definition clock (k : nat) : datetime := mk_datetime 2023 5 2 12 0 0.

(** A row of the listing: its publish time as the title attribute of the
    time cell, and the contents of its uploader cell. *)
Definition listing_row (published : string) (uploader : list Bs4.node) : Bs4.node :=
  Bs4.Tag "tr" []
    [ Bs4.Tag "td" [("class", "rowfollow")]
        [Bs4.Tag "a" [("href", "?cat=408")] [Bs4.Tag "img" [("title", "电影")] []]];
      Bs4.Tag "td" [("class", "rowfollow")]
        [Bs4.Tag "table" [("class", "torrentname")]
           [Bs4.Tag "tr" [("class", "twoup_bg")]
              [Bs4.Tag "td" [("class", "embedded")]
                 [ Bs4.Tag "a" [("title", "Some.Title"); ("href", "details.php?id=1024&hit=1")]
                     [Bs4.Tag "b" [] [Bs4.NavigableString "Some.Ti..."]];
                   Bs4.Tag "img" [("class", "pro_free")] [];
                   Bs4.Tag "br" [] [];
                   Bs4.NavigableString "A subtitle" ]]]];
      Bs4.Tag "td" [("class", "rowfollow")] [Bs4.NavigableString "3"];
      Bs4.Tag "td" [("class", "rowfollow")]
        [Bs4.Tag "span" [("title", published)] [Bs4.NavigableString "1 day"]];
      Bs4.Tag "td" [("class", "rowfollow")]
        [Bs4.NavigableString "1.5"; Bs4.Tag "br" [] []; Bs4.NavigableString "GB"];
      Bs4.Tag "td" [("class", "rowfollow")] [Bs4.NavigableString "12"];
      Bs4.Tag "td" [("class", "rowfollow")] [Bs4.NavigableString "4"];
      Bs4.Tag "td" [("class", "rowfollow")] [Bs4.NavigableString "57"];
      Bs4.Tag "td" [("class", "rowfollow")] uploader ].

Definition hidden_uploader : list Bs4.node :=
  [Bs4.Tag "i" [] [Bs4.NavigableString "匿名"]].

Definition named_uploader : list Bs4.node :=
  [Bs4.Tag "a" [("href", "userdetails.php?id=77")]
     [Bs4.Tag "b" [] [Bs4.NavigableString "alice"]]].

(** A listing page: the header row, then the rows given. *)
Definition listing_page (rows : list Bs4.node) : Bs4.node :=
  Bs4.Tag "[document]" []
    [Bs4.Tag "table" [("class", "torrents")]
       [Bs4.Tag "form" []
          (Bs4.Tag "tr" [] [Bs4.Tag "td" [("class", "colhead")] [Bs4.NavigableString "Name"]]
           :: rows)]].

Definition rows_of (page : Bs4.node) : list Bs4.element :=
  drop 1 (Bs4.select (Bs4.mk_element page []) "table.torrents > form > tr").

Definition _extract_torrent_row :=
  Api._extract_torrent_row float float_zero float_div datetime fromisoformat total_seconds
    convert_byr_size convert_byr_category
    PROMOTION_FREE PROMOTION_TWO_UP PROMOTION_HALF_DOWN PROMOTION_THIRTY_DOWN.

Definition _extract_torrent_table :=
  Api._extract_torrent_table float float_zero float_div datetime fromisoformat total_seconds
    convert_byr_size convert_byr_category
    PROMOTION_FREE PROMOTION_TWO_UP PROMOTION_HALF_DOWN PROMOTION_THIRTY_DOWN.

(** The bar the site shows to the logged-in user, here user 42, at the top
    of every page. *)
Definition info_block : Bs4.node :=
  Bs4.Tag "div" [("id", "info_block")]
    [ Bs4.Tag "a" [("href", "userdetails.php?id=42"); ("class", "User_Name")]
        [Bs4.Tag "b" [] [Bs4.NavigableString "bob"]];
      Bs4.Tag "font" [("class", "color_bonus")] [Bs4.NavigableString "上传排行: "];
      Bs4.NavigableString "17 ";
      Bs4.Tag "img" [("class", "arrowup"); ("title", "当前做种")] [];
      Bs4.NavigableString " 5 ";
      Bs4.Tag "img" [("class", "arrowdown"); ("title", "当前下载")] [];
      Bs4.NavigableString " 1 ";
      Bs4.Tag "font" [("color", "green")] [Bs4.NavigableString "是"] ].

Definition front_page : Bs4.node := Bs4.Tag "[document]" [] [info_block].

(** The profile page of a user: the info bar of the logged-in user, the
    name, and the table of labelled entries. *)
Definition profile_page (name : string) : Bs4.node :=
  Bs4.Tag "[document]" []
    [ info_block;
      Bs4.Tag "h1" [] [Bs4.NavigableString name];
      Bs4.Tag "table" []
        [Bs4.Tag "tr" []
           [Bs4.Tag "td" [("class", "embedded")]
              [Bs4.Tag "table" []
                 [ Bs4.Tag "tr" []
                     [ Bs4.Tag "td" [] [Bs4.NavigableString "等级"];
                       Bs4.Tag "td" [] [Bs4.Tag "img" [("title", "Power User")] []] ];
                   Bs4.Tag "tr" []
                     [ Bs4.Tag "td" [] [Bs4.NavigableString "魔力值"];
                       Bs4.Tag "td" [] [Bs4.NavigableString "1234.5"] ];
                   Bs4.Tag "tr" []
                     [ Bs4.Tag "td" [] [Bs4.NavigableString "邀请"];
                       Bs4.Tag "td" [] [Bs4.NavigableString "2"] ];
                   Bs4.Tag "tr" []
                     [ Bs4.Tag "td" [] [Bs4.NavigableString "传输"];
                       Bs4.Tag "td" []
                         [Bs4.Tag "table" []
                            [Bs4.Tag "tr" []
                               [ Bs4.Tag "td" [] [Bs4.NavigableString "分享率: 2.5"];
                                 Bs4.Tag "td" [] [Bs4.NavigableString "上传量: 10 GB"];
                                 Bs4.Tag "td" [] [Bs4.NavigableString "下载量: 4 GB"] ]]] ] ]]]] ].

(** The site as the examples see it: the front page, and the profiles of
    users 42 and 77. *)
Definition respond (earlier : list string) (path : string) : result Bs4.node :=
  if String.eqb path EmptyString then Return front_page
  else if String.eqb path "userdetails.php?id=42" then Return (profile_page "bob")
  else if String.eqb path "userdetails.php?id=77" then Return (profile_page "alice")
  else Raise ConnectionError.

Definition user_info :=
  Api.user_info float float_zero float_of_str convert_byr_size respond.

(** A [ByrApi] just created: nothing requested yet, no user id cached. *)
Definition fresh : Api.ByrApi := Api.mk_ByrApi (Api.mk_ByrClient []) 0.

End Example.

(** ** [byre/bt.py], continued: listing the local torrents *)

Module BtListing.

Section Listing.

(** [byre.clients.SITES.keys()], in the order of the dictionary; the
    dictionary itself is not in the sources at hand. *)
Variable SITES : list string.

(** [self.client.torrents_info(tag=site)]: the torrents the client holds
    under a tag. *)
Variable torrents_info : string -> list Bt.TypedTorrent.t.

(** [dict((t.seed_id, t) for t in remote_torrents if t.site == site)]: a
    later record replaces an earlier one with the same id. *)
Definition remote_mapping (remote_torrents : list Bt.TorrentInfo.t) (site : string)
  : gmap Z Bt.TorrentInfo.t :=
  fold_left
    (fun m t =>
       if String.eqb (Bt.TorrentInfo.site t) site
       then <[Bt.TorrentInfo.seed_id t := t]> m
       else m)
    remote_torrents ∅.

(** The loop of [list_torrents] over the torrents of one site. The
    [except] clause handles [ValueError] and lets anything else through. *)
Fixpoint list_torrents_loop (remote_mapping : gmap Z Bt.TorrentInfo.t)
    (wants_all : bool) (site : string) (pending : list Bt.TypedTorrent.t)
    (torrents : list Bt.LocalTorrent.t) : result (list Bt.LocalTorrent.t) :=
  match pending with
  | [] => Return torrents
  | torrent :: rest =>
      match Bt.local_torrent_from torrent (Some site) with
      | Return local =>
          let local :=
            Bt.LocalTorrent.mk (Bt.LocalTorrent.torrent local)
              (Bt.LocalTorrent.seed_id local) (Bt.LocalTorrent.site local)
              (remote_mapping !! Bt.LocalTorrent.seed_id local) in
          list_torrents_loop remote_mapping wants_all site rest (torrents ++ [local])
      | Raise ValueError =>
          list_torrents_loop remote_mapping wants_all site rest
            (if wants_all
             then torrents ++ [Bt.LocalTorrent.mk torrent 0 site None]
             else torrents)
      | Raise e => Raise e
      end
  end.

(** [BtClient.list_torrents(remote_torrents, wants_all, site)] for a site
    that is given. *)
Definition list_torrents_site (remote_torrents : list Bt.TorrentInfo.t)
    (wants_all : bool) (site : string) : result (list Bt.LocalTorrent.t) :=
  list_torrents_loop (remote_mapping remote_torrents site) wants_all site
    (torrents_info site) [].

(** The loop of [list_torrents] over the sites, when none is given. *)
Fixpoint list_torrents_gather (remote_torrents : list Bt.TorrentInfo.t)
    (wants_all : bool) (sites : list string) (gathered : list Bt.LocalTorrent.t)
  : result (list Bt.LocalTorrent.t) :=
  match sites with
  | [] => Return gathered
  | site :: rest =>
      found <- list_torrents_site remote_torrents wants_all site ;;
      list_torrents_gather remote_torrents wants_all rest (gathered ++ found)
  end.

(** [BtClient.list_torrents(remote_torrents, wants_all, site)]. *)
Definition list_torrents (remote_torrents : list Bt.TorrentInfo.t)
    (wants_all : bool) (site : option string) : result (list Bt.LocalTorrent.t) :=
  match site with
  | None => list_torrents_gather remote_torrents wants_all SITES []
  | Some site => list_torrents_site remote_torrents wants_all site
  end.

End Listing.

End BtListing.

(** ** [byre/bt.py], continued: categories, tags and the constructor *)

Module BtAdmin.

Inductive call : Type :=
  | torrents_remove_categories (categories : gset string)
  | torrents_create_tags (tags : list string)
  | torrents_delete_tags (tags : list string).

(** The qBittorrent instance, as these methods see it: its categories, its
    tags, and the calls received. *)
Record qbittorrent : Type := mk_qbittorrent {
  categories : gmap string string;
  tags : gset string;
  calls : list call
}.

(** The client's side of the three calls. *)
Definition remove_categories_call (removable : gset string) (q : qbittorrent) : qbittorrent :=
  mk_qbittorrent
    (filter (fun kv => kv.1 ∉ removable) (categories q))
    (tags q)
    (calls q ++ [torrents_remove_categories removable]).

Definition create_tags_call (new : list string) (q : qbittorrent) : qbittorrent :=
  mk_qbittorrent (categories q) (tags q ∪ list_to_set new)
    (calls q ++ [torrents_create_tags new]).

Definition delete_tags_call (old : list string) (q : qbittorrent) : qbittorrent :=
  mk_qbittorrent (categories q) (tags q ∖ list_to_set old)
    (calls q ++ [torrents_delete_tags old]).

(** [BtClient.remove_categories(categories)]. *)
Definition remove_categories (categories : list string) (q : qbittorrent) : qbittorrent :=
  let existing := dom (BtAdmin.categories q) in
  let removable := existing ∩ list_to_set categories in
  remove_categories_call removable q.

(** The loop of [init_tags]; [tags] is what [torrents_tags()] returned
    before the loop. *)
Fixpoint init_tags_loop (tags : gset string) (reset : bool) (wanted : list string)
    (q : qbittorrent) : qbittorrent :=
  match wanted with
  | [] => q
  | tag :: rest =>
      if decide (tag ∉ tags) then
        if negb reset then init_tags_loop tags reset rest (create_tags_call [tag] q)
        else init_tags_loop tags reset rest q
      else if reset then init_tags_loop tags reset rest (delete_tags_call [tag] q)
      else init_tags_loop tags reset rest q
  end.

(** [BtClient.init_tags(reset)]; [SITES] is [byre.clients.SITES.keys()]. *)
Definition init_tags (SITES : list string) (reset : bool) (q : qbittorrent) : qbittorrent :=
  let tags := BtAdmin.tags q in
  init_tags_loop tags reset (SITES ++ ["keep"]) q.

(** [a < b] on strings: the first character that differs decides, and a
    proper prefix is smaller. *)
Fixpoint str_lt (a b : string) : bool :=
  match a, b with
  | _, EmptyString => false
  | EmptyString, String _ _ => true
  | String x a', String y b' =>
      if (code x <? code y)%N then true
      else if (code y <? code x)%N then false
      else str_lt a' b'
  end.

(** [BtClient.__init__(url)], from the point where the client has been
    built from the address and has logged in: [version] is
    [self.client.app.version], and [limit] the float [95.0]. *)
Definition __init__ {float : Type} (limit : float) (version : string)
  : result (Bt.BtClient float) :=
  if str_lt version "v4.5.2" then Raise ConnectionError
  else Return (Bt.mk_BtClient float limit).

End BtAdmin.

(** ** [byre/api.py], continued: the session *)

Module Session.

(** A [requests.Response], with the fields [ByrClient] reads. *)
Record Response : Type := mk_Response {
  status_code : Z;
  content : string
}.

(** What [ByrClient.get] does to the outside: a request through the
    session, or a pause of [self._retry_delay] seconds. *)
Inductive event : Type :=
  | session_get (url : string) (allow_redirects : bool)
  | time_sleep.

(** [ByrClient]: what it has done so far. *)
Record ByrClient : Type := mk_ByrClient {
  events : list event
}.

Definition is_request (e : event) : bool :=
  match e with session_get _ _ => true | time_sleep => false end.

Definition requests_made (self : ByrClient) : nat :=
  length (List.filter is_request (events self)).

Definition log (e : event) (self : ByrClient) : ByrClient :=
  mk_ByrClient (events self ++ [e]).

(** [ByrClient._get_url(path)]. *)
Definition _get_url (path : string) : string := "https://byr.pt/" +:+ path.

Section Client.

(** [self._session.get(url, ...)]: what the session does with a request
    for an address, given the number of requests it has made before. It
    returns the site's answer, or raises: a refused connection or a timeout
    is an exception of [requests], which [get] does not handle. *)
Variable answer : nat -> string -> result Response.

(** The loop of [get]: [remaining] turns are left, and [i] is the loop
    variable. *)
Fixpoint get_loop (path : string) (allow_redirects : bool) (retries : Z)
    (remaining : nat) (i : Z) (self : ByrClient) : result Response * ByrClient :=
  match remaining with
  | O => (Raise ConnectionError, self)
  | S remaining' =>
      let res := answer (requests_made self) (_get_url path) in
      let self := log (session_get (_get_url path) allow_redirects) self in
      match res with
      | Raise e => (Raise e, self)
      | Return res =>
          if status_code res =? 200 then (Return res, self)
          else
            let self := if negb (i =? retries - 1) then log time_sleep self else self in
            get_loop path allow_redirects retries remaining' (i + 1) self
      end
  end.

(** [ByrClient.get(path, retries, allow_redirects)]: [range(retries)] is
    empty for a [retries] that is not positive. *)
Definition get (path : string) (retries : Z) (allow_redirects : bool)
    (self : ByrClient) : result Response * ByrClient :=
  get_loop path allow_redirects retries (Z.to_nat retries) 0 self.

(** [ByrClient.get_soup(path, retries)]; [parse] is
    [bs4.BeautifulSoup(_, "html.parser")]. *)
Definition get_soup (parse : string -> Bs4.node) (path : string) (retries : Z)
    (self : ByrClient) : result Bs4.element * ByrClient :=
  match get path retries false self with
  | (Return res, self) => (Return (Bs4.mk_element (parse (content res)) []), self)
  | (Raise e, self) => (Raise e, self)
  end.

(** [ByrClient.is_logged_in()]: the [except] clause handles the builtin
    [ConnectionError] and lets anything else through. *)
Definition is_logged_in (self : ByrClient) : result bool * ByrClient :=
  match get EmptyString 1 false self with
  | (Return _, self) => (Return true, self)
  | (Raise ConnectionError, self) => (Return false, self)
  | (Raise e, self) => (Raise e, self)
  end.

End Client.

End Session.

(** ** [byre/commands.py]: the configuration *)

Module Commands.

(** The exceptions of the configuration lookups. *)
Inductive error : Type :=
  | ValueError
  | TypeError.

Inductive outcome (A : Type) : Type :=
  | Ok (a : A)
  | Fail (e : error).
Arguments Ok {A} a.
Arguments Fail {A} e.

(** A value of the dictionary [tomli.load] returns; [F] is Python's
    [float]. *)
Inductive toml (F : Type) : Type :=
  | t_str (s : string)
  | t_int (n : Z)
  | t_float (x : F)
  | t_bool (b : bool)
  | t_datetime (text : string)
  | t_list (items : list (toml F))
  | t_table (entries : list (string * toml F)).
Arguments t_str {F} s.
Arguments t_int {F} n.
Arguments t_float {F} x.
Arguments t_bool {F} b.
Arguments t_datetime {F} text.
Arguments t_list {F} items.
Arguments t_table {F} entries.

Section Config.

Variable F : Type.

(** [d[key]] on the entries of a table. *)
Fixpoint lookup (key : string) (entries : list (string * toml F)) : option (toml F) :=
  match entries with
  | [] => None
  | (k, v) :: rest => if String.eqb k key then Some v else lookup key rest
  end.

Definition is_str (arg : string) (v : toml F) : bool :=
  match v with t_str s => String.eqb s arg | _ => false end.

(** One turn of the loop of [_require]: the test [arg not in config], then
    [config[arg]]. A table is looked up. A string is searched for [arg] as a
    substring and a list for [arg] as an item, and neither can then be
    indexed by it; the other values cannot be searched at all. *)
Definition descend (config : toml F) (arg : string) : outcome (toml F) :=
  match config with
  | t_table entries =>
      match lookup arg entries with
      | Some v => Ok v
      | None => Fail ValueError
      end
  | t_str s => if contains s arg then Fail TypeError else Fail ValueError
  | t_list items => if existsb (is_str arg) items then Fail TypeError else Fail ValueError
  | t_int _ | t_float _ | t_bool _ | t_datetime _ => Fail TypeError
  end.

Fixpoint descend_all (config : toml F) (args : list string) : outcome (toml F) :=
  match args with
  | [] => Ok config
  | arg :: rest =>
      match descend config arg with
      | Ok config => descend_all config rest
      | Fail e => Fail e
      end
  end.

(** [GlobalConfig._require(typer, *args)]: a [ValueError] of [typer] is
    raised again as a [ValueError]. *)
Definition _require {A} (config : toml F) (typer : toml F -> outcome A)
    (args : list string) : outcome A :=
  match descend_all config args with
  | Ok config =>
      match typer config with
      | Ok a => Ok a
      | Fail ValueError => Fail ValueError
      | Fail e => Fail e
      end
  | Fail e => Fail e
  end.

(** [GlobalConfig._optional(typer, default, *args)]. *)
Definition _optional {A} (config : toml F) (typer : toml F -> outcome A)
    (default : A) (args : list string) : outcome A :=
  match _require config typer args with
  | Fail ValueError => Ok default
  | r => r
  end.

(** The fields [GlobalConfig.convert] assigns. *)
Record GlobalConfig : Type := mk_GlobalConfig {
  byr_credentials : string * string * string;
  qbittorrent_url : string;
  download_dir : string;
  size_limit : F;
  free_weight : F;
  cost_recovery_days : F;
  removal_exemption_days : F
}.

(** The builtins [str] and [float] applied to a value of the
    configuration, and the float of an integer literal ([1.], [7.],
    [15.]). [str] returns on every value. *)
Variable str : toml F -> string.
Variable float : toml F -> outcome F.
Variable float_literal : Z -> F.

Definition bind {A B} (r : outcome A) (k : A -> outcome B) : outcome B :=
  match r with
  | Ok a => k a
  | Fail e => Fail e
  end.

(** [GlobalConfig.convert(value, param, ctx)], from the dictionary read
    from the file. *)
Definition convert (config : toml F) : outcome GlobalConfig :=
  let str_ := fun v => Ok (str v) in
  bind (_require config str_ ["byr"; "username"]) (fun username =>
  bind (_require config str_ ["byr"; "password"]) (fun password =>
  bind (_optional config str_ "byr.cookies" ["byr"; "cookie_cache"]) (fun cookie_cache =>
  bind (_require config str_ ["qbittorrent"; "url"]) (fun url =>
  bind (_require config str_ ["qbittorrent"; "download_dir"]) (fun download_dir =>
  bind (_require config float ["qbittorrent"; "size_limit"]) (fun size_limit =>
  bind (_optional config float (float_literal 1) ["scoring"; "free_weight"]) (fun free_weight =>
  bind (_optional config float (float_literal 7) ["scoring"; "cost_recovery_days"])
    (fun cost_recovery_days =>
  bind (_optional config float (float_literal 15) ["scoring"; "removal_exemption_days"])
    (fun removal_exemption_days =>
  Ok (mk_GlobalConfig (username, password, cookie_cache) url download_dir size_limit
        free_weight cost_recovery_days removal_exemption_days)))))))))).

End Config.

End Commands.

(** A configuration file for the examples, with integers standing for
    floats. *)
Module CommandsExample.

(** [str] on the values whose text is plain: a string is itself, an
    integer is written in digits, a boolean is [True] or [False]. The
    other values are not put through [str] in the examples. *)
Definition str (v : Commands.toml Z) : string :=
  match v with
  | Commands.t_str s => s
  | Commands.t_int n => str_of_int n
  | Commands.t_bool b => if b then "True" else "False"
  | Commands.t_datetime text => text
  | _ => EmptyString
  end.

(** [float] on a number is the number, on a string of digits its value
    and on another string a [ValueError]; a list or a table is a
    [TypeError]. *)
Definition float (v : Commands.toml Z) : Commands.outcome Z :=
  match v with
  | Commands.t_int n | Commands.t_float n => Commands.Ok n
  | Commands.t_bool b => Commands.Ok (if b then 1 else 0)
  | Commands.t_str s =>
      if isdigit s then Commands.Ok (digits_value 0 s) else Commands.Fail Commands.ValueError
  | _ => Commands.Fail Commands.TypeError
  end.

Definition config : Commands.toml Z :=
  Commands.t_table
    [("byr", Commands.t_table
               [("username", Commands.t_str "bob"); ("password", Commands.t_str "secret")]);
     ("qbittorrent", Commands.t_table
               [("url", Commands.t_str "http://localhost:8080");
                ("download_dir", Commands.t_str "/dl");
                ("size_limit", Commands.t_int 500)])].

Definition convert := Commands.convert Z str float (fun n => n).

End CommandsExample.

(** ** Vocabulary of the statements *)

(** A character as [chars] gives it: an ASCII byte, or a sequence that
    [ord] reads. *)
Definition well_formed (ch : string) : bool :=
  match ch with
  | String c EmptyString => (code c <? 128)%N
  | _ => match ord ch with Some _ => true | None => false end
  end.

(** A string none of whose bytes opens a longer sequence, as ASCII text
    is: it has one character per byte. *)
Definition plain (s : string) : bool := all_chars (fun c => (code c <? 192)%N) s.

(** The code points of a range. *)
Definition points_of (r : N * N) : list N :=
  map (fun i => (fst r + N.of_nat i)%N) (seq 0 (S (N.to_nat (snd r - fst r)))).

(** A non-empty text of word characters: letters and numbers of any
    script, and the underscore. *)
Definition word_text (s : string) : bool := truthy s && forallb is_word_char (chars s).

(** A non-empty text of decimal digits of any script, and its value. *)
Definition decimal_text (s : string) : bool := truthy s && forallb is_decimal_char (chars s).

Definition decimal_value (s : string) : Z :=
  fold_left (fun acc ch => acc * 10 + default 0 (decimal_of ch)) (chars s) 0.

(** The names the pattern [^\[(\w+)-\d+]] accepts, with their parts: an
    opening bracket, a non-empty run of word characters (the site), a
    hyphen, a non-empty run of decimal digits, a closing bracket, then
    anything. *)
Definition pattern_name (name site digits rest : string) : Prop :=
  name = "[" +:+ site +:+ "-" +:+ digits +:+ "]" +:+ rest /\
  word_text site = true /\ decimal_text digits = true.

(** The names of the pattern whose site and digits are ASCII. *)
Definition tagged_name (name site digits rest : string) : Prop :=
  name = "[" +:+ site +:+ "-" +:+ digits +:+ "]" +:+ rest /\
  truthy site = true /\ all_chars is_word site = true /\
  truthy digits = true /\ all_chars is_digit digits = true.

(** The number of occurrences of the character [c] in [s]. *)
Fixpoint count_char (c : ascii) (s : string) : nat :=
  match s with
  | EmptyString => O
  | String x s' => ((if Ascii.eqb x c then 1 else 0) + count_char c s')%nat
  end.

(** A removal that deletes the downloaded files. *)
Definition deletes_files (c : Bt.call) : bool :=
  match c with
  | Bt.torrents_delete delete_files _ => delete_files
  | _ => false
  end.

(** The directories of a run of created categories, given as (name,
    directory) pairs in creation order, are chained from [base]: each is
    [os.path.join(os.path.realpath(previous), name)], where [previous] is
    [base] for the first pair and the directory of the pair before for
    every other one. *)
Fixpoint chained (realpath : string -> string) (base : string)
    (created : list (string * string)) : Prop :=
  match created with
  | [] => True
  | (name, dir) :: rest =>
      dir = OsPath.join (realpath base) name /\ chained realpath dir rest
  end.

Definition create_call (p : string * string) : Bt.call :=
  Bt.torrents_create_category (fst p) (snd p).

(** A file system without symbolic links, asked about absolute normalized
    paths: [os.path.realpath] returns its argument. *)
Definition realpath_plain (path : string) : string := path.

(** [n] calls of a method one after the other: what each returned or
    raised, and the state they leave the object in. *)
Fixpoint call_times {A} (m : Api.M A) (n : nat) (self : Api.ByrApi)
  : list (result A) * Api.ByrApi :=
  match n with
  | O => ([], self)
  | S n' =>
      let '(r, self') := m self in
      let '(rs, self'') := call_times m n' self' in
      (r :: rs, self'')
  end.


(** The fields of a user record read from the info bar agree on [u] and
    [v]. *)
Definition same_info_bar_fields {float} (u v : Api.ByrUser.t float) : Prop :=
  Api.ByrUser.ranking u = Api.ByrUser.ranking v /\
  Api.ByrUser.seeding u = Api.ByrUser.seeding v /\
  Api.ByrUser.downloading u = Api.ByrUser.downloading v /\
  Api.ByrUser.connectable u = Api.ByrUser.connectable v.

(** A torrent [list_torrents] recognizes under a site. *)
Definition recognized (site : string) (t : Bt.TypedTorrent.t) : bool :=
  is_return (Bt.local_torrent_from t (Some site)).

(** A remote record of the given site and id. *)
Definition same_record (site : string) (id : Z) (t : Bt.TorrentInfo.t) : bool :=
  String.eqb (Bt.TorrentInfo.site t) site && (Bt.TorrentInfo.seed_id t =? id).

(** What one torrent contributes to the list. *)
Definition listed (mapping : gmap Z Bt.TorrentInfo.t) (wants_all : bool)
    (site : string) (t : Bt.TypedTorrent.t) : list Bt.LocalTorrent.t :=
  match Bt.local_torrent_from t (Some site) with
  | Return local =>
      [Bt.LocalTorrent.mk (Bt.LocalTorrent.torrent local) (Bt.LocalTorrent.seed_id local)
         (Bt.LocalTorrent.site local) (mapping !! Bt.LocalTorrent.seed_id local)]
  | Raise _ => if wants_all then [Bt.LocalTorrent.mk t 0 site None] else []
  end.

(** The characters of a plain address before its query: ASCII letters and
    digits, the dot, the underscore, the hyphen, the slash and the colon.
    [urlparse] finds no bracket, no whitespace and nothing beyond ASCII in
    what it takes for the scheme, the network location or the path. *)
Definition is_address_char (c : ascii) : bool :=
  is_alnum c || Ascii.eqb c "." || Ascii.eqb c "_" || Ascii.eqb c "-" ||
  Ascii.eqb c "/" || Ascii.eqb c ":".

(** The characters of [s] other than [c]. *)
Definition without_char (c : ascii) (s : string) : bool :=
  all_chars (fun x => negb (Ascii.eqb x c)) s.

(** The version string of qBittorrent [a.b.c]. *)
Definition version_string (a b c : Z) : string :=
  "v" +:+ str_of_int a +:+ "." +:+ str_of_int b +:+ "." +:+ str_of_int c.

(** An answer of the session with a status other than 200. *)
Definition not_ok (a : result Session.Response) : Prop :=
  exists res, a = Return res /\ Session.status_code res <> 200.

(** The events of [k] failed attempts of [get], each followed by a pause. *)
Fixpoint failed_attempts (url : string) (allow_redirects : bool) (k : nat)
  : list Session.event :=
  match k with
  | O => []
  | S k' =>
      Session.session_get url allow_redirects :: Session.time_sleep
        :: failed_attempts url allow_redirects k'
  end.

(** The value a path of keys leads to through nested tables. *)
Fixpoint resolve {F} (config : Commands.toml F) (args : list string)
  : option (Commands.toml F) :=
  match args with
  | [] => Some config
  | arg :: rest =>
      match config with
      | Commands.t_table entries =>
          match Commands.lookup F arg entries with
          | Some v => resolve v rest
          | None => None
          end
      | _ => None
      end
  end.

(** The values that cannot be searched: numbers, booleans and dates. *)
Definition is_scalar {F} (v : Commands.toml F) : bool :=
  match v with
  | Commands.t_int _ | Commands.t_float _ | Commands.t_bool _ | Commands.t_datetime _ => true
  | _ => false
  end.

(** * Properties *)

(** ** The library models on sample inputs *)

Example int_of_str_samples :
  int_of_str "1024" = Some 1024 /\ int_of_str " +1_000 " = Some 1000 /\
  int_of_str "-5" = Some (-5) /\ int_of_str "1__0" = None /\
  int_of_str "12a" = None /\ int_of_str EmptyString = None.
Proof. repeat split; reflexivity. Qed.

Example int_or_samples :
  Utils.int_or "57" 0 = 57 /\ Utils.int_or "--" 0 = 0 /\ Utils.int_or EmptyString 0 = 0.
Proof. repeat split; reflexivity. Qed.

Example str_of_int_samples :
  str_of_int 1024 = "1024" /\ str_of_int 0 = "0" /\ str_of_int (-38) = "-38".
Proof. repeat split; reflexivity. Qed.

Example strip_samples :
  strip "  12 " = "12" /\ strip "a b" = "a b" /\ strip "   " = EmptyString.
Proof. repeat split; reflexivity. Qed.

Example join_samples :
  OsPath.join "/dl" "movie" = "/dl/movie" /\
  OsPath.join "/dl/" "movie" = "/dl/movie" /\
  OsPath.join "/dl" "/srv/movie" = "/srv/movie" /\
  OsPath.join EmptyString "movie" = "movie" /\
  OsPath.join3 "/dl" "movie" "hd" = "/dl/movie/hd".
Proof. repeat split; reflexivity. Qed.

Example extract_url_id_samples :
  Api._extract_url_id "details.php?id=1024&hit=1" = Return 1024 /\
  Api._extract_url_id "userdetails.php?id=77#top" = Return 77 /\
  Api._extract_url_id "userdetails.php" = Raise KeyError /\
  Api._extract_url_id "userdetails.php?id=abc" = Raise ValueError.
Proof. repeat split; reflexivity. Qed.

(** Every selector written in [api.py] is read by the selector parser. *)
Example source_selectors_parse :
  forallb (fun sel => bool_decide (is_Some (Bs4.parse_selector sel)))
    ([ "a[class=User_Name]"; "td.embedded>table>tr"; "table.torrents > form > tr";
       "img"; "td"; "span"; "a[href^=userdetails]";
       "table.torrentname td.embedded a[href^=details]";
       "#info_block font.color_bonus"; "#info_block img.arrowup[title=当前做种]";
       "#info_block img.arrowdown[title=当前下载]"; "#info_block font[color=green]" ]
     ++ map fst (Api.selectors "free" "two_up" "half_down" "thirty_down")) = true.
Proof. vm_compute. reflexivity. Qed.

Example parse_selector_sample :
  Bs4.parse_selector "td.embedded>table a[href^=details]" =
  Some (Bs4.mk_compound (Some "a") None [] [Bs4.attr_prefix "href" "details"],
        [(Bs4.descendant, Bs4.mk_compound (Some "table") None [] []);
         (Bs4.child, Bs4.mk_compound (Some "td") None ["embedded"] [])]).
Proof. reflexivity. Qed.

(** Navigation in the title cell of the example row: the link and its
    cell, the line break and the string after it, and the texts. *)
Example title_cell_samples :
  let cell :=
    Bs4.mk_element (Example.listing_row "2023-05-01 12:00:00" Example.hidden_uploader) [1%nat] in
  option_map Bs4.path
    (Bs4.select_one cell "table.torrentname td.embedded a[href^=details]") =
    Some [1; 0; 0; 0; 0]%nat /\
  option_map Bs4.path (Bs4.find_parent (Bs4.mk_element (Bs4.document cell) [1; 0; 0; 0; 0]%nat) "td") =
    Some [1; 0; 0; 0]%nat /\
  option_map Bs4.path (Bs4.find cell "br") = Some [1; 0; 0; 0; 2]%nat /\
  option_map Bs4.text_of (Bs4.next_sibling (Bs4.mk_element (Bs4.document cell) [1; 0; 0; 0; 2]%nat)) =
    Some "A subtitle" /\
  Bs4.get_text cell = "Some.Ti...A subtitle" /\
  map Bs4.path (Bs4.select cell "td") = [[1; 0; 0; 0]%nat] /\
  Bs4.select cell "table>td" = [].
Proof. cbv zeta. repeat split; reflexivity. Qed.

(** ** Strings and integers *)

Section StringFacts.

Lemma append_assoc (a b c : string) : (a +:+ b) +:+ c = a +:+ (b +:+ c).
Proof. induction a as [|x a IH]; simpl; [reflexivity | now rewrite IH]. Qed.

Lemma append_empty_r (a : string) : a +:+ "" = a.
Proof. induction a as [|x a IH]; simpl; [reflexivity | now rewrite IH]. Qed.

Lemma all_chars_app (p : ascii -> bool) (a b : string) :
  all_chars p (a +:+ b) = all_chars p a && all_chars p b.
Proof.
  induction a as [|x a IH]; simpl; [reflexivity|].
  rewrite IH. now rewrite andb_assoc.
Qed.

Lemma all_chars_impl (p q : ascii -> bool) (s : string) :
  (forall c, p c = true -> q c = true) ->
  all_chars p s = true -> all_chars q s = true.
Proof.
  intros Hpq. induction s as [|x s IH]; simpl; [reflexivity|].
  intros H. apply andb_prop in H as [Hx Hs].
  rewrite (Hpq _ Hx), (IH Hs). reflexivity.
Qed.

(** What [span] returns: a split of the string, the first part in the
    class, the second part starting outside of it. *)
Lemma span_spec (p : ascii -> bool) (s a b : string) :
  span p s = (a, b) ->
  s = a +:+ b /\ all_chars p a = true /\
  match b with String c _ => p c = false | EmptyString => True end.
Proof.
  revert a b. induction s as [|x s IH]; simpl; intros a b H.
  - inversion H; subst. simpl. auto.
  - destruct (p x) eqn:Hx.
    + destruct (span p s) as [a' b'] eqn:Hs. inversion H; subst.
      destruct (IH _ _ eq_refl) as (-> & Ha & Hb).
      simpl. rewrite Hx, Ha. auto.
    + inversion H; subst. simpl. rewrite Hx. auto.
Qed.

(** Conversely such a split is the one [span] finds. *)
Lemma span_app (p : ascii -> bool) (a b : string) :
  all_chars p a = true ->
  match b with String c _ => p c = false | EmptyString => True end ->
  span p (a +:+ b) = (a, b).
Proof.
  intros Ha Hb. induction a as [|x a IH]; simpl in *.
  - destruct b as [|c b]; [reflexivity|]. simpl. now rewrite Hb.
  - apply andb_prop in Ha as [Hx Ha]. rewrite Hx, (IH Ha). reflexivity.
Qed.

Lemma startswith_app (p s : string) : startswith (p +:+ s) p = true.
Proof.
  induction p as [|x p IH]; simpl; [reflexivity|].
  now rewrite Ascii.eqb_refl.
Qed.

Lemma startswith_inv (s p : string) :
  startswith s p = true -> exists r, s = p +:+ r.
Proof.
  revert s. induction p as [|x p IH]; intros s H.
  - exists s. reflexivity.
  - destruct s as [|y s]; simpl in H; [discriminate|].
    destruct (Ascii.eqb x y) eqn:E; [|discriminate].
    apply Ascii.eqb_eq in E. subst y.
    destruct (IH _ H) as [r ->]. exists r. reflexivity.
Qed.

(** The first occurrence of [c] after a prefix that does not hold it. *)
Lemma find_char_app (a b : string) (c : ascii) :
  all_chars (fun x => negb (Ascii.eqb x c)) a = true ->
  find_char (a +:+ String c b) c = Some (String.length a).
Proof.
  induction a as [|x a IH]; simpl; intros H.
  - now rewrite Ascii.eqb_refl.
  - apply andb_prop in H as [Hx Ha].
    destruct (Ascii.eqb x c); [discriminate|].
    now rewrite (IH Ha).
Qed.

Lemma length_append (a b : string) :
  String.length (a +:+ b) = (String.length a + String.length b)%nat.
Proof. induction a as [|x a IH]; simpl; [reflexivity | now rewrite IH]. Qed.

Lemma substring_prefix (a b : string) :
  substring 0 (String.length a) (a +:+ b) = a.
Proof.
  induction a as [|x a IH]; simpl.
  - destruct b; reflexivity.
  - now rewrite IH.
Qed.

Lemma substring_skip (a b : string) (m : nat) :
  substring (String.length a) m (a +:+ b) = substring 0 m b.
Proof. induction a as [|x a IH]; simpl; [reflexivity | exact IH]. Qed.

(** [s[len(a) : len(a) + len(b)]] of [s = a + b + c] is [b]. *)
Lemma slice_middle (a b c : string) :
  slice (a +:+ b +:+ c) (String.length a) (String.length a + String.length b) = b.
Proof.
  unfold slice.
  replace (String.length a + String.length b - String.length a)%nat
    with (String.length b) by lia.
  rewrite substring_skip. apply substring_prefix.
Qed.

Lemma skip_spaces_id (c : ascii) (s : string) :
  is_c_space c = false -> skip_spaces (String c s) = String c s.
Proof. intros H. simpl. now rewrite H. Qed.

Lemma skip_spaces_end_id (s : string) :
  all_chars (fun c => negb (is_c_space c)) s = true -> skip_spaces_end s = s.
Proof.
  induction s as [|x s IH]; simpl; [reflexivity|].
  intros H. apply andb_prop in H as [Hx Hs]. rewrite (IH Hs).
  destruct s; [|reflexivity].
  destruct (is_c_space x); [discriminate | reflexivity].
Qed.

Lemma is_digit_range (c : ascii) :
  is_digit c = true -> (48 <= code c <= 57)%N.
Proof.
  unfold is_digit. intros H. apply andb_prop in H as [H1 H2].
  apply N.leb_le in H1, H2. lia.
Qed.

(** *** Characters *)

Lemma joined_app (a b : list string) : joined (a ++ b) = joined a +:+ joined b.
Proof.
  induction a as [|x a IH]; simpl; [reflexivity|].
  now rewrite IH, append_assoc.
Qed.

(** The characters of a string, put together again, are the string. *)
Lemma joined_chars (s : string) : joined (chars s) = s.
Proof.
  induction s as [|c s IH]; [reflexivity|].
  cbn [chars]. unfold absorb.
  destruct (_ && _ && _).
  - cbn [joined]. simpl. rewrite <- joined_app, firstn_skipn, IH. reflexivity.
  - cbn [joined]. simpl. now rewrite IH.
Qed.

Lemma trail_low (c : ascii) : (code c <? 192)%N = true -> trail c = 0%nat.
Proof. intros H. unfold trail. now rewrite H. Qed.

(** A byte that announces no continuation is a character of its own. *)
Lemma absorb_single (c : ascii) (r : list string) :
  trail c = 0%nat -> absorb c r = String c EmptyString :: r.
Proof. intros H. unfold absorb. now rewrite H. Qed.

Lemma chars_single (c : ascii) (s : string) :
  trail c = 0%nat -> chars (String c s) = String c EmptyString :: chars s.
Proof. intros H. cbn [chars]. now apply absorb_single. Qed.

Lemma chars_head (c : ascii) (s : string) :
  exists t l, chars (String c s) = String c t :: l.
Proof. cbn [chars]. unfold absorb. destruct (_ && _ && _); eauto. Qed.

Lemma absorb_app (c : ascii) (x y : list string) :
  match y with h :: _ => is_trail_item h = false | [] => True end ->
  absorb c (x ++ y) = absorb c x ++ y.
Proof.
  intros Hy. destruct y as [|h y]; [now rewrite !app_nil_r|].
  unfold absorb. set (k := trail c).
  destruct (Nat.leb_spec k (length x)) as [Hk | Hk].
  - rewrite firstn_app, skipn_app.
    replace (k - length x)%nat with 0%nat by lia.
    cbn [firstn skipn]. rewrite app_nil_r, length_app.
    replace (k <=? length x + length (h :: y))%nat with true
      by (symmetry; apply Nat.leb_le; lia).
    destruct (_ && _ && _); reflexivity.
  - rewrite !andb_false_r. cbn [andb].
    replace (forallb is_trail_item (firstn k (x ++ h :: y))) with false.
    + now rewrite andb_false_r.
    + symmetry. rewrite firstn_app.
      destruct (k - length x)%nat as [|j] eqn:Hj; [lia|].
      cbn [firstn]. rewrite forallb_app. cbn [forallb]. rewrite Hy.
      now rewrite andb_false_r.
Qed.

(** A string splits into characters where a character starts. *)
Lemma chars_app (a b : string) :
  match b with String c _ => is_continuation c = false | EmptyString => True end ->
  chars (a +:+ b) = chars a ++ chars b.
Proof.
  intros Hb. induction a as [|x a IH]; [reflexivity|].
  simpl. rewrite IH. apply absorb_app.
  destruct b as [|c b]; [exact I|].
  destruct (chars_head c b) as (t & l & ->).
  destruct t; [exact Hb | reflexivity].
Qed.

Lemma is_continuation_trail (c : ascii) : is_continuation c = true -> trail c = 0%nat.
Proof.
  unfold is_continuation. intros H. apply andb_prop in H as [_ H].
  now apply trail_low.
Qed.

Lemma chars_well_formed (ch s : string) :
  well_formed ch = true -> chars (ch +:+ s) = ch :: chars s.
Proof.
  destruct ch as [|c [|c1 [|c2 [|c3 [|c4 r]]]]]; cbn [well_formed ord]; try discriminate.
  - intros H. simpl. apply chars_single. apply trail_low.
    apply N.ltb_lt in H. apply N.ltb_lt. lia.
  - destruct (trail c =? 1)%nat eqn:Hk; [|discriminate]. apply Nat.eqb_eq in Hk.
    destruct (is_continuation c1) eqn:H1; [|discriminate]. intros _.
    cbn [String.append chars].
    rewrite (absorb_single c1) by now apply is_continuation_trail.
    unfold absorb. rewrite Hk. cbn. rewrite H1. reflexivity.
  - destruct (trail c =? 2)%nat eqn:Hk; [|discriminate]. apply Nat.eqb_eq in Hk.
    destruct (is_continuation c1) eqn:H1; [|discriminate].
    destruct (is_continuation c2) eqn:H2; [|discriminate]. intros _.
    cbn [String.append chars].
    rewrite (absorb_single c2) by now apply is_continuation_trail.
    rewrite (absorb_single c1) by now apply is_continuation_trail.
    unfold absorb. rewrite Hk. cbn. rewrite H1, H2. reflexivity.
  - destruct (trail c =? 3)%nat eqn:Hk; [|discriminate]. apply Nat.eqb_eq in Hk.
    destruct (is_continuation c1) eqn:H1; [|discriminate].
    destruct (is_continuation c2) eqn:H2; [|discriminate].
    destruct (is_continuation c3) eqn:H3; [|discriminate]. intros _.
    cbn [String.append chars].
    rewrite (absorb_single c3) by now apply is_continuation_trail.
    rewrite (absorb_single c2) by now apply is_continuation_trail.
    rewrite (absorb_single c1) by now apply is_continuation_trail.
    unfold absorb. rewrite Hk. cbn. rewrite H1, H2, H3. reflexivity.
Qed.

Lemma chars_joined (l : list string) :
  forallb well_formed l = true -> chars (joined l) = l.
Proof.
  induction l as [|ch l IH]; [reflexivity|].
  cbn [forallb joined]. intros H. apply andb_prop in H as [Hch Hl].
  rewrite (chars_well_formed _ _ Hch), (IH Hl). reflexivity.
Qed.

(** Every character of a class is well formed, when the class holds ASCII
    bytes only on the ASCII side. *)
Lemma char_in_well_formed (cls : ascii -> bool) (table : list (N * N)) (ch : string) :
  (forall c, cls c = true -> (code c <? 128)%N = true) ->
  char_in cls table ch = true -> well_formed ch = true.
Proof.
  intros Hcls. unfold char_in, well_formed.
  destruct ch as [|c [|c1 r]]; try discriminate.
  - apply Hcls.
  - destruct (ord _); [reflexivity | discriminate].
Qed.

Lemma is_word_ascii (c : ascii) : is_word c = true -> (code c <? 128)%N = true.
Proof.
  unfold is_word, is_alnum, is_alpha, is_digit. intros H. apply N.ltb_lt.
  repeat (apply orb_prop in H as [H | H]);
    try (apply andb_prop in H as [H1 H2]; apply N.leb_le in H1, H2; lia).
  apply N.eqb_eq in H. lia.
Qed.

Lemma is_digit_ascii (c : ascii) : is_digit c = true -> (code c <? 128)%N = true.
Proof. intros H. apply is_digit_range in H. apply N.ltb_lt. lia. Qed.

Lemma is_word_char_well_formed (ch : string) :
  is_word_char ch = true -> well_formed ch = true.
Proof. apply char_in_well_formed, is_word_ascii. Qed.

Lemma decimal_of_well_formed (ch : string) (d : Z) :
  decimal_of ch = Some d -> well_formed ch = true.
Proof.
  unfold decimal_of, well_formed. destruct ch as [|c [|c1 r]]; try discriminate.
  - destruct (is_digit c) eqn:H; [|discriminate]. intros _. now apply is_digit_ascii.
  - destruct (ord _); [reflexivity | discriminate].
Qed.

Lemma is_decimal_char_well_formed (ch : string) :
  is_decimal_char ch = true -> well_formed ch = true.
Proof.
  unfold is_decimal_char. destruct (decimal_of ch) as [d|] eqn:H; [|discriminate].
  intros _. now apply (decimal_of_well_formed _ d).
Qed.

Lemma forallb_impl {A} (p q : A -> bool) (l : list A) :
  (forall x, p x = true -> q x = true) -> forallb p l = true -> forallb q l = true.
Proof.
  intros Hpq. induction l as [|x l IH]; [reflexivity|].
  cbn [forallb]. intros H. apply andb_prop in H as [Hx Hl].
  now rewrite (Hpq _ Hx), (IH Hl).
Qed.

(** What [span_chars] returns, and conversely. *)
Lemma span_chars_spec (p : string -> bool) (l a b : list string) :
  span_chars p l = (a, b) ->
  l = a ++ b /\ forallb p a = true /\
  match b with ch :: _ => p ch = false | [] => True end.
Proof.
  revert a b. induction l as [|x l IH]; simpl; intros a b H.
  - inversion H; subst. simpl. auto.
  - destruct (p x) eqn:Hx.
    + destruct (span_chars p l) as [a' b'] eqn:Hs. inversion H; subst.
      destruct (IH _ _ eq_refl) as (-> & Ha & Hb).
      simpl. rewrite Hx, Ha. auto.
    + inversion H; subst. simpl. rewrite Hx. auto.
Qed.

Lemma span_chars_app (p : string -> bool) (a b : list string) :
  forallb p a = true ->
  match b with ch :: _ => p ch = false | [] => True end ->
  span_chars p (a ++ b) = (a, b).
Proof.
  intros Ha Hb. induction a as [|x a IH]; simpl in *.
  - destruct b as [|c b]; [reflexivity|]. simpl. now rewrite Hb.
  - apply andb_prop in Ha as [Hx Ha]. rewrite Hx, (IH Ha). reflexivity.
Qed.

(** On a plain string the classes are the ASCII classes. *)
Lemma forallb_chars_plain (cls : ascii -> bool) (table : list (N * N)) (s : string) :
  plain s = true -> forallb (char_in cls table) (chars s) = all_chars cls s.
Proof.
  unfold plain. induction s as [|c s IH]; [reflexivity|].
  cbn [all_chars]. intros H. apply andb_prop in H as [Hc Hs].
  rewrite (chars_single c s (trail_low c Hc)). cbn [forallb char_in].
  now rewrite (IH Hs).
Qed.

Lemma int_text_plain (s : string) : plain s = true -> int_text s = s.
Proof.
  unfold plain, int_text. induction s as [|c s IH]; [reflexivity|].
  cbn [all_chars]. intros H. apply andb_prop in H as [Hc Hs].
  rewrite (chars_single c s (trail_low c Hc)). cbn [map joined int_char].
  simpl. now rewrite (IH Hs).
Qed.

Lemma digits_plain (s : string) : all_chars is_digit s = true -> plain s = true.
Proof.
  apply all_chars_impl. intros c Hc. apply is_digit_range in Hc.
  apply N.ltb_lt. lia.
Qed.

Lemma words_plain (s : string) : all_chars is_word s = true -> plain s = true.
Proof.
  apply all_chars_impl. intros c Hc. apply is_word_ascii in Hc.
  apply N.ltb_lt in Hc. apply N.ltb_lt. lia.
Qed.

Lemma digit_not_space (c : ascii) : is_digit c = true -> is_c_space c = false.
Proof.
  intros H. apply is_digit_range in H. unfold is_c_space.
  apply orb_false_intro.
  - apply andb_false_iff. right. apply N.leb_gt. lia.
  - apply N.eqb_neq. lia.
Qed.

Lemma digit_is_word (c : ascii) : is_digit c = true -> is_word c = true.
Proof. intros H. unfold is_word, is_alnum. rewrite H. now rewrite orb_true_r. Qed.

Lemma alnum_is_word (c : ascii) : is_alnum c = true -> is_word c = true.
Proof. intros H. unfold is_word. now rewrite H. Qed.

Lemma code_eqb (c d : ascii) : Ascii.eqb c d = (code c =? code d)%N.
Proof.
  destruct (Ascii.eqb c d) eqn:E.
  - apply Ascii.eqb_eq in E. subst. symmetry. apply N.eqb_refl.
  - symmetry. apply N.eqb_neq. intros H. apply Ascii.eqb_neq in E. apply E.
    unfold code in H. rewrite <- (ascii_N_embedding c), <- (ascii_N_embedding d).
    now rewrite H.
Qed.

Lemma digit_val_range (c : ascii) : is_digit c = true -> 0 <= digit_val c <= 9.
Proof. intros H. apply is_digit_range in H. unfold digit_val. lia. Qed.

Lemma digits_value_lower (s : string) (acc : Z) :
  all_chars is_digit s = true -> 0 <= acc -> acc <= digits_value acc s.
Proof.
  revert acc. induction s as [|x s IH]; simpl; intros acc H Hacc; [lia|].
  apply andb_prop in H as [Hx Hs]. apply digit_val_range in Hx.
  specialize (IH (acc * 10 + digit_val x) Hs). lia.
Qed.

(** [int] reads a run of digits as its decimal value. *)
Lemma int_body_digits (s : string) (acc : Z) (after_digit : bool) :
  all_chars is_digit s = true -> truthy s || after_digit = true ->
  int_body acc after_digit s = Some (digits_value acc s).
Proof.
  revert acc after_digit. induction s as [|x s IH]; simpl; intros acc b H Hb.
  - now rewrite Hb.
  - apply andb_prop in H as [Hx Hs]. rewrite Hx. apply IH; [assumption|].
    apply orb_true_r.
Qed.

Lemma int_literal_digits (s : string) :
  all_chars is_digit s = true -> truthy s = true ->
  int_literal s = Some (digits_value 0 s).
Proof.
  intros H Ht. unfold int_literal.
  destruct s as [|x s]; [discriminate|].
  assert (Hx : is_digit x = true) by (simpl in H; now apply andb_prop in H).
  rewrite skip_spaces_id by now apply digit_not_space.
  rewrite skip_spaces_end_id.
  2:{ eapply all_chars_impl; [|exact H]. intros c Hc.
      now rewrite (digit_not_space _ Hc). }
  pose proof (is_digit_range _ Hx) as Hr.
  rewrite !code_eqb.
  replace (code x =? code "-")%N with false by (symmetry; apply N.eqb_neq; cbn; lia).
  replace (code x =? code "+")%N with false by (symmetry; apply N.eqb_neq; cbn; lia).
  now apply int_body_digits.
Qed.

Lemma int_of_str_digits (s : string) :
  all_chars is_digit s = true -> truthy s = true ->
  int_of_str s = Some (digits_value 0 s).
Proof.
  intros H Ht. unfold int_of_str.
  rewrite (int_text_plain s (digits_plain s H)). now apply int_literal_digits.
Qed.

Lemma digits_value_app (s t : string) (acc : Z) :
  digits_value acc (s +:+ t) = digits_value (digits_value acc s) t.
Proof.
  revert acc. induction s as [|x s IH]; simpl; intros acc; [reflexivity|].
  apply IH.
Qed.

Lemma digit_char_spec (d : Z) :
  0 <= d <= 9 ->
  is_digit (digit_char d) = true /\ digit_val (digit_char d) = d /\
  (0 < d -> Ascii.eqb "0" (digit_char d) = false).
Proof.
  intros H.
  assert (d = 0 \/ d = 1 \/ d = 2 \/ d = 3 \/ d = 4 \/ d = 5 \/ d = 6 \/
          d = 7 \/ d = 8 \/ d = 9) as Hd by lia.
  repeat (destruct Hd as [-> | Hd]); try subst d;
    (split; [reflexivity | split; [reflexivity | intros; try reflexivity; lia]]).
Qed.

Lemma startswith_app_truthy (d t : string) (p : ascii) :
  truthy d = true -> startswith (d +:+ t) (String p "") = startswith d (String p "").
Proof. destruct d as [|x d]; [discriminate|]. intros _. reflexivity. Qed.

(** The digits [digits_of] puts in front of [acc], given fuel enough for
    [n]: a non-empty run of digits whose value is [n], without a leading
    zero unless [n] is zero. *)
Lemma digits_of_spec (fuel : nat) :
  forall (n : Z) (acc : string),
    0 <= n < 2 ^ Z.of_nat (S fuel) ->
    exists d,
      digits_of (S fuel) n acc = d +:+ acc /\
      truthy d = true /\ all_chars is_digit d = true /\
      digits_value 0 d = n /\
      (0 < n -> startswith d "0" = false).
Proof.
  induction fuel as [|fuel IH]; intros n acc Hn.
  - assert (n = 0 \/ n = 1) as [-> | ->] by (change (2 ^ Z.of_nat 1) with 2 in Hn; lia).
    + exists "0". repeat split; try reflexivity. lia.
    + exists "1". repeat split; reflexivity.
  - change (digits_of (S (S fuel)) n acc) with
      (let acc' := String (digit_char (n mod 10)) acc in
       if n <? 10 then acc' else digits_of (S fuel) (n / 10) acc').
    cbv zeta.
    assert (Hm : 0 <= n mod 10 <= 9) by (pose proof (Z.mod_pos_bound n 10); lia).
    destruct (digit_char_spec _ Hm) as (Hdig & Hval & Hlead).
    destruct (n <? 10) eqn:Hlt.
    + apply Z.ltb_lt in Hlt.
      exists (String (digit_char (n mod 10)) "").
      rewrite Z.mod_small in * by lia.
      repeat split.
      * cbn [all_chars]. now rewrite Hdig.
      * cbn [digits_value]. rewrite Hval. lia.
      * intros Hpos. cbn [startswith]. now rewrite (Hlead Hpos).
    + apply Z.ltb_ge in Hlt.
      assert (Hq : 0 <= n / 10 < 2 ^ Z.of_nat (S fuel)).
      { split; [apply Z.div_pos; lia|].
        apply Z.div_lt_upper_bound; [lia|].
        rewrite (Nat2Z.inj_succ (S fuel)), Z.pow_succ_r in Hn by lia. lia. }
      destruct (IH (n / 10) (String (digit_char (n mod 10)) acc) Hq)
        as (d & Heq & Ht & Hall & Hv & Hl).
      exists (d +:+ String (digit_char (n mod 10)) "").
      repeat split.
      * rewrite Heq, append_assoc. reflexivity.
      * destruct d; [discriminate | reflexivity].
      * rewrite all_chars_app, Hall. cbn [all_chars]. now rewrite Hdig.
      * rewrite digits_value_app, Hv. cbn [digits_value]. rewrite Hval.
        pose proof (Z.div_mod n 10). lia.
      * intros _. rewrite startswith_app_truthy by assumption.
        apply Hl. apply Z.div_str_pos. lia.
Qed.

(** [str(n)] for a non-negative [n]. *)
Lemma str_of_int_digits (n : Z) :
  0 <= n ->
  truthy (str_of_int n) = true /\ all_chars is_digit (str_of_int n) = true /\
  digits_value 0 (str_of_int n) = n /\
  (0 < n -> startswith (str_of_int n) "0" = false).
Proof.
  intros Hn. unfold str_of_int.
  replace (n <? 0) with false by (symmetry; apply Z.ltb_ge; lia).
  assert (Hb : 0 <= n < 2 ^ Z.of_nat (S (Z.to_nat (Z.log2 n)))).
  { rewrite Nat2Z.inj_succ, Z2Nat.id by apply Z.log2_nonneg.
    destruct (Z.eq_dec n 0) as [-> | Hne]; [cbn; lia|].
    pose proof (Z.log2_spec n). lia. }
  destruct (digits_of_spec _ n "" Hb) as (d & Heq & Ht & Hall & Hv & Hl).
  rewrite Heq, append_empty_r. auto.
Qed.

(** *** Decimal digits of any script *)

Lemma in_range_points (cp : N) (r : N * N) :
  in_range cp r = true -> In cp (points_of r).
Proof.
  unfold in_range. intros H. apply andb_prop in H as [H1 H2].
  apply N.leb_le in H1, H2.
  unfold points_of. apply in_map_iff. exists (N.to_nat (cp - fst r)).
  split; [lia|]. apply in_seq. lia.
Qed.

Lemma in_ranges_points (cp : N) (table : list (N * N)) :
  in_ranges cp table = true -> In cp (flat_map points_of table).
Proof.
  unfold in_ranges. intros H. apply existsb_exists in H as (r & Hr & Hin).
  apply in_flat_map. exists r. split; [assumption | now apply in_range_points].
Qed.

(** No whitespace character is a decimal digit. *)
Lemma space_points_not_decimal :
  forallb (fun cp => negb (in_ranges cp decimal_table)) (flat_map points_of space_table) = true.
Proof. vm_compute. reflexivity. Qed.

Lemma digit_not_str_space (c : ascii) : is_digit c = true -> is_space c = false.
Proof.
  intros H. apply is_digit_range in H. unfold is_space.
  apply orb_false_intro; apply andb_false_iff.
  - right. apply N.leb_gt. lia.
  - right. apply N.leb_gt. lia.
Qed.

Lemma decimal_not_space (ch : string) (d : Z) :
  decimal_of ch = Some d -> is_space_char ch = false.
Proof.
  unfold decimal_of, is_space_char, char_in.
  destruct ch as [|c [|c1 r]]; try discriminate.
  - destruct (is_digit c) eqn:H; [|discriminate]. intros _. now apply digit_not_str_space.
  - destruct (ord _) as [cp|]; [|discriminate].
    destruct (List.find _ _) as [r0|] eqn:Hfind; [|discriminate]. intros _.
    destruct (in_ranges cp space_table) eqn:Hsp; [|reflexivity].
    apply in_ranges_points in Hsp.
    pose proof (proj1 (forallb_forall _ _) space_points_not_decimal cp Hsp) as Hno.
    apply find_some in Hfind as [Hin Hr].
    assert (Hyes : in_ranges cp decimal_table = true)
      by (apply existsb_exists; eauto).
    cbv beta in Hno. rewrite Hyes in Hno. discriminate.
Qed.

Lemma decimal_of_range (ch : string) (d : Z) : decimal_of ch = Some d -> 0 <= d <= 9.
Proof.
  unfold decimal_of. destruct ch as [|c [|c1 r]]; try discriminate.
  - destruct (is_digit c) eqn:H; [|discriminate]. intros [= <-].
    now apply digit_val_range.
  - destruct (ord _) as [cp|]; [|discriminate].
    destruct (List.find _ _) as [r0|]; [|discriminate]. intros [= <-].
    assert (Hm : ((cp - fst r0) mod 10 < 10)%N) by (apply N.mod_lt; discriminate).
    set (m := ((cp - fst r0) mod 10)%N) in *. clearbody m. lia.
Qed.

(** [int] reads a decimal digit of any script as the ASCII digit of its
    value. *)
Lemma int_char_decimal (ch : string) (d : Z) :
  decimal_of ch = Some d ->
  exists c, int_char ch = String c EmptyString /\ is_digit c = true /\ digit_val c = d.
Proof.
  intros H. pose proof (decimal_not_space _ _ H) as Hsp.
  pose proof (decimal_of_range _ _ H) as Hd.
  destruct ch as [|c [|c1 r]].
  - discriminate.
  - exists c. cbn [decimal_of] in H. destruct (is_digit c) eqn:Hc; [|discriminate].
    injection H as <-. auto.
  - unfold int_char. rewrite Hsp, H.
    destruct (digit_char_spec d Hd) as (H1 & H2 & _). eauto.
Qed.

Lemma int_text_decimals (l : list string) :
  forallb is_decimal_char l = true ->
  exists dl,
    joined (map int_char l) = dl /\ all_chars is_digit dl = true /\
    (l <> [] -> truthy dl = true) /\
    forall acc,
      digits_value acc dl =
      fold_left (fun a ch => a * 10 + default 0 (decimal_of ch)) l acc.
Proof.
  induction l as [|ch l IH]; cbn [forallb].
  - intros _. exists EmptyString.
    split; [reflexivity|]. split; [reflexivity|]. split; [congruence | reflexivity].
  - intros H. apply andb_prop in H as [Hch Hl].
    unfold is_decimal_char in Hch.
    destruct (decimal_of ch) as [d|] eqn:Hd; [|discriminate].
    destruct (int_char_decimal _ _ Hd) as (c & Hc & Hdig & Hval).
    destruct (IH Hl) as (dl & Hj & Hall & _ & Hv).
    exists (String c dl). cbn [map joined]. rewrite Hc, Hj.
    split; [reflexivity|]. split; [cbn [all_chars]; now rewrite Hdig, Hall|].
    split; [reflexivity|].
    intros acc. cbn [digits_value fold_left]. rewrite Hd, Hval.
    unfold default at 2; cbn [from_option id]. apply Hv.
Qed.

Lemma chars_truthy (s : string) : truthy s = true -> chars s <> [].
Proof.
  destruct s as [|c s]; [discriminate|]. intros _.
  destruct (chars_head c s) as (t & l & ->). discriminate.
Qed.

Lemma int_of_str_decimal (s : string) :
  decimal_text s = true -> int_of_str s = Some (decimal_value s).
Proof.
  unfold decimal_text. intros H. apply andb_prop in H as [Ht Hall].
  destruct (int_text_decimals _ Hall) as (dl & Hj & Hdig & Htr & Hv).
  unfold int_of_str, int_text. rewrite Hj.
  rewrite (int_literal_digits dl Hdig (Htr (chars_truthy s Ht))).
  unfold decimal_value. now rewrite Hv.
Qed.

Lemma decimal_value_nonneg (s : string) : 0 <= decimal_value s.
Proof.
  unfold decimal_value.
  assert (H : forall l acc, 0 <= acc ->
            0 <= fold_left (fun a ch => a * 10 + default 0 (decimal_of ch)) l acc).
  { induction l as [|ch l IH]; intros acc Hacc; [exact Hacc|].
    cbn [fold_left]. apply IH.
    destruct (decimal_of ch) as [d|] eqn:Hd; unfold default; cbn [from_option id]; [|lia].
    apply decimal_of_range in Hd. lia. }
  apply H. lia.
Qed.

(** On ASCII digits the classes and the value are the ASCII ones. *)
Lemma decimal_text_digits (s : string) :
  all_chars is_digit s = true -> truthy s = true ->
  decimal_text s = true /\ decimal_value s = digits_value 0 s.
Proof.
  intros Hdig Ht. unfold decimal_text, decimal_value. rewrite Ht. cbn [andb].
  assert (H : forall s acc, all_chars is_digit s = true ->
            forallb is_decimal_char (chars s) = true /\
            fold_left (fun a ch => a * 10 + default 0 (decimal_of ch)) (chars s) acc =
              digits_value acc s).
  { clear. induction s as [|c s IH]; intros acc H; [split; reflexivity|].
    cbn [all_chars] in H. apply andb_prop in H as [Hc Hs].
    assert (Hlow : (code c <? 192)%N = true)
      by (apply is_digit_range in Hc; apply N.ltb_lt; lia).
    rewrite (chars_single c s (trail_low c Hlow)).
    cbn [forallb fold_left digits_value]. unfold is_decimal_char at 1.
    cbn [decimal_of]. rewrite Hc. cbn [default andb].
    apply (IH _ Hs). }
  apply H, Hdig.
Qed.

Lemma word_text_words (s : string) :
  all_chars is_word s = true -> truthy s = true -> word_text s = true.
Proof.
  intros Hw Ht. unfold word_text, is_word_char. rewrite Ht. cbn [andb].
  now rewrite (forallb_chars_plain _ _ s (words_plain s Hw)).
Qed.

Lemma all_chars_joined (p : ascii -> bool) (l : list string) :
  all_chars p (joined l) = forallb (all_chars p) l.
Proof.
  induction l as [|x l IH]; [reflexivity|].
  cbn [joined forallb]. now rewrite all_chars_app, IH.
Qed.

Lemma trail_high (c : ascii) : trail c <> 0%nat -> (128 <=? code c)%N = true.
Proof.
  unfold trail. destruct (code c <? 192)%N eqn:H; [congruence|].
  intros _. apply N.ltb_ge in H. apply N.leb_le. lia.
Qed.

(** The bytes of a character beyond ASCII are beyond ASCII. *)
Lemma ord_bytes_high (c c1 : ascii) (r : string) (cp : N) :
  ord (String c (String c1 r)) = Some cp ->
  all_chars (fun x => (128 <=? code x)%N) (String c (String c1 r)) = true.
Proof.
  assert (Hc : forall x, is_continuation x = true -> (128 <=? code x)%N = true).
  { intros x H. unfold is_continuation in H. now apply andb_prop in H as [H _]. }
  destruct r as [|c2 [|c3 [|c4 r]]]; cbn [ord]; try discriminate.
  - destruct (trail c =? 1)%nat eqn:Hk; [|discriminate]. apply Nat.eqb_eq in Hk.
    destruct (is_continuation c1) eqn:H1; [|discriminate]. intros _.
    cbn [all_chars]. rewrite (trail_high c), (Hc c1 H1) by (assumption || lia).
    reflexivity.
  - destruct (trail c =? 2)%nat eqn:Hk; [|discriminate]. apply Nat.eqb_eq in Hk.
    destruct (is_continuation c1) eqn:H1; [|discriminate].
    destruct (is_continuation c2) eqn:H2; [|discriminate]. intros _.
    cbn [all_chars].
    rewrite (trail_high c), (Hc c1 H1), (Hc c2 H2) by (assumption || lia).
    reflexivity.
  - destruct (trail c =? 3)%nat eqn:Hk; [|discriminate]. apply Nat.eqb_eq in Hk.
    destruct (is_continuation c1) eqn:H1; [|discriminate].
    destruct (is_continuation c2) eqn:H2; [|discriminate].
    destruct (is_continuation c3) eqn:H3; [|discriminate]. intros _.
    cbn [all_chars].
    rewrite (trail_high c), (Hc c1 H1), (Hc c2 H2), (Hc c3 H3) by (assumption || lia).
    reflexivity.
Qed.

Lemma high_not_bracket (c : ascii) :
  (128 <=? code c)%N = true -> negb (Ascii.eqb c "]") = true.
Proof.
  intros H. destruct (Ascii.eqb c "]") eqn:E; [|reflexivity].
  apply Ascii.eqb_eq in E. subst c. discriminate.
Qed.

Lemma is_word_char_no_bracket (ch : string) :
  is_word_char ch = true -> all_chars (fun x => negb (Ascii.eqb x "]")) ch = true.
Proof.
  unfold is_word_char, char_in. destruct ch as [|c [|c1 r]]; try discriminate.
  - intros H. cbn [all_chars]. destruct (Ascii.eqb c "]") eqn:E; [|reflexivity].
    apply Ascii.eqb_eq in E. subst c. discriminate.
  - destruct (ord _) as [cp|] eqn:Hord; [|discriminate]. intros _.
    eapply all_chars_impl; [apply high_not_bracket | exact (ord_bytes_high _ _ _ _ Hord)].
Qed.

Lemma is_decimal_char_no_bracket (ch : string) :
  is_decimal_char ch = true -> all_chars (fun x => negb (Ascii.eqb x "]")) ch = true.
Proof.
  unfold is_decimal_char, decimal_of. destruct ch as [|c [|c1 r]]; try discriminate.
  - destruct (is_digit c) eqn:H; [|discriminate]. intros _. cbn [all_chars].
    destruct (Ascii.eqb c "]") eqn:E; [|reflexivity].
    apply Ascii.eqb_eq in E. subst c. discriminate.
  - destruct (ord _) as [cp|] eqn:Hord; [|discriminate]. intros _.
    eapply all_chars_impl; [apply high_not_bracket | exact (ord_bytes_high _ _ _ _ Hord)].
Qed.

Lemma text_no_bracket (p : string -> bool) (s : string) :
  (forall ch, p ch = true -> all_chars (fun x => negb (Ascii.eqb x "]")) ch = true) ->
  forallb p (chars s) = true ->
  all_chars (fun x => negb (Ascii.eqb x "]")) s = true.
Proof.
  intros Hp H. rewrite <- (joined_chars s), all_chars_joined.
  eapply forallb_impl; [exact Hp | exact H].
Qed.

End StringFacts.

(** ** The local identity matcher and the canonical name *)

Section Identity.

Lemma tagged_pattern (name site digits rest : string) :
  tagged_name name site digits rest ->
  pattern_name name site digits rest /\ decimal_value digits = digits_value 0 digits.
Proof.
  intros (Hname & Hs & Hw & Hd & Hdig).
  destruct (decimal_text_digits digits Hdig Hd) as [Htext Hvalue].
  split; [|exact Hvalue]. split; [exact Hname|]. split; [|exact Htext].
  now apply word_text_words.
Qed.

Lemma re_match_site_complete (name site digits rest : string) :
  pattern_name name site digits rest -> Bt.re_match_site name = Some site.
Proof.
  intros (-> & Hsite & Hdigits).
  unfold word_text in Hsite. apply andb_prop in Hsite as [Hs Hw].
  unfold decimal_text in Hdigits. apply andb_prop in Hdigits as [Hd Hdig].
  unfold Bt.re_match_site.
  change ("[" +:+ site +:+ "-" +:+ digits +:+ "]" +:+ rest)
    with (String "[" (site +:+ String "-" (digits +:+ String "]" rest))).
  rewrite (chars_single "[") by reflexivity.
  rewrite (chars_app site) by reflexivity.
  rewrite (chars_single "-") by reflexivity.
  rewrite (chars_app digits) by reflexivity.
  rewrite (chars_single "]") by reflexivity.
  cbn [String.eqb Ascii.eqb Bool.eqb].
  rewrite (span_chars_app is_word_char (chars site)) by (assumption || reflexivity).
  pose proof (chars_truthy site Hs) as Hne.
  destruct (chars site) as [|ch0 l0] eqn:Hcs; [congruence|].
  cbn [length Nat.eqb negb andb String.eqb Ascii.eqb Bool.eqb].
  rewrite (span_chars_app is_decimal_char (chars digits)) by (assumption || reflexivity).
  pose proof (chars_truthy digits Hd) as Hne'.
  destruct (chars digits) as [|ch1 l1] eqn:Hcd; [congruence|].
  cbn [length Nat.eqb negb andb String.eqb Ascii.eqb Bool.eqb].
  rewrite <- Hcs, joined_chars. reflexivity.
Qed.

Lemma joined_truthy (l : list string) :
  l <> [] -> forallb well_formed l = true -> truthy (joined l) = true.
Proof.
  destruct l as [|ch l]; [congruence|]. intros _. cbn [forallb joined].
  intros H. apply andb_prop in H as [H _].
  destruct ch; [discriminate | reflexivity].
Qed.

Lemma re_match_site_sound (name site : string) :
  Bt.re_match_site name = Some site ->
  exists digits rest, pattern_name name site digits rest.
Proof.
  unfold Bt.re_match_site. intros H.
  rewrite <- (joined_chars name).
  destruct (chars name) as [|c0 r]; [discriminate|].
  destruct (String.eqb c0 "[") eqn:E0; [|discriminate].
  apply String.eqb_eq in E0. subst c0.
  destruct (span_chars is_word_char r) as [w after_w] eqn:Hw.
  destruct after_w as [|c1 r1]; [discriminate|].
  destruct (length w =? 0)%nat eqn:Lw; [discriminate|]. cbn [negb andb] in H.
  destruct (String.eqb c1 "-") eqn:E1; [|discriminate].
  apply String.eqb_eq in E1. subst c1.
  destruct (span_chars is_decimal_char r1) as [d after_d] eqn:Hd.
  destruct after_d as [|c2 r2]; [discriminate|].
  destruct (length d =? 0)%nat eqn:Ld; [discriminate|]. cbn [negb andb] in H.
  destruct (String.eqb c2 "]") eqn:E2; [|discriminate].
  apply String.eqb_eq in E2. subst c2.
  injection H as <-.
  apply span_chars_spec in Hw as (-> & Hallw & _).
  apply span_chars_spec in Hd as (-> & Halld & _).
  assert (Hwf : forallb well_formed w = true)
    by (eapply forallb_impl; [apply is_word_char_well_formed | exact Hallw]).
  assert (Hdf : forallb well_formed d = true)
    by (eapply forallb_impl; [apply is_decimal_char_well_formed | exact Halld]).
  exists (joined d), (joined r2). split; [|split].
  - cbn [joined]. rewrite joined_app. cbn [joined]. rewrite joined_app.
    cbn [joined]. reflexivity.
  - unfold word_text. rewrite (chars_joined w Hwf), Hallw, joined_truthy; auto.
    intros ->. discriminate.
  - unfold decimal_text. rewrite (chars_joined d Hdf), Halld, joined_truthy; auto.
    intros ->. discriminate.
Qed.

Lemma no_bracket_in_words (s : string) :
  all_chars is_word s = true ->
  all_chars (fun x => negb (Ascii.eqb x "]")) s = true.
Proof.
  apply all_chars_impl. intros c Hc.
  destruct (Ascii.eqb c "]") eqn:E; [|reflexivity].
  apply Ascii.eqb_eq in E. subst c. discriminate.
Qed.

(** On a name of the pattern, with the site read from the name or passed by
    the caller, the matcher returns the site and the value of the digits,
    unless that value is zero. *)
Lemma local_torrent_from_pattern (t : Bt.TypedTorrent.t)
    (site digits rest : string) (given : option string) :
  pattern_name (Bt.TypedTorrent.name t) site digits rest ->
  given = None \/ given = Some site ->
  Bt.local_torrent_from t given =
    if decimal_value digits =? 0 then Raise ValueError
    else Return (Bt.LocalTorrent.mk t (decimal_value digits) site None).
Proof.
  intros Htag Hgiven. unfold Bt.local_torrent_from.
  assert (Hsite :
    match given with
    | None =>
        match Bt.re_match_site (Bt.TypedTorrent.name t) with
        | None => Raise ValueError
        | Some group1 => Return group1
        end
    | Some site => Return site
    end = Return site).
  { destruct Hgiven as [-> | ->]; [|reflexivity].
    now rewrite (re_match_site_complete _ _ _ _ Htag). }
  rewrite Hsite. cbn [rbind].
  destruct Htag as (Hname & Hw & Hdig).
  set (prefix := "[" +:+ site +:+ "-").
  assert (Hsplit : Bt.TypedTorrent.name t = prefix +:+ digits +:+ String "]" rest).
  { rewrite Hname. unfold prefix. simpl. now rewrite append_assoc. }
  rewrite Hsplit, startswith_app.
  assert (Hidx : index (prefix +:+ digits +:+ String "]" rest) "]"
                 = Return (String.length prefix + String.length digits)%nat).
  { unfold index. rewrite <- append_assoc, find_char_app.
    - now rewrite length_append.
    - rewrite all_chars_app. apply andb_true_intro. split.
      + unfold prefix. simpl. rewrite all_chars_app.
        unfold word_text in Hw. apply andb_prop in Hw as [_ Hw].
        rewrite (text_no_bracket _ _ is_word_char_no_bracket Hw). reflexivity.
      + unfold decimal_text in Hdig. apply andb_prop in Hdig as [_ Hdig].
        exact (text_no_bracket _ _ is_decimal_char_no_bracket Hdig). }
  rewrite Hidx. cbn [rbind]. rewrite slice_middle.
  unfold Utils.int_or. rewrite (int_of_str_decimal _ Hdig).
  destruct (decimal_value digits =? 0); reflexivity.
Qed.

Lemma local_torrent_from_tagged (t : Bt.TypedTorrent.t)
    (site digits rest : string) (given : option string) :
  tagged_name (Bt.TypedTorrent.name t) site digits rest ->
  given = None \/ given = Some site ->
  Bt.local_torrent_from t given =
    if digits_value 0 digits =? 0 then Raise ValueError
    else Return (Bt.LocalTorrent.mk t (digits_value 0 digits) site None).
Proof.
  intros Htag Hgiven. destruct (tagged_pattern _ _ _ _ Htag) as [Hpat <-].
  exact (local_torrent_from_pattern t site digits rest given Hpat Hgiven).
Qed.

(** Every failure of the matcher is a [ValueError]. *)
Lemma local_torrent_from_raises (t : Bt.TypedTorrent.t) (given : option string) (e : exn) :
  Bt.local_torrent_from t given = Raise e -> e = ValueError.
Proof.
  unfold Bt.local_torrent_from, index, or_raise.
  destruct given as [site|]; cbn [rbind].
  - destruct (startswith _ _); [|congruence].
    destruct (find_char _ _); cbn [rbind]; [|congruence].
    destruct (negb _); congruence.
  - destruct (Bt.re_match_site _) as [site|]; cbn [rbind]; [|congruence].
    destruct (startswith _ _); [|congruence].
    destruct (find_char _ _); cbn [rbind]; [|congruence].
    destruct (negb _); congruence.
Qed.

End Identity.

Section CanonicalName.

Lemma count_char_app (c : ascii) (a b : string) :
  count_char c (a +:+ b) = (count_char c a + count_char c b)%nat.
Proof. induction a as [|x a IH]; simpl; [reflexivity | rewrite IH; lia]. Qed.

Lemma count_char_outside (p : ascii -> bool) (c : ascii) (s : string) :
  p c = false -> all_chars p s = true -> count_char c s = O.
Proof.
  intros Hc. induction s as [|x s IH]; simpl; [reflexivity|].
  intros H. apply andb_prop in H as [Hx Hs]. rewrite (IH Hs).
  destruct (Ascii.eqb x c) eqn:E; [|reflexivity].
  apply Ascii.eqb_eq in E. congruence.
Qed.

(** C2. For a record with a non-empty alphanumeric site key and a positive
    id, [_generate_rename] gives the opening bracket, the site, one hyphen,
    the id in plain decimal (digits only, no leading zero), the closing
    bracket and then the title at once; the hyphen is the only one between
    the brackets; and [local_torrent_from] reads the same site and id back
    from a torrent of that name, whether it finds the site itself or is
    told it. *)
Theorem generate_rename_roundtrip (info : Bt.TorrentInfo.t) (hash save_path : string) :
  truthy (Bt.TorrentInfo.site info) = true ->
  all_chars is_alnum (Bt.TorrentInfo.site info) = true ->
  0 < Bt.TorrentInfo.seed_id info ->
  Bt._generate_rename info =
    "[" +:+ Bt.TorrentInfo.site info +:+ "-"
        +:+ str_of_int (Bt.TorrentInfo.seed_id info) +:+ "]"
        +:+ Bt.TorrentInfo.title info /\
  (truthy (str_of_int (Bt.TorrentInfo.seed_id info)) = true /\
   all_chars is_digit (str_of_int (Bt.TorrentInfo.seed_id info)) = true /\
   startswith (str_of_int (Bt.TorrentInfo.seed_id info)) "0" = false /\
   digits_value 0 (str_of_int (Bt.TorrentInfo.seed_id info)) = Bt.TorrentInfo.seed_id info) /\
  count_char "-"
    (Bt.TorrentInfo.site info +:+ "-" +:+ str_of_int (Bt.TorrentInfo.seed_id info)) = 1%nat /\
  forall given, given = None \/ given = Some (Bt.TorrentInfo.site info) ->
    Bt.local_torrent_from
      (Bt.TypedTorrent.mk (Bt._generate_rename info) hash save_path) given =
    Return
      (Bt.LocalTorrent.mk
         (Bt.TypedTorrent.mk (Bt._generate_rename info) hash save_path)
         (Bt.TorrentInfo.seed_id info) (Bt.TorrentInfo.site info) None).
Proof.
  intros Hs Hal Hid.
  destruct (str_of_int_digits (Bt.TorrentInfo.seed_id info)) as (Ht & Hdig & Hv & Hlead);
    [lia|].
  specialize (Hlead Hid).
  assert (Hw : all_chars is_word (Bt.TorrentInfo.site info) = true)
    by (eapply all_chars_impl; [apply alnum_is_word | exact Hal]).
  split; [reflexivity|]. split; [auto|]. split.
  - rewrite !count_char_app.
    rewrite (count_char_outside is_alnum "-" (Bt.TorrentInfo.site info))
      by (assumption || reflexivity).
    rewrite (count_char_outside is_digit "-" (str_of_int (Bt.TorrentInfo.seed_id info)))
      by (assumption || reflexivity).
    reflexivity.
  - intros given Hgiven.
    rewrite (local_torrent_from_tagged _ (Bt.TorrentInfo.site info)
               (str_of_int (Bt.TorrentInfo.seed_id info)) (Bt.TorrentInfo.title info)).
    + rewrite Hv. replace (Bt.TorrentInfo.seed_id info =? 0) with false; [reflexivity|].
      symmetry. apply Z.eqb_neq. lia.
    + repeat split; assumption.
    + exact Hgiven.
Qed.

(** The round trip on the record of torrent 1024 of the site "byr". *)
Lemma generate_rename_roundtrip_witness :
  Bt._generate_rename (Bt.TorrentInfo.mk "Some.Title" 1024 "byr" "movie" "") =
    "[byr-1024]Some.Title" /\
  Bt.local_torrent_from (Bt.TypedTorrent.mk "[byr-1024]Some.Title" "c0ffee" "/dl/movie") None =
    Return (Bt.LocalTorrent.mk
              (Bt.TypedTorrent.mk "[byr-1024]Some.Title" "c0ffee" "/dl/movie")
              1024 "byr" None).
Proof.
  pose proof (generate_rename_roundtrip
                (Bt.TorrentInfo.mk "Some.Title" 1024 "byr" "movie" "")
                "c0ffee" "/dl/movie" eq_refl eq_refl eq_refl) as (Hname & _ & _ & Hback).
  split; [exact Hname|]. exact (Hback None (or_introl eq_refl)).
Defined.

End CanonicalName.

Section Identify.

(** C3, as the code has it. [local_torrent_from], asked to find the site
    itself, returns exactly on the names made of an opening bracket, a
    non-empty run of word characters (the class [\w] of the pattern:
    letters and digits of any script, and the underscore), a hyphen, a
    non-empty run of decimal digits (the class [\d], of any script) of
    positive value and a closing bracket, followed by anything; it then
    gives that site and that value. On every other name it raises
    [ValueError] and nothing else. So "[byr-1024]Some.Title" gives
    ("byr", 1024), while "randomname" and "[byr-0]Title" raise
    [ValueError]; and a site or an id written beyond ASCII is identified
    all the same. *)
Theorem local_torrent_from_identifies :
  (forall (t : Bt.TypedTorrent.t) (l : Bt.LocalTorrent.t),
     Bt.local_torrent_from t None = Return l <->
     exists site digits rest,
       pattern_name (Bt.TypedTorrent.name t) site digits rest /\
       0 < decimal_value digits /\
       l = Bt.LocalTorrent.mk t (decimal_value digits) site None) /\
  (forall (t : Bt.TypedTorrent.t),
     is_return (Bt.local_torrent_from t None) = false ->
     Bt.local_torrent_from t None = Raise ValueError) /\
  (forall hash save_path,
     Bt.local_torrent_from (Bt.TypedTorrent.mk "[byr-1024]Some.Title" hash save_path) None =
       Return (Bt.LocalTorrent.mk
                 (Bt.TypedTorrent.mk "[byr-1024]Some.Title" hash save_path) 1024 "byr" None) /\
     Bt.local_torrent_from (Bt.TypedTorrent.mk "randomname" hash save_path) None =
       Raise ValueError /\
     Bt.local_torrent_from (Bt.TypedTorrent.mk "[byr-0]Title" hash save_path) None =
       Raise ValueError /\
     Bt.local_torrent_from (Bt.TypedTorrent.mk "[北邮-5]x" hash save_path) None =
       Return (Bt.LocalTorrent.mk
                 (Bt.TypedTorrent.mk "[北邮-5]x" hash save_path) 5 "北邮" None) /\
     Bt.local_torrent_from (Bt.TypedTorrent.mk "[byr-５]x" hash save_path) None =
       Return (Bt.LocalTorrent.mk
                 (Bt.TypedTorrent.mk "[byr-５]x" hash save_path) 5 "byr" None)).
Proof.
  split; [|split].
  - intros t l. split.
    + intros H.
      destruct (Bt.re_match_site (Bt.TypedTorrent.name t)) as [site|] eqn:Hm.
      * destruct (re_match_site_sound _ _ Hm) as (digits & rest & Htag).
        rewrite (local_torrent_from_pattern t site digits rest None Htag) in H by auto.
        destruct (decimal_value digits =? 0) eqn:Hz; [discriminate|].
        injection H as <-. exists site, digits, rest.
        apply Z.eqb_neq in Hz.
        pose proof (decimal_value_nonneg digits).
        split; [exact Htag|]. split; [lia | reflexivity].
      * unfold Bt.local_torrent_from in H. rewrite Hm in H. discriminate.
    + intros (site & digits & rest & Htag & Hpos & ->).
      rewrite (local_torrent_from_pattern t site digits rest None Htag) by auto.
      replace (decimal_value digits =? 0) with false; [reflexivity|].
      symmetry. apply Z.eqb_neq. lia.
  - intros t H.
    destruct (Bt.local_torrent_from t None) as [l|e] eqn:E; [discriminate|].
    now rewrite (local_torrent_from_raises _ _ _ E).
  - intros hash save_path. repeat split; vm_compute; reflexivity.
Qed.

(** C3, as the specification words it, fails on the site token: the pattern's word
    class holds the underscore, so a name is identified although its site
    token is not alphanumeric. *)
Lemma local_torrent_from_underscore_site :
  Bt.local_torrent_from (Bt.TypedTorrent.mk "[a_b-5]x" "c0ffee" "/dl") None =
    Return (Bt.LocalTorrent.mk (Bt.TypedTorrent.mk "[a_b-5]x" "c0ffee" "/dl") 5 "a_b" None) /\
  all_chars is_alnum "a_b" = false.
Proof. split; reflexivity. Qed.

End Identify.

(** ** Removal of a torrent and of the torrents sharing its files *)

Section Removal.

Local Abbreviation hash_of t := (Bt.TypedTorrent.hash (Bt.LocalTorrent.torrent t)).

(** The calls of [remove_torrent] when [extra] is a collection. *)
Lemma remove_torrent_calls (torrent : Bt.LocalTorrent.t)
    (siblings : list Bt.LocalTorrent.t) (q : Bt.qbittorrent) :
  Bt.calls (Bt.remove_torrent torrent (Some (Bt.collection siblings)) q) =
  Bt.calls q ++
    [Bt.torrents_delete false (map (fun t => hash_of t) siblings);
     Bt.time_sleep 500;
     Bt.torrents_delete true [hash_of torrent]].
Proof.
  unfold Bt.remove_torrent, Bt.record. simpl.
  rewrite <- !app_assoc. reflexivity.
Qed.

(** When [extra] is a collection that can be iterated again (a list, a
    set), the order is the documented one. Removing a torrent together
    with a non-empty collection of torrents sharing its files issues, after
    what the client had already received: removals that do not delete
    files, among them one naming each sibling, and then, last, the only
    removal that deletes files, which names the target torrent alone. The
    client's categories are untouched. *)
Theorem remove_torrent_siblings_first (torrent : Bt.LocalTorrent.t)
    (siblings : list Bt.LocalTorrent.t) (q : Bt.qbittorrent) :
  siblings <> [] ->
  exists before,
    Bt.calls (Bt.remove_torrent torrent (Some (Bt.collection siblings)) q) =
      Bt.calls q ++ before ++ [Bt.torrents_delete true [hash_of torrent]] /\
    forallb (fun c => negb (deletes_files c)) before = true /\
    (forall s, In s siblings ->
       exists i hashes,
         nth_error before i = Some (Bt.torrents_delete false hashes) /\
         In (hash_of s) hashes) /\
    length (List.filter deletes_files
              (before ++ [Bt.torrents_delete true [hash_of torrent]])) = 1%nat /\
    Bt.categories (Bt.remove_torrent torrent (Some (Bt.collection siblings)) q) =
      Bt.categories q.
Proof.
  intros _.
  exists [Bt.torrents_delete false (map (fun t => hash_of t) siblings); Bt.time_sleep 500].
  split; [apply remove_torrent_calls|].
  split; [reflexivity|]. split; [|split; reflexivity].
  intros s Hs. exists O, (map (fun t => hash_of t) siblings).
  split; [reflexivity|]. apply in_map_iff. exists s. auto.
Qed.

(** Three torrents sharing one content: two are removed first, keeping the
    files, and the last removal deletes them. *)
Lemma remove_torrent_siblings_first_witness :
  let t1 := Bt.LocalTorrent.mk (Bt.TypedTorrent.mk "[byr-1]A" "h1" "/dl") 1 "byr" None in
  let t2 := Bt.LocalTorrent.mk (Bt.TypedTorrent.mk "[tju-2]A" "h2" "/dl") 2 "tju" None in
  let t3 := Bt.LocalTorrent.mk (Bt.TypedTorrent.mk "[hdsky-3]A" "h3" "/dl") 3 "hdsky" None in
  [t2; t3] <> [] /\
  exists before,
    Bt.calls (Bt.remove_torrent t1 (Some (Bt.collection [t2; t3])) (Bt.mk_qbittorrent ∅ [])) =
      [] ++ before ++ [Bt.torrents_delete true ["h1"]] /\
    forallb (fun c => negb (deletes_files c)) before = true.
Proof.
  intros t1 t2 t3.
  assert (Hne : [t2; t3] <> []) by discriminate.
  split; [exact Hne|].
  destruct (remove_torrent_siblings_first t1 [t2; t3] (Bt.mk_qbittorrent ∅ []) Hne)
    as (before & Hcalls & Hkeep & _).
  exists before. split; assumption.
Defined.

(** When [extra] is a generator, the log message consumes it, and the
    first removal names no torrent at all. *)
Remark remove_torrent_generator_calls (torrent : Bt.LocalTorrent.t)
    (siblings : list Bt.LocalTorrent.t) (q : Bt.qbittorrent) :
  Bt.calls (Bt.remove_torrent torrent (Some (Bt.generator siblings)) q) =
  Bt.calls q ++
    [Bt.torrents_delete false [];
     Bt.time_sleep 500;
     Bt.torrents_delete true [hash_of torrent]].
Proof.
  unfold Bt.remove_torrent, Bt.record. simpl.
  rewrite <- !app_assoc. reflexivity.
Qed.

(** C1, on the code. [extra] is declared an iterable, and the docstring
    promises that its torrents are removed first, keeping the files. But
    the log message iterates [extra] before the removal does: given a
    generator, whatever torrents it would give, the removal that keeps the
    files names none of them, and the removal that deletes the files
    follows. With the generator over the two siblings "h2" and "h3" of the
    torrent "h1", the siblings are still in the client when the files are
    deleted; with the list of the same two, they are removed first. *)
Theorem remove_torrent_generator_skips_siblings :
  (forall (torrent : Bt.LocalTorrent.t) (siblings : list Bt.LocalTorrent.t)
          (q : Bt.qbittorrent),
     Bt.calls (Bt.remove_torrent torrent (Some (Bt.generator siblings)) q) =
     Bt.calls q ++
       [Bt.torrents_delete false []; Bt.time_sleep 500;
        Bt.torrents_delete true [hash_of torrent]]) /\
  Bt.calls
    (Bt.remove_torrent
       (Bt.LocalTorrent.mk (Bt.TypedTorrent.mk "[byr-1]A" "h1" "/dl") 1 "byr" None)
       (Some (Bt.generator
          [Bt.LocalTorrent.mk (Bt.TypedTorrent.mk "[tju-2]A" "h2" "/dl") 2 "tju" None;
           Bt.LocalTorrent.mk (Bt.TypedTorrent.mk "[hdsky-3]A" "h3" "/dl") 3 "hdsky" None]))
       (Bt.mk_qbittorrent ∅ [])) =
    [Bt.torrents_delete false []; Bt.time_sleep 500; Bt.torrents_delete true ["h1"]] /\
  Bt.calls
    (Bt.remove_torrent
       (Bt.LocalTorrent.mk (Bt.TypedTorrent.mk "[byr-1]A" "h1" "/dl") 1 "byr" None)
       (Some (Bt.collection
          [Bt.LocalTorrent.mk (Bt.TypedTorrent.mk "[tju-2]A" "h2" "/dl") 2 "tju" None;
           Bt.LocalTorrent.mk (Bt.TypedTorrent.mk "[hdsky-3]A" "h3" "/dl") 3 "hdsky" None]))
       (Bt.mk_qbittorrent ∅ [])) =
    [Bt.torrents_delete false ["h2"; "h3"]; Bt.time_sleep 500;
     Bt.torrents_delete true ["h1"]].
Proof.
  split; [|split; reflexivity].
  intros torrent siblings q. apply remove_torrent_generator_calls.
Qed.

End Removal.

(** ** Adding a torrent *)

Section Adding.

Variable realpath : string -> string.
Variable float : Type.
Variable float_mul : float -> Z -> float.
Variable float_int : float -> result Z.

Local Abbreviation add_torrent := (Bt.add_torrent realpath float float_mul float_int).
Local Abbreviation _get_download_dir := (Bt._get_download_dir realpath).

(** The directory a torrent is saved to when none is reused: the real path
    of the download directory, then the category, then the secondary
    category when the record has one. *)
Lemma get_download_dir_spec (download_dir : string) (info : Bt.TorrentInfo.t) :
  _get_download_dir download_dir info =
  if truthy (Bt.TorrentInfo.second_category info)
  then OsPath.join (OsPath.join (realpath download_dir) (Bt.TorrentInfo.category info))
         (Bt.TorrentInfo.second_category info)
  else OsPath.join (realpath download_dir) (Bt.TorrentInfo.category info).
Proof. reflexivity. Qed.

(** C7, as the code has it. When [int] reads the upload limit,
    [add_torrent] returns after one [torrents_add]. Given an existing local
    torrent, it saves to that torrent's save path and skips hash checking.
    Given a flag instead, it saves to the directory derived from the
    download directory and the record's categories, and skips hash
    checking exactly when the flag is true: not for [False], the default,
    but also for [True], which supplies no local torrent. When [int]
    raises on the upload limit (an infinity, a NaN), [add_torrent] raises
    the same and adds nothing. *)
Theorem add_torrent_save_path (self : Bt.BtClient float) (torrent : string)
    (info : Bt.TorrentInfo.t) (download_dir : string) (paused : bool)
    (q : Bt.qbittorrent) :
  (forall (l : Bt.LocalTorrent.t) (upload_limit : Z),
     float_int (float_mul (float_mul (Bt.upload_limit float self) 1024) 1024) =
       Return upload_limit ->
     fst (add_torrent self torrent info download_dir paused (Bt.exists_local l) q) =
       Return tt /\
     Bt.calls (snd (add_torrent self torrent info download_dir paused (Bt.exists_local l) q)) =
     Bt.calls q ++
       [Bt.torrents_add torrent
          (Bt.TypedTorrent.save_path (Bt.LocalTorrent.torrent l))
          (Bt.TorrentInfo.category info) true paused (Bt._generate_rename info)
          [Bt.TorrentInfo.site info] upload_limit]) /\
  (forall (b : bool) (upload_limit : Z),
     float_int (float_mul (float_mul (Bt.upload_limit float self) 1024) 1024) =
       Return upload_limit ->
     fst (add_torrent self torrent info download_dir paused (Bt.exists_flag b) q) =
       Return tt /\
     Bt.calls (snd (add_torrent self torrent info download_dir paused (Bt.exists_flag b) q)) =
     Bt.calls q ++
       [Bt.torrents_add torrent
          (if truthy (Bt.TorrentInfo.second_category info)
           then OsPath.join
                  (OsPath.join (realpath download_dir) (Bt.TorrentInfo.category info))
                  (Bt.TorrentInfo.second_category info)
           else OsPath.join (realpath download_dir) (Bt.TorrentInfo.category info))
          (Bt.TorrentInfo.category info) b paused (Bt._generate_rename info)
          [Bt.TorrentInfo.site info] upload_limit]) /\
  (forall (exists_ : Bt.exists_arg) (e : exn),
     float_int (float_mul (float_mul (Bt.upload_limit float self) 1024) 1024) = Raise e ->
     add_torrent self torrent info download_dir paused exists_ q = (Raise e, q)).
Proof.
  unfold Bt.add_torrent. split; [|split].
  - intros l upload_limit ->. split; reflexivity.
  - intros b upload_limit ->. split; reflexivity.
  - intros exists_ e ->. reflexivity.
Qed.

End Adding.

(** C7, as the specification words it, fails when [exists] is [True]: no local
    torrent is supplied, the save path is the derived one, and hash
    checking is skipped all the same. *)
Lemma add_torrent_flag_skips_checking :
  Bt.calls
    (snd
       (Bt.add_torrent realpath_plain Z Z.mul (fun x => Return x) (Bt.mk_BtClient Z 95)
          "d8:announce" (Bt.TorrentInfo.mk "Title" 7 "byr" "movie" "") "/dl" false
          (Bt.exists_flag true) (Bt.mk_qbittorrent ∅ []))) =
  [Bt.torrents_add "d8:announce" "/dl/movie" "movie" true false "[byr-7]Title"
     ["byr"] 99614720].
Proof. reflexivity. Qed.

(** ** Creating the categories *)

Section Categories.

Variable realpath : string -> string.

Local Abbreviation init_categories := (Bt.init_categories realpath).
Local Abbreviation init_categories_loop := (Bt.init_categories_loop realpath).

Lemma create_category_keeps (name torrent_dir : string) (q : Bt.qbittorrent)
    (k v : string) :
  Bt.categories q !! k = Some v ->
  Bt.categories (Bt.create_category name torrent_dir q) !! k = Some v.
Proof.
  intros Hk. unfold Bt.create_category, Bt.record. cbn [Bt.categories].
  destruct (Bt.categories q !! name) eqn:Hn; [exact Hk|].
  rewrite lookup_insert_ne; [exact Hk|]. congruence.
Qed.

(** The loop creates the categories that are not in [existing], in the
    order given, each under the directory computed for the one created
    before it, and keeps every entry the client had. *)
Lemma init_categories_loop_spec (existing : gset string) (categories : list string) :
  forall (download_dir : string) (q : Bt.qbittorrent),
  exists created,
    Bt.calls (init_categories_loop existing download_dir categories q) =
      Bt.calls q ++ map create_call created /\
    map fst created = List.filter (fun c => bool_decide (c ∉ existing)) categories /\
    chained realpath download_dir created /\
    (forall k v, Bt.categories q !! k = Some v ->
       Bt.categories (init_categories_loop existing download_dir categories q) !! k = Some v).
Proof.
  induction categories as [|category rest IH]; intros download_dir q.
  - exists []. cbn. rewrite app_nil_r. auto.
  - cbn [Bt.init_categories_loop List.filter].
    destruct (decide (category ∈ existing)) as [Hin | Hout].
    + rewrite bool_decide_eq_false_2 by auto.
      apply IH.
    + rewrite bool_decide_eq_true_2 by auto.
      destruct (IH (OsPath.join (realpath download_dir) category)
                  (Bt.create_category category
                     (OsPath.join (realpath download_dir) category) q))
        as (created & Hcalls & Hnames & Hchain & Hkeep).
      exists ((category, OsPath.join (realpath download_dir) category) :: created).
      split; [|split; [|split]].
      * rewrite Hcalls. cbn. rewrite <- app_assoc. reflexivity.
      * cbn. now rewrite Hnames.
      * cbn. auto.
      * intros k v Hk. apply Hkeep. now apply create_category_keeps.
Qed.

(** C10. [init_categories] issues one [torrents_create_category] for each
    given category the client does not have yet, in the order given, and
    none for a category it has. The directory of the first one created is
    [join(realpath(download_dir), category)]; the directory of each later
    one is [join(realpath(d), category)] for the directory [d] of the one
    created just before it, not for [download_dir]. Every category the
    client had keeps its setting. On a plain file system, creating "movie"
    and then "music" under "/dl" puts "music" in "/dl/movie/music". *)
Theorem init_categories_chains_directories (download_dir : string)
    (categories : list string) (q : Bt.qbittorrent) :
  (exists created,
     Bt.calls (init_categories download_dir categories q) =
       Bt.calls q ++ map create_call created /\
     map fst created =
       List.filter (fun c => bool_decide (c ∉ dom (Bt.categories q))) categories /\
     chained realpath download_dir created /\
     (forall i name1 dir1 name2 dir2,
        nth_error created i = Some (name1, dir1) ->
        nth_error created (S i) = Some (name2, dir2) ->
        dir2 = OsPath.join (realpath dir1) name2)) /\
  (forall name dir, Bt.categories q !! name = Some dir ->
     Bt.categories (init_categories download_dir categories q) !! name = Some dir) /\
  Bt.calls
    (Bt.init_categories realpath_plain "/dl" ["movie"; "anime"; "music"]
       (Bt.mk_qbittorrent {["anime" := "/srv/anime"]} [])) =
    [Bt.torrents_create_category "movie" "/dl/movie";
     Bt.torrents_create_category "music" "/dl/movie/music"].
Proof.
  destruct (init_categories_loop_spec (dom (Bt.categories q)) categories download_dir q)
    as (created & Hcalls & Hnames & Hchain & Hkeep).
  split; [|split].
  - exists created. repeat split; try assumption.
    clear Hcalls Hnames Hkeep. revert download_dir Hchain.
    induction created as [|[n d] rest IH]; intros base Hchain i n1 d1 n2 d2 H1 H2.
    + destruct i; discriminate.
    + destruct Hchain as [Hd Hrest]. destruct i as [|i].
      * injection H1 as -> ->. destruct rest as [|[n' d'] rest']; [discriminate|].
        injection H2 as -> ->. exact (proj1 Hrest).
      * exact (IH _ Hrest i n1 d1 n2 d2 H1 H2).
  - exact Hkeep.
  - vm_compute. reflexivity.
Qed.

End Categories.

(** ** The promotion classifier *)

Section Promotions.

Variable PROMOTION_FREE : string.
Variable PROMOTION_TWO_UP : string.
Variable PROMOTION_HALF_DOWN : string.
Variable PROMOTION_THIRTY_DOWN : string.

Local Abbreviation selectors :=
  (Api.selectors PROMOTION_FREE PROMOTION_TWO_UP PROMOTION_HALF_DOWN PROMOTION_THIRTY_DOWN).
Local Abbreviation _extract_promotion_info :=
  (Api._extract_promotion_info
     PROMOTION_FREE PROMOTION_TWO_UP PROMOTION_HALF_DOWN PROMOTION_THIRTY_DOWN).

(** The keys of the dictionary literal are distinct, so the dictionary
    holds its entries in the order they are written. *)
Lemma selectors_keys_distinct : NoDup (map fst selectors).
Proof. apply (bool_decide_unpack _). vm_compute. exact I. Qed.

(** The loop returns the value of the first item whose selector selects
    something. *)
Lemma extract_promotion_loop_first (title_cell : Bs4.element)
    (items : list (string * list string)) :
  forall (i : nat) (selector : string) (promotions : list string),
    nth_error items i = Some (selector, promotions) ->
    Bs4.select_one title_cell selector <> None ->
    (forall j s p, (j < i)%nat -> nth_error items j = Some (s, p) ->
       Bs4.select_one title_cell s = None) ->
    Api._extract_promotion_loop title_cell items = promotions.
Proof.
  induction items as [|[s0 p0] rest IH]; intros i selector promotions Hi Hsel Hbefore.
  - destruct i; discriminate.
  - destruct i as [|i]; cbn [Api._extract_promotion_loop].
    + injection Hi as -> ->.
      destruct (Bs4.select_one title_cell selector); [reflexivity | contradiction].
    + rewrite (Hbefore O s0 p0) by (lia || reflexivity).
      apply (IH i selector promotions Hi Hsel).
      intros j s p Hj Hnth. apply (Hbefore (S j) s p); [lia | exact Hnth].
Qed.

Lemma extract_promotion_loop_none (title_cell : Bs4.element)
    (items : list (string * list string)) :
  (forall s p, In (s, p) items -> Bs4.select_one title_cell s = None) ->
  Api._extract_promotion_loop title_cell items = [].
Proof.
  induction items as [|[s0 p0] rest IH]; intros Hnone; [reflexivity|].
  cbn [Api._extract_promotion_loop].
  rewrite (Hnone s0 p0) by (left; reflexivity).
  apply IH. intros s p Hin. apply (Hnone s p). right. exact Hin.
Qed.

(** C4. For every title cell, [_extract_promotion_info] returns the flags
    of the first entry of its table whose selector selects something in the
    cell, whatever later entries would select, and the empty list when no
    entry does. The title cell of the example row has both the background
    class of the double-upload entry (the second of the table) and the icon
    of the free entry (the thirteenth): the flags returned are those of the
    double-upload entry alone. *)
Theorem extract_promotion_info_first_match (title_cell : Bs4.element) :
  (forall (i : nat) (selector : string) (promotions : list string),
     nth_error selectors i = Some (selector, promotions) ->
     Bs4.select_one title_cell selector <> None ->
     (forall j s p, (j < i)%nat -> nth_error selectors j = Some (s, p) ->
        Bs4.select_one title_cell s = None) ->
     _extract_promotion_info title_cell = promotions) /\
  ((forall s p, In (s, p) selectors -> Bs4.select_one title_cell s = None) ->
   _extract_promotion_info title_cell = []) /\
  (let cell :=
     Bs4.mk_element (Example.listing_row "2023-05-01 12:00:00" Example.hidden_uploader) [1%nat] in
   nth_error selectors 1 = Some ("tr.twoup_bg", [PROMOTION_TWO_UP]) /\
   nth_error selectors 12 = Some ("img.pro_free", [PROMOTION_FREE]) /\
   Bs4.select_one cell "tr.twoup_bg" <> None /\
   Bs4.select_one cell "img.pro_free" <> None /\
   _extract_promotion_info cell = [PROMOTION_TWO_UP]).
Proof.
  split; [|split].
  - intros i selector promotions. apply extract_promotion_loop_first.
  - apply extract_promotion_loop_none.
  - cbv zeta. repeat split; try reflexivity; vm_compute; discriminate.
Qed.

End Promotions.

(** ** The id of the current user *)

Section CurrentUser.

Variable respond : list string -> string -> result Bs4.node.

Local Abbreviation current_user_id := (Api.current_user_id respond).

(** A call that finds a cached id returns it and changes nothing. *)
Lemma current_user_id_hit (self : Api.ByrApi) :
  Api._user_id self <> 0 ->
  current_user_id self = (Return (Api._user_id self), self).
Proof.
  intros H. unfold Api.current_user_id.
  replace (Api._user_id self =? 0) with false; [reflexivity|].
  symmetry. now apply Z.eqb_neq.
Qed.

(** What a call that returns leaves behind: the id returned is the cached
    one, and at most one page was requested, the front page. *)
Lemma current_user_id_returns (self self' : Api.ByrApi) (v : Z) :
  current_user_id self = (Return v, self') ->
  Api._user_id self' = v /\
  (Api.requests (Api.client self') = Api.requests (Api.client self) \/
   Api.requests (Api.client self') = Api.requests (Api.client self) ++ [EmptyString]).
Proof.
  unfold Api.current_user_id.
  destruct (negb (Api._user_id self =? 0)).
  - intros [= <- <-]. auto.
  - unfold Api.bind, Api.get_soup.
    destruct (respond (Api.requests (Api.client self)) EmptyString) as [page|e];
      cbn [rbind]; [|discriminate].
    match goal with |- context [Api.lift ?r] => destruct r as [user_id|e] end;
      unfold Api.lift; [|discriminate].
    intros [= <- <-]. cbn. auto.
Qed.

Lemma call_times_hit (self : Api.ByrApi) (n : nat) :
  Api._user_id self <> 0 ->
  call_times current_user_id n self = (repeat (Return (Api._user_id self)) n, self).
Proof.
  intros H. induction n as [|n IH]; [reflexivity|].
  cbn [call_times repeat]. rewrite (current_user_id_hit self H), IH. reflexivity.
Qed.

(** C9. Once a call of [current_user_id] has returned a non-zero id, having
    requested at most one page for it, any number of further calls return
    that same id and leave the object as it is: the cached id stays, and no
    page is requested again. *)
Theorem current_user_id_cached (self self' : Api.ByrApi) (v : Z) :
  current_user_id self = (Return v, self') ->
  v <> 0 ->
  (length (Api.requests (Api.client self')) <=
     length (Api.requests (Api.client self)) + 1)%nat /\
  forall n : nat, call_times current_user_id n self' = (repeat (Return v) n, self').
Proof.
  intros Hcall Hv.
  destruct (current_user_id_returns _ _ _ Hcall) as [Hid Hreq].
  split.
  - destruct Hreq as [-> | ->]; [lia|]. rewrite length_app. cbn. lia.
  - intros n. subst v. now apply call_times_hit.
Qed.

End CurrentUser.

(** ** The listing extractor *)

Lemma rbind_return_inv {A B} (r : result A) (k : A -> result B) (b : B) :
  rbind r k = Return b -> exists a, r = Return a /\ k a = Return b.
Proof. destruct r as [a|e]; [|discriminate]. intros H. exists a. auto. Qed.

Ltac rinv H :=
  cbv zeta in H;
  repeat (apply rbind_return_inv in H;
          let x := fresh "x" in
          let E := fresh "E" in
          destruct H as (x & E & H); cbv beta zeta in H).

Section Listing.

Variable float : Type.
Variable float_zero : float.
Variable float_div : float -> Z -> float.
Variable datetime : Type.
Variable fromisoformat : string -> option datetime.
Variable total_seconds : datetime -> datetime -> float.
Variable convert_byr_size : string -> result float.
Variable convert_byr_category : string -> string.
Variable PROMOTION_FREE : string.
Variable PROMOTION_TWO_UP : string.
Variable PROMOTION_HALF_DOWN : string.
Variable PROMOTION_THIRTY_DOWN : string.

Local Abbreviation _extract_torrent_row :=
  (Api._extract_torrent_row float float_zero float_div datetime fromisoformat
     total_seconds convert_byr_size convert_byr_category
     PROMOTION_FREE PROMOTION_TWO_UP PROMOTION_HALF_DOWN PROMOTION_THIRTY_DOWN).
Local Abbreviation _extract_torrent_loop :=
  (Api._extract_torrent_loop float float_zero float_div datetime fromisoformat
     total_seconds convert_byr_size convert_byr_category
     PROMOTION_FREE PROMOTION_TWO_UP PROMOTION_HALF_DOWN PROMOTION_THIRTY_DOWN).
Local Abbreviation _extract_torrent_table :=
  (Api._extract_torrent_table float float_zero float_div datetime fromisoformat
     total_seconds convert_byr_size convert_byr_category
     PROMOTION_FREE PROMOTION_TWO_UP PROMOTION_HALF_DOWN PROMOTION_THIRTY_DOWN).

(** When the loop returns, it has appended one record per row, in the
    order of the rows, each the extraction of its row. *)
Lemma extract_torrent_loop_returns (clock : nat -> datetime) (rows : list Bs4.element) :
  forall (k : nat) (torrents result : list (Api.TorrentInfo.t float)),
    _extract_torrent_loop clock k rows torrents = Return result ->
    exists new,
      result = torrents ++ new /\ length new = length rows /\
      forall i row, nth_error rows i = Some row ->
        exists t, nth_error new i = Some t /\
                  _extract_torrent_row (clock (k + i)%nat) row = Return t.
Proof.
  induction rows as [|row0 rest IH]; intros k torrents result H.
  - injection H as <-. exists []. rewrite app_nil_r. repeat split.
    intros i row Hi. destruct i; discriminate.
  - cbn [Api._extract_torrent_loop] in H.
    apply rbind_return_inv in H as (t0 & Hrow & H).
    destruct (IH _ _ _ H) as (new & -> & Hlen & Hnew).
    exists (t0 :: new). rewrite <- app_assoc. repeat split; [cbn; lia|].
    intros i row Hi. destruct i as [|i].
    + injection Hi as <-. exists t0. rewrite Nat.add_0_r. auto.
    + destruct (Hnew i row Hi) as (t & Ht & Hext). exists t.
      replace (k + S i)%nat with (S k + i)%nat by lia. auto.
Qed.

(** The first row whose extraction raises makes the loop raise the same
    exception: the records built so far are dropped and the rows after it
    are not looked at. *)
Lemma extract_torrent_loop_raises (clock : nat -> datetime) (rows : list Bs4.element) :
  forall (k : nat) (torrents : list (Api.TorrentInfo.t float))
         (i : nat) (row : Bs4.element) (e : exn),
    nth_error rows i = Some row ->
    _extract_torrent_row (clock (k + i)%nat) row = Raise e ->
    (forall j r, (j < i)%nat -> nth_error rows j = Some r ->
       is_return (_extract_torrent_row (clock (k + j)%nat) r) = true) ->
    _extract_torrent_loop clock k rows torrents = Raise e.
Proof.
  induction rows as [|row0 rest IH]; intros k torrents i row e Hi Hraise Hbefore.
  - destruct i; discriminate.
  - cbn [Api._extract_torrent_loop]. destruct i as [|i].
    + injection Hi as <-. rewrite Nat.add_0_r in Hraise. now rewrite Hraise.
    + pose proof (Hbefore O row0 ltac:(lia) eq_refl) as H0.
      rewrite Nat.add_0_r in H0.
      destruct (_extract_torrent_row (clock k) row0) as [t0|e0]; [|discriminate].
      cbn [rbind]. apply (IH (S k) _ i row e Hi).
      * replace (S k + i)%nat with (k + S i)%nat by lia. exact Hraise.
      * intros j r Hj Hr.
        replace (S k + j)%nat with (k + S j)%nat by lia.
        apply (Hbefore (S j) r); [lia | exact Hr].
Qed.

Lemma extract_torrent_loop_total (clock : nat -> datetime) (rows : list Bs4.element) :
  forall (k : nat) (torrents : list (Api.TorrentInfo.t float)),
    (forall i row, nth_error rows i = Some row ->
       is_return (_extract_torrent_row (clock (k + i)%nat) row) = true) ->
    is_return (_extract_torrent_loop clock k rows torrents) = true.
Proof.
  induction rows as [|row0 rest IH]; intros k torrents Hall; [reflexivity|].
  cbn [Api._extract_torrent_loop].
  pose proof (Hall O row0 eq_refl) as H0. rewrite Nat.add_0_r in H0.
  destruct (_extract_torrent_row (clock k) row0) as [t0|e0]; [|discriminate].
  cbn [rbind]. apply IH. intros i row Hi.
  replace (S k + i)%nat with (k + S i)%nat by lia. now apply (Hall (S i)).
Qed.

(** C5, as the code has it. [_extract_torrent_table] is all or nothing.
    When it returns, it returns one record per row, in page order, each the
    extraction of its row. When the extraction of a row raises (an
    unparseable publish time, a missing cell, link or attribute) and the
    rows before it extract, the whole call raises that exception: no record
    is returned, of the rows before or of the rows after, and no error is
    collected beside a result. It returns whenever every row extracts. *)
Theorem extract_torrent_table_all_or_nothing (clock : nat -> datetime)
    (rows : list Bs4.element) :
  (forall torrents,
     _extract_torrent_table clock rows = Return torrents ->
     length torrents = length rows /\
     forall i row, nth_error rows i = Some row ->
       exists t, nth_error torrents i = Some t /\
                 _extract_torrent_row (clock i) row = Return t) /\
  (forall i row e,
     nth_error rows i = Some row ->
     _extract_torrent_row (clock i) row = Raise e ->
     (forall j r, (j < i)%nat -> nth_error rows j = Some r ->
        is_return (_extract_torrent_row (clock j) r) = true) ->
     _extract_torrent_table clock rows = Raise e) /\
  ((forall i row, nth_error rows i = Some row ->
      is_return (_extract_torrent_row (clock i) row) = true) ->
   is_return (_extract_torrent_table clock rows) = true).
Proof.
  unfold Api._extract_torrent_table. split; [|split].
  - intros torrents H.
    destruct (extract_torrent_loop_returns clock rows O [] torrents H)
      as (new & -> & Hlen & Hnew).
    split; [exact Hlen|]. exact Hnew.
  - intros i row e Hi Hraise Hbefore.
    exact (extract_torrent_loop_raises clock rows O [] i row e Hi Hraise Hbefore).
  - intros Hall. exact (extract_torrent_loop_total clock rows O [] Hall).
Qed.

(** C6, as the code has it. When the extraction of a row returns, the row
    has a ninth cell. If no link to a profile is in it, the uploader of the
    record is a fresh user record whose name is set to the two-character
    Chinese word for "anonymous", its id being the default 0. If there is
    such a link, the id is read from the [id] field of the link's address
    and the name is the link's text. *)
Theorem extract_torrent_row_uploader (now : datetime) (row : Bs4.element)
    (t : Api.TorrentInfo.t float) :
  _extract_torrent_row now row = Return t ->
  exists cell8,
    nth_error (Bs4.find_all_children row "td") 8 = Some cell8 /\
    match Bs4.select_one cell8 "a[href^=userdetails]" with
    | None =>
        Api.TorrentInfo.uploader t =
          Api.ByrUser.set_username "匿名" (Api.ByrUser.init float_zero) /\
        Api.ByrUser.user_id (Api.TorrentInfo.uploader t) = 0 /\
        Api.ByrUser.username (Api.TorrentInfo.uploader t) = "匿名"
    | Some link =>
        exists href id,
          Bs4.attrs_get link "href" = Some href /\
          Api._extract_url_id href = Return id /\
          Api.ByrUser.user_id (Api.TorrentInfo.uploader t) = id /\
          Api.ByrUser.username (Api.TorrentInfo.uploader t) = Bs4.get_text link /\
          Api.TorrentInfo.uploader t =
            Api.ByrUser.set_username (Bs4.get_text link)
              (Api.ByrUser.set_user_id id (Api.ByrUser.init float_zero))
    end.
Proof.
  intros H. unfold Api._extract_torrent_row in H. rinv H.
  injection H as <-. cbn [Api.TorrentInfo.uploader].
  match goal with
  | Hc : Api.item _ 8 = Return ?c |- _ =>
      exists c; split;
      [unfold Api.item, or_raise in Hc;
       destruct (nth_error _ 8) as [c'|]; [now injection Hc as -> | discriminate] |]
  end.
  match goal with
  | Hu : match Bs4.select_one ?c _ with _ => _ end = Return ?u |- _ =>
      destruct (Bs4.select_one c "a[href^=userdetails]") as [link|]
  end.
  - match goal with Hu : (href <- _ ;; _) = Return _ |- _ => rinv Hu; injection Hu as <- end.
    match goal with
    | Hh : or_raise KeyError (Bs4.attrs_get link "href") = Return ?h,
      Hi : Api._extract_url_id ?h = Return ?i |- _ =>
        exists h, i; unfold or_raise in Hh;
        destruct (Bs4.attrs_get link "href") as [h'|]; [injection Hh as -> | discriminate]
    end.
    repeat split; assumption || reflexivity.
  - match goal with Hu : Return _ = Return _ |- _ => injection Hu as <- end.
    repeat split; reflexivity.
Qed.

End Listing.

(** C5, as the specification words it, fails: with a second row whose publish time
    does not parse, the page whose first row extracts on its own gives no
    record at all, and a third, well-formed row changes nothing. *)
Lemma extract_torrent_table_aborts_page :
  let good := Example.listing_row "2023-05-01 12:00:00" Example.hidden_uploader in
  let bad := Example.listing_row "yesterday" Example.named_uploader in
  is_return
    (Example._extract_torrent_table Example.clock
       (Example.rows_of (Example.listing_page [good]))) = true /\
  Example._extract_torrent_table Example.clock
    (Example.rows_of (Example.listing_page [good; bad])) = Raise ValueError /\
  Example._extract_torrent_table Example.clock
    (Example.rows_of (Example.listing_page [good; bad; good])) = Raise ValueError.
Proof. cbv zeta. repeat split; vm_compute; reflexivity. Qed.

(** C6, as the specification words it, fails on the name: the uploader of a row
    without a profile link has id 0 and the Chinese name, not the English
    word. *)
Lemma extract_torrent_row_anonymous_name :
  exists t,
    Example._extract_torrent_row (Example.clock 0)
      (Bs4.mk_element
         (Example.listing_row "2023-05-01 12:00:00" Example.hidden_uploader) []) =
      Return t /\
    Api.ByrUser.user_id (Api.TorrentInfo.uploader t) = 0 /\
    Api.ByrUser.username (Api.TorrentInfo.uploader t) = "匿名" /\
    Api.ByrUser.username (Api.TorrentInfo.uploader t) <> "anonymous".
Proof.
  eexists. split; [vm_compute; reflexivity|].
  cbn. repeat split. discriminate.
Qed.

(** The row of the examples with a hidden uploader extracts, and has the
    ninth cell the statement speaks of. *)
Lemma extract_torrent_row_uploader_witness :
  exists t cell8,
    Example._extract_torrent_row (Example.clock 0)
      (Bs4.mk_element
         (Example.listing_row "2023-05-01 12:00:00" Example.hidden_uploader) []) =
      Return t /\
    nth_error
      (Bs4.find_all_children
         (Bs4.mk_element
            (Example.listing_row "2023-05-01 12:00:00" Example.hidden_uploader) [])
         "td") 8 = Some cell8.
Proof.
  assert (H : { t | Example._extract_torrent_row (Example.clock 0)
                      (Bs4.mk_element
                         (Example.listing_row "2023-05-01 12:00:00"
                            Example.hidden_uploader) []) = Return t }).
  { eexists. vm_compute. reflexivity. }
  destruct H as [t H].
  destruct (extract_torrent_row_uploader _ _ _ _ _ _ _ _ _ _ _ _ _ _ _ H)
    as (cell8 & Hcell & _).
  exists t, cell8. split; assumption.
Defined.

(** A fresh [ByrApi] resolves the current user to 42 with one request, and
    three more calls return 42 without another one. *)
Lemma current_user_id_cached_witness :
  Api.current_user_id Example.respond Example.fresh =
    (Return 42, Api.mk_ByrApi (Api.mk_ByrClient [EmptyString]) 42) /\
  42 <> 0 /\
  call_times (Api.current_user_id Example.respond) 3
    (Api.mk_ByrApi (Api.mk_ByrClient [EmptyString]) 42) =
    ([Return 42; Return 42; Return 42], Api.mk_ByrApi (Api.mk_ByrClient [EmptyString]) 42).
Proof.
  assert (Hcall : Api.current_user_id Example.respond Example.fresh =
                  (Return 42, Api.mk_ByrApi (Api.mk_ByrClient [EmptyString]) 42))
    by (vm_compute; reflexivity).
  assert (Hv : 42 <> 0) by discriminate.
  split; [exact Hcall|]. split; [exact Hv|].
  exact (proj2 (current_user_id_cached Example.respond _ _ 42 Hcall Hv) 3%nat).
Defined.

(** ** The user profile extractor *)


Section Profile.

Variable float : Type.
Variable float_zero : float.
Variable float_of_str : string -> option float.
Variable convert_byr_size : string -> result float.
Variable respond : list string -> string -> result Bs4.node.

Local Abbreviation _extract_transfer_cell :=
  (Api._extract_transfer_cell float float_of_str convert_byr_size).
Local Abbreviation _extract_transfer :=
  (Api._extract_transfer float float_of_str convert_byr_size).
Local Abbreviation _extract_user_info :=
  (Api._extract_user_info float float_of_str convert_byr_size).
Local Abbreviation _extract_info_bar := (Api._extract_info_bar float).
Local Abbreviation user_info :=
  (Api.user_info float float_zero float_of_str convert_byr_size respond).
Local Abbreviation user := (Api.ByrUser.t float).

Lemma same_info_bar_fields_refl (u : user) : same_info_bar_fields u u.
Proof. repeat split. Qed.








End Profile.


(** Asked for the current user, [user_info] reads the info bar too. *)
Example user_info_current_user :
  option_map
    (fun u => (Api.ByrUser.user_id u, Api.ByrUser.seeding u,
               Api.ByrUser.downloading u, Api.ByrUser.connectable u))
    (match fst (Example.user_info 0 Example.fresh) with
     | Return u => Some u
     | Raise _ => None
     end) = Some (42, 5, 1, true).
Proof. vm_compute. reflexivity. Qed.

(** * Further properties of the code *)

(** ** Listing the local torrents *)

Section LocalListing.

Variable SITES : list string.
Variable torrents_info : string -> list Bt.TypedTorrent.t.

Local Abbreviation list_torrents := (BtListing.list_torrents SITES torrents_info).
Local Abbreviation list_torrents_site := (BtListing.list_torrents_site torrents_info).

Lemma list_torrents_loop_spec (mapping : gmap Z Bt.TorrentInfo.t) (wants_all : bool)
    (site : string) (pending : list Bt.TypedTorrent.t) :
  forall torrents,
    BtListing.list_torrents_loop mapping wants_all site pending torrents =
    Return (torrents ++ flat_map (listed mapping wants_all site) pending).
Proof.
  induction pending as [|t rest IH]; intros torrents; cbn [BtListing.list_torrents_loop flat_map].
  - now rewrite app_nil_r.
  - unfold listed at 1.
    destruct (Bt.local_torrent_from t (Some site)) as [local|e] eqn:E.
    + rewrite IH, <- app_assoc. reflexivity.
    + rewrite (local_torrent_from_raises _ _ _ E).
      rewrite IH. destruct wants_all; [now rewrite <- app_assoc | reflexivity].
Qed.

(** What [local_torrent_from] returns when the site is given. *)
Lemma local_torrent_from_given (t : Bt.TypedTorrent.t) (site : string) (l : Bt.LocalTorrent.t) :
  Bt.local_torrent_from t (Some site) = Return l ->
  Bt.LocalTorrent.torrent l = t /\ Bt.LocalTorrent.site l = site /\
  Bt.LocalTorrent.seed_id l <> 0 /\ Bt.LocalTorrent.info l = None /\
  startswith (Bt.TypedTorrent.name t) ("[" +:+ site +:+ "-") = true.
Proof.
  unfold Bt.local_torrent_from. cbn [rbind].
  destruct (startswith _ _) eqn:Hs; [|discriminate].
  destruct (index _ _) as [close|e]; cbn [rbind]; [|discriminate].
  destruct (negb _) eqn:Hz; [|discriminate].
  intros [= <-]. cbn. repeat split.
  apply negb_true_iff, Z.eqb_neq in Hz. exact Hz.
Qed.

Lemma filter_flat_map_recognized (mapping : gmap Z Bt.TorrentInfo.t) (site : string)
    (pending : list Bt.TypedTorrent.t) :
  map Bt.LocalTorrent.torrent (flat_map (listed mapping false site) pending) =
  List.filter (recognized site) pending.
Proof.
  induction pending as [|t rest IH]; [reflexivity|].
  cbn [flat_map List.filter]. rewrite map_app, IH.
  unfold listed, recognized.
  destruct (Bt.local_torrent_from t (Some site)) as [l|e] eqn:E; [|reflexivity].
  destruct (local_torrent_from_given _ _ _ E) as (-> & _). reflexivity.
Qed.

(** X1. Asked for the torrents of one site without [wants_all],
    [list_torrents] always returns. It returns, in the client's order, the
    torrents of the tag whose names [local_torrent_from] accepts under that
    site, and drops the others; each one listed carries the site asked for,
    an id that is not zero, and a name that starts with the site's tag. *)
Theorem list_torrents_keeps_recognized (remote_torrents : list Bt.TorrentInfo.t)
    (site : string) :
  exists found,
    list_torrents remote_torrents false (Some site) = Return found /\
    map Bt.LocalTorrent.torrent found = List.filter (recognized site) (torrents_info site) /\
    forall l, In l found ->
      Bt.LocalTorrent.site l = site /\ Bt.LocalTorrent.seed_id l <> 0 /\
      startswith (Bt.TypedTorrent.name (Bt.LocalTorrent.torrent l)) ("[" +:+ site +:+ "-") = true.
Proof.
  eexists. split; [|split].
  - unfold BtListing.list_torrents, BtListing.list_torrents_site.
    rewrite list_torrents_loop_spec. reflexivity.
  - cbn [app]. apply filter_flat_map_recognized.
  - cbn [app]. intros l Hl. apply in_flat_map in Hl as (t & _ & Hl).
    unfold listed in Hl.
    destruct (Bt.local_torrent_from t (Some site)) as [local|e] eqn:E; [|destruct Hl].
    destruct Hl as [<- | []].
    destruct (local_torrent_from_given _ _ _ E) as (Ht & Hsite & Hid & _ & Hname).
    cbn [Bt.LocalTorrent.site Bt.LocalTorrent.seed_id Bt.LocalTorrent.torrent].
    rewrite Ht. auto.
Qed.

(** X2. With [wants_all], [list_torrents] for one site always returns, and
    returns one entry per torrent of the tag, in the client's order, none
    dropped. An entry has the id 0 exactly when [local_torrent_from] refuses
    the torrent's name under that site, and then it has no remote record
    attached. *)
Theorem list_torrents_wants_all (remote_torrents : list Bt.TorrentInfo.t) (site : string) :
  exists found,
    list_torrents remote_torrents true (Some site) = Return found /\
    map Bt.LocalTorrent.torrent found = torrents_info site /\
    forall l, In l found ->
      Bt.LocalTorrent.site l = site /\
      (Bt.LocalTorrent.seed_id l = 0 <->
       recognized site (Bt.LocalTorrent.torrent l) = false) /\
      (Bt.LocalTorrent.seed_id l = 0 -> Bt.LocalTorrent.info l = None).
Proof.
  eexists. split; [|split].
  - unfold BtListing.list_torrents, BtListing.list_torrents_site.
    rewrite list_torrents_loop_spec. reflexivity.
  - cbn [app]. induction (torrents_info site) as [|t rest IH]; [reflexivity|].
    cbn [flat_map]. rewrite map_app, IH. unfold listed.
    destruct (Bt.local_torrent_from t (Some site)) as [l|e] eqn:E; [|reflexivity].
    destruct (local_torrent_from_given _ _ _ E) as (-> & _). reflexivity.
  - cbn [app]. intros l Hl. apply in_flat_map in Hl as (t & _ & Hl).
    unfold listed in Hl. unfold recognized.
    destruct (Bt.local_torrent_from t (Some site)) as [local|e] eqn:E.
    + destruct Hl as [<- | []].
      destruct (local_torrent_from_given _ _ _ E) as (Ht & Hsite & Hid & _).
      cbn [Bt.LocalTorrent.site Bt.LocalTorrent.seed_id Bt.LocalTorrent.torrent
           Bt.LocalTorrent.info].
      rewrite Ht, E. cbn [is_return]. repeat split; try assumption; intros; congruence.
    + destruct Hl as [<- | []].
      cbn [Bt.LocalTorrent.site Bt.LocalTorrent.seed_id Bt.LocalTorrent.torrent
           Bt.LocalTorrent.info].
      rewrite E. cbn [is_return]. repeat split; reflexivity.
Qed.

(** The dictionary built from the remote records: looking an id up gives
    the last record of the site with that id. *)
Lemma remote_mapping_lookup (remote_torrents : list Bt.TorrentInfo.t) (site : string) (id : Z) :
  BtListing.remote_mapping remote_torrents site !! id =
  List.find (same_record site id) (rev remote_torrents).
Proof.
  unfold BtListing.remote_mapping.
  induction remote_torrents as [|t rest IH] using rev_ind.
  - cbn. apply lookup_empty.
  - rewrite fold_left_app, rev_app_distr. cbn [fold_left rev app List.find].
    unfold same_record at 1.
    destruct (String.eqb (Bt.TorrentInfo.site t) site); cbn [andb].
    + destruct (Bt.TorrentInfo.seed_id t =? id) eqn:Hid.
      * apply Z.eqb_eq in Hid. subst id. apply lookup_insert_eq.
      * apply Z.eqb_neq in Hid. rewrite lookup_insert_ne by exact Hid. exact IH.
    + exact IH.
Qed.

(** X3. The remote record [list_torrents] attaches to a listed torrent is
    the last record of [remote_torrents] that has the site asked for and the
    torrent's id, and none when there is no such record; a record of
    another site with the same id is never attached. *)
Theorem list_torrents_attaches_last_record (remote_torrents : list Bt.TorrentInfo.t)
    (wants_all : bool) (site : string) :
  exists found,
    list_torrents remote_torrents wants_all (Some site) = Return found /\
    forall l, In l found ->
      Bt.LocalTorrent.info l =
        (if Bt.LocalTorrent.seed_id l =? 0 then None
         else List.find (same_record site (Bt.LocalTorrent.seed_id l)) (rev remote_torrents)) /\
      forall t, Bt.LocalTorrent.info l = Some t ->
        Bt.TorrentInfo.site t = site /\
        Bt.TorrentInfo.seed_id t = Bt.LocalTorrent.seed_id l /\
        In t remote_torrents.
Proof.
  eexists. split.
  - unfold BtListing.list_torrents, BtListing.list_torrents_site.
    rewrite list_torrents_loop_spec. reflexivity.
  - cbn [app]. intros l Hl. apply in_flat_map in Hl as (t0 & _ & Hl).
    unfold listed in Hl.
    assert (Hinfo : Bt.LocalTorrent.info l =
              if Bt.LocalTorrent.seed_id l =? 0 then None
              else List.find (same_record site (Bt.LocalTorrent.seed_id l))
                     (rev remote_torrents)).
    { destruct (Bt.local_torrent_from t0 (Some site)) as [local|e] eqn:E.
      - destruct Hl as [<- | []].
        destruct (local_torrent_from_given _ _ _ E) as (_ & _ & Hid & _).
        cbn. apply Z.eqb_neq in Hid. rewrite Hid. apply remote_mapping_lookup.
      - destruct wants_all; [|destruct Hl]. destruct Hl as [<- | []]. reflexivity. }
    split; [exact Hinfo|].
    intros t Ht. rewrite Hinfo in Ht.
    destruct (Bt.LocalTorrent.seed_id l =? 0); [discriminate|].
    apply find_some in Ht as [Hin Hsame].
    apply in_rev in Hin. unfold same_record in Hsame.
    apply andb_prop in Hsame as [Hs Hi].
    apply String.eqb_eq in Hs. apply Z.eqb_eq in Hi. auto.
Qed.

(** X4. [list_torrents] always returns, with a site or without one; and
    without a site it returns what it returns for each site of [SITES] on
    its own, one list after the other in the order of [SITES]. *)
Theorem list_torrents_gathers_sites (remote_torrents : list Bt.TorrentInfo.t)
    (wants_all : bool) :
  exists per_site : string -> list Bt.LocalTorrent.t,
    (forall site,
       list_torrents remote_torrents wants_all (Some site) = Return (per_site site)) /\
    list_torrents remote_torrents wants_all None = Return (flat_map per_site SITES).
Proof.
  exists (fun site =>
            flat_map (listed (BtListing.remote_mapping remote_torrents site) wants_all site)
              (torrents_info site)).
  assert (Hsite : forall site,
            list_torrents_site remote_torrents wants_all site =
            Return (flat_map (listed (BtListing.remote_mapping remote_torrents site)
                                wants_all site) (torrents_info site))).
  { intros site. unfold BtListing.list_torrents_site.
    now rewrite list_torrents_loop_spec. }
  split; [exact Hsite|].
  unfold BtListing.list_torrents.
  assert (Hgather : forall sites gathered,
            BtListing.list_torrents_gather torrents_info remote_torrents wants_all sites gathered =
            Return (gathered ++
                    flat_map
                      (fun site =>
                         flat_map (listed (BtListing.remote_mapping remote_torrents site)
                                     wants_all site) (torrents_info site)) sites)).
  { induction sites as [|site rest IH]; intros gathered; cbn [BtListing.list_torrents_gather flat_map].
    - now rewrite app_nil_r.
    - rewrite Hsite. cbn [rbind]. rewrite IH, <- app_assoc. reflexivity. }
  apply Hgather.
Qed.

End LocalListing.

(** ** Names, once more: the site given by the caller *)

Section GivenSite.

Lemma int_of_str_str_of_int (n : Z) : int_of_str (str_of_int n) = Some n.
Proof.
  destruct (Z.ltb_spec n 0) as [Hneg | Hpos].
  - unfold str_of_int. replace (n <? 0) with true by (symmetry; now apply Z.ltb_lt).
    assert (Hb : 0 <= - n < 2 ^ Z.of_nat (S (Z.to_nat (Z.log2 (- n))))).
    { rewrite Nat2Z.inj_succ, Z2Nat.id by apply Z.log2_nonneg.
      pose proof (Z.log2_spec (- n)). lia. }
    destruct (digits_of_spec _ (- n) EmptyString Hb) as (d & Heq & Ht & Hall & Hv & _).
    rewrite Heq, append_empty_r.
    unfold int_of_str. rewrite int_text_plain.
    2:{ unfold plain. cbn [all_chars]. apply andb_true_intro. split; [reflexivity|].
        exact (digits_plain d Hall). }
    unfold int_literal. rewrite skip_spaces_id by reflexivity.
    rewrite skip_spaces_end_id.
    2:{ cbn [all_chars]. apply andb_true_intro. split; [reflexivity|].
        eapply all_chars_impl; [|exact Hall]. intros c Hc.
        now rewrite (digit_not_space _ Hc). }
    rewrite Ascii.eqb_refl, (int_body_digits d 0 false Hall) by (now rewrite Ht).
    cbn [option_map]. rewrite Hv. f_equal. lia.
  - destruct (str_of_int_digits n Hpos) as (Ht & Hall & Hv & _).
    rewrite (int_of_str_digits _ Hall Ht), Hv. reflexivity.
Qed.

(** The decimal form of an integer holds digits and at most a sign. *)
Lemma str_of_int_chars (n : Z) :
  all_chars (fun c => is_digit c || Ascii.eqb c "-") (str_of_int n) = true.
Proof.
  destruct (Z.ltb_spec n 0) as [Hneg | Hpos].
  - unfold str_of_int. replace (n <? 0) with true by (symmetry; now apply Z.ltb_lt).
    assert (Hb : 0 <= - n < 2 ^ Z.of_nat (S (Z.to_nat (Z.log2 (- n))))).
    { rewrite Nat2Z.inj_succ, Z2Nat.id by apply Z.log2_nonneg.
      pose proof (Z.log2_spec (- n)). lia. }
    destruct (digits_of_spec _ (- n) EmptyString Hb) as (d & Heq & _ & Hall & _).
    rewrite Heq, append_empty_r. cbn [all_chars]. cbn [orb andb Ascii.eqb].
    apply andb_true_intro. split; [reflexivity|].
    eapply all_chars_impl; [|exact Hall]. intros c Hc. now rewrite Hc.
  - destruct (str_of_int_digits n Hpos) as (_ & Hall & _).
    eapply all_chars_impl; [|exact Hall]. intros c Hc. now rewrite Hc.
Qed.

(** With the site given, a name that opens with the site's tag is read up
    to its first closing bracket. *)
Lemma local_torrent_from_site_tag (t : Bt.TypedTorrent.t) (site middle rest : string) :
  Bt.TypedTorrent.name t = "[" +:+ site +:+ "-" +:+ middle +:+ "]" +:+ rest ->
  without_char "]" site = true -> without_char "]" middle = true ->
  Bt.local_torrent_from t (Some site) =
    if Utils.int_or middle 0 =? 0 then Raise ValueError
    else Return (Bt.LocalTorrent.mk t (Utils.int_or middle 0) site None).
Proof.
  intros Hname Hsite Hmiddle. unfold Bt.local_torrent_from. cbn [rbind].
  set (prefix := "[" +:+ site +:+ "-").
  assert (Hsplit : Bt.TypedTorrent.name t = prefix +:+ middle +:+ String "]" rest).
  { rewrite Hname. unfold prefix. simpl. now rewrite append_assoc. }
  rewrite Hsplit, startswith_app.
  assert (Hidx : index (prefix +:+ middle +:+ String "]" rest) "]"
                 = Return (String.length prefix + String.length middle)%nat).
  { unfold index. rewrite <- append_assoc, find_char_app.
    - now rewrite length_append.
    - rewrite all_chars_app. apply andb_true_intro. split; [|exact Hmiddle].
      unfold prefix. simpl. rewrite all_chars_app. unfold without_char in Hsite.
      rewrite Hsite. reflexivity. }
  rewrite Hidx. cbn [rbind]. rewrite slice_middle.
  destruct (Utils.int_or middle 0 =? 0); reflexivity.
Qed.

(** The name [_generate_rename] gives a record is read back under the
    record's site. *)
Lemma generate_rename_given_site (info : Bt.TorrentInfo.t) (hash save_path : string) :
  without_char "]" (Bt.TorrentInfo.site info) = true ->
  0 <= Bt.TorrentInfo.seed_id info ->
  Bt.local_torrent_from (Bt.TypedTorrent.mk (Bt._generate_rename info) hash save_path)
    (Some (Bt.TorrentInfo.site info)) =
  if Bt.TorrentInfo.seed_id info =? 0 then Raise ValueError
  else Return (Bt.LocalTorrent.mk
                 (Bt.TypedTorrent.mk (Bt._generate_rename info) hash save_path)
                 (Bt.TorrentInfo.seed_id info) (Bt.TorrentInfo.site info) None).
Proof.
  intros Hsite Hid.
  destruct (str_of_int_digits _ Hid) as (Ht & Hdig & Hv & _).
  rewrite (local_torrent_from_site_tag _ (Bt.TorrentInfo.site info)
             (str_of_int (Bt.TorrentInfo.seed_id info)) (Bt.TorrentInfo.title info)).
  - unfold Utils.int_or. rewrite (int_of_str_digits _ Hdig Ht), Hv. reflexivity.
  - reflexivity.
  - exact Hsite.
  - unfold without_char. eapply all_chars_impl; [|exact Hdig].
    intros c Hc. destruct (Ascii.eqb c "]") eqn:E; [|reflexivity].
    apply Ascii.eqb_eq in E. subst c. discriminate.
Qed.

(** X5. A torrent that [rename_torrent] has renamed is recognized by
    [list_torrents] under the record's site: for a site key without a
    closing bracket (a hyphen is allowed), an id that is not negative and
    any title, [local_torrent_from], given the site, reads the record's id
    back from the new name. Only the id 0 is not read back: such a name is
    refused with [ValueError]. *)
Theorem rename_torrent_recognized (torrent : Bt.LocalTorrent.t) (info : Bt.TorrentInfo.t)
    (q : Bt.qbittorrent) :
  without_char "]" (Bt.TorrentInfo.site info) = true ->
  0 <= Bt.TorrentInfo.seed_id info ->
  exists name,
    Bt.calls (Bt.rename_torrent torrent info q) =
      Bt.calls q ++
        [Bt.torrents_rename (Bt.TypedTorrent.hash (Bt.LocalTorrent.torrent torrent)) name] /\
    forall hash save_path,
      Bt.local_torrent_from (Bt.TypedTorrent.mk name hash save_path)
        (Some (Bt.TorrentInfo.site info)) =
      if Bt.TorrentInfo.seed_id info =? 0 then Raise ValueError
      else Return (Bt.LocalTorrent.mk (Bt.TypedTorrent.mk name hash save_path)
                     (Bt.TorrentInfo.seed_id info) (Bt.TorrentInfo.site info) None).
Proof.
  intros Hsite Hid. exists (Bt._generate_rename info). split; [reflexivity|].
  intros hash save_path. now apply generate_rename_given_site.
Qed.

(** The record of torrent 7 of a site with a hyphen in its key. *)
Lemma rename_torrent_recognized_witness :
  without_char "]" "m-team" = true /\ 0 <= 7 /\
  Bt.local_torrent_from (Bt.TypedTorrent.mk "[m-team-7]A]B" "c0ffee" "/dl") (Some "m-team") =
    Return (Bt.LocalTorrent.mk (Bt.TypedTorrent.mk "[m-team-7]A]B" "c0ffee" "/dl")
              7 "m-team" None).
Proof.
  assert (H : without_char "]" "m-team" = true) by reflexivity.
  assert (Hid : 0 <= 7) by lia.
  split; [exact H|]. split; [exact Hid|].
  destruct (rename_torrent_recognized
              (Bt.LocalTorrent.mk (Bt.TypedTorrent.mk "old" "c0ffee" "/dl") 0 "m-team" None)
              (Bt.TorrentInfo.mk "A]B" 7 "m-team" "movie" EmptyString)
              (Bt.mk_qbittorrent ∅ []) H Hid) as (name & Hcall & Hback).
  vm_compute in Hcall. injection Hcall as <-.
  exact (Hback "c0ffee" "/dl").
Defined.

(** X6. Whatever [local_torrent_from] identifies when it finds the site
    itself, it identifies the same way when it is given that site: listing
    by site loses none of these torrents. *)
Theorem local_torrent_from_given_site_agrees (t : Bt.TypedTorrent.t)
    (l : Bt.LocalTorrent.t) :
  Bt.local_torrent_from t None = Return l ->
  Bt.local_torrent_from t (Some (Bt.LocalTorrent.site l)) = Return l.
Proof.
  intros H.
  destruct (Bt.re_match_site (Bt.TypedTorrent.name t)) as [site|] eqn:Hm.
  - destruct (re_match_site_sound _ _ Hm) as (digits & rest & Htag).
    rewrite (local_torrent_from_pattern t site digits rest None Htag) in H by auto.
    destruct (decimal_value digits =? 0) eqn:Hz; [discriminate|].
    injection H as <-. cbn [Bt.LocalTorrent.site].
    rewrite (local_torrent_from_pattern t site digits rest (Some site) Htag) by auto.
    now rewrite Hz.
  - unfold Bt.local_torrent_from in H. rewrite Hm in H. discriminate.
Qed.

(** The torrent 1024 of byr, found by the pattern and then by its site. *)
Lemma local_torrent_from_given_site_agrees_witness :
  Bt.local_torrent_from (Bt.TypedTorrent.mk "[byr-1024]Some.Title" "c0ffee" "/dl") None =
    Return (Bt.LocalTorrent.mk (Bt.TypedTorrent.mk "[byr-1024]Some.Title" "c0ffee" "/dl")
              1024 "byr" None) /\
  Bt.local_torrent_from (Bt.TypedTorrent.mk "[byr-1024]Some.Title" "c0ffee" "/dl")
    (Some "byr") =
    Return (Bt.LocalTorrent.mk (Bt.TypedTorrent.mk "[byr-1024]Some.Title" "c0ffee" "/dl")
              1024 "byr" None).
Proof.
  assert (H : Bt.local_torrent_from
                (Bt.TypedTorrent.mk "[byr-1024]Some.Title" "c0ffee" "/dl") None =
              Return (Bt.LocalTorrent.mk
                        (Bt.TypedTorrent.mk "[byr-1024]Some.Title" "c0ffee" "/dl")
                        1024 "byr" None)) by (vm_compute; reflexivity).
  split; [exact H|].
  exact (local_torrent_from_given_site_agrees _ _ H).
Defined.

End GivenSite.

(** ** Removing categories, and the tags *)

Section Maintenance.

(** X7. [remove_categories] issues one call, which names exactly the given
    categories that the client has. Afterwards the client has none of the
    given categories, every other category is as it was, and the tags are
    untouched; a second run with the same list names no category at all. *)
Theorem remove_categories_removes (categories : list string) (q : BtAdmin.qbittorrent) :
  (forall c, c ∈ categories ->
     BtAdmin.categories (BtAdmin.remove_categories categories q) !! c = None) /\
  (forall c, c ∉ categories ->
     BtAdmin.categories (BtAdmin.remove_categories categories q) !! c =
     BtAdmin.categories q !! c) /\
  (exists removable,
     BtAdmin.calls (BtAdmin.remove_categories categories q) =
       BtAdmin.calls q ++ [BtAdmin.torrents_remove_categories removable] /\
     forall c, c ∈ removable <-> c ∈ categories /\ is_Some (BtAdmin.categories q !! c)) /\
  BtAdmin.tags (BtAdmin.remove_categories categories q) = BtAdmin.tags q /\
  BtAdmin.calls (BtAdmin.remove_categories categories (BtAdmin.remove_categories categories q)) =
    BtAdmin.calls (BtAdmin.remove_categories categories q) ++
      [BtAdmin.torrents_remove_categories ∅].
Proof.
  unfold BtAdmin.remove_categories, BtAdmin.remove_categories_call.
  cbn [BtAdmin.categories BtAdmin.tags BtAdmin.calls].
  split; [|split; [|split; [|split]]].
  - intros c Hc. apply map_lookup_filter_None. right.
    intros v Hv Hkeep. cbn in Hkeep. apply Hkeep.
    apply elem_of_intersection. split; [apply elem_of_dom; eauto | now apply elem_of_list_to_set].
  - intros c Hc. destruct (BtAdmin.categories q !! c) as [v|] eqn:Hv.
    + apply map_lookup_filter_Some. split; [exact Hv|]. cbn.
      intros Hin. apply elem_of_intersection in Hin as [_ Hin].
      apply elem_of_list_to_set in Hin. contradiction.
    + apply map_lookup_filter_None. left. exact Hv.
  - eexists. split; [reflexivity|]. intros c.
    rewrite elem_of_intersection, elem_of_dom, elem_of_list_to_set. tauto.
  - reflexivity.
  - do 2 f_equal. f_equal. apply set_eq. intros c.
    rewrite elem_of_intersection, elem_of_dom, elem_of_list_to_set.
    split; [|intros H; now apply not_elem_of_empty in H].
    intros [[v Hv] Hc]. apply map_lookup_filter_Some in Hv as [Hv Hkeep].
    cbn in Hkeep. exfalso. apply Hkeep.
    apply elem_of_intersection. split; [apply elem_of_dom; eauto | now apply elem_of_list_to_set].
Qed.

Lemma create_category_other (name torrent_dir : string) (q : Bt.qbittorrent) (k : string) :
  k <> name ->
  Bt.categories (Bt.create_category name torrent_dir q) !! k = Bt.categories q !! k.
Proof.
  intros Hk. unfold Bt.create_category, Bt.record. cbn [Bt.categories].
  destruct (Bt.categories q !! name); [reflexivity|].
  now rewrite lookup_insert_ne by congruence.
Qed.

Lemma init_categories_loop_other (realpath : string -> string) (existing : gset string)
    (categories : list string) (k : string) :
  k ∉ categories ->
  forall download_dir q,
    Bt.categories (Bt.init_categories_loop realpath existing download_dir categories q) !! k =
    Bt.categories q !! k.
Proof.
  induction categories as [|category rest IH]; intros Hk download_dir q; [reflexivity|].
  apply not_elem_of_cons in Hk as [Hne Hrest].
  cbn [Bt.init_categories_loop].
  destruct (decide (category ∈ existing)); [now apply IH|].
  rewrite (IH Hrest). now apply create_category_other.
Qed.

(** X8. Creating a list of categories with [init_categories] and then
    removing the same list with [remove_categories] leaves the client with
    the categories it had before that are not in the list: what was created
    is gone, and so is every listed category that existed beforehand. In
    particular, when none of the listed categories existed, the categories
    are back to what they were. *)
Theorem init_then_remove_categories (realpath : string -> string) (download_dir : string)
    (categories : list string) (q : Bt.qbittorrent) (tags : gset string)
    (calls : list BtAdmin.call) :
  BtAdmin.categories
    (BtAdmin.remove_categories categories
       (BtAdmin.mk_qbittorrent
          (Bt.categories (Bt.init_categories realpath download_dir categories q))
          tags calls)) =
    filter (fun kv => kv.1 ∉ categories) (Bt.categories q) /\
  ((forall c, c ∈ categories -> Bt.categories q !! c = None) ->
   BtAdmin.categories
     (BtAdmin.remove_categories categories
        (BtAdmin.mk_qbittorrent
           (Bt.categories (Bt.init_categories realpath download_dir categories q))
           tags calls)) =
     Bt.categories q).
Proof.
  assert (Heq : BtAdmin.categories
            (BtAdmin.remove_categories categories
               (BtAdmin.mk_qbittorrent
                  (Bt.categories (Bt.init_categories realpath download_dir categories q))
                  tags calls)) =
            filter (fun kv => kv.1 ∉ categories) (Bt.categories q)).
  { apply map_eq. intros k.
    destruct (decide (k ∈ categories)) as [Hin | Hout].
    - rewrite (proj1 (remove_categories_removes categories _) k Hin).
      symmetry. apply map_lookup_filter_None. right. intros v _ Hkeep. now apply Hkeep.
    - rewrite (proj1 (proj2 (remove_categories_removes categories _)) k Hout).
      cbn [BtAdmin.categories]. unfold Bt.init_categories.
      rewrite (init_categories_loop_other _ _ _ _ Hout).
      destruct (Bt.categories q !! k) as [v|] eqn:Hv; symmetry.
      + apply map_lookup_filter_Some. auto.
      + apply map_lookup_filter_None. auto. }
  split; [exact Heq|].
  intros Hnone. rewrite Heq. apply map_eq. intros k.
  destruct (Bt.categories q !! k) as [v|] eqn:Hv.
  - apply map_lookup_filter_Some. split; [exact Hv|]. cbn.
    intros Hin. rewrite (Hnone k Hin) in Hv. discriminate.
  - apply map_lookup_filter_None. auto.
Qed.

(** What the loop of [init_tags] does, from the tags read before it. *)
Lemma init_tags_loop_spec (tags0 : gset string) (reset : bool) (wanted : list string) :
  forall q,
    BtAdmin.tags (BtAdmin.init_tags_loop tags0 reset wanted q) =
      (if reset then BtAdmin.tags q ∖ (list_to_set wanted ∩ tags0)
       else BtAdmin.tags q ∪ (list_to_set wanted ∖ tags0)) /\
    BtAdmin.calls (BtAdmin.init_tags_loop tags0 reset wanted q) =
      BtAdmin.calls q ++
        map (fun t => if reset then BtAdmin.torrents_delete_tags [t]
                      else BtAdmin.torrents_create_tags [t])
          (List.filter (fun t => if reset then bool_decide (t ∈ tags0)
                                 else bool_decide (t ∉ tags0)) wanted) /\
    BtAdmin.categories (BtAdmin.init_tags_loop tags0 reset wanted q) = BtAdmin.categories q.
Proof.
  induction wanted as [|tag rest IH]; intros q.
  - cbn. rewrite app_nil_r. destruct reset; repeat split; set_solver.
  - cbn [BtAdmin.init_tags_loop List.filter].
    destruct (decide (tag ∉ tags0)) as [Hout | Hin]; destruct reset; cbn [negb].
    + rewrite bool_decide_eq_false_2 by auto.
      destruct (IH q) as (Ht & Hc & Hg). rewrite Ht, Hc, Hg.
      repeat split. set_solver.
    + rewrite bool_decide_eq_true_2 by auto.
      destruct (IH (BtAdmin.create_tags_call [tag] q)) as (Ht & Hc & Hg).
      rewrite Ht, Hc, Hg. cbn. rewrite <- app_assoc. repeat split. set_solver.
    + assert (Hin' : tag ∈ tags0) by (destruct (decide (tag ∈ tags0)); [assumption | contradiction]).
      rewrite bool_decide_eq_true_2 by auto.
      destruct (IH (BtAdmin.delete_tags_call [tag] q)) as (Ht & Hc & Hg).
      rewrite Ht, Hc, Hg. cbn. rewrite <- app_assoc. repeat split. set_solver.
    + rewrite bool_decide_eq_false_2 by auto.
      destruct (IH q) as (Ht & Hc & Hg). rewrite Ht, Hc, Hg.
      assert (Hin' : tag ∈ tags0) by (destruct (decide (tag ∈ tags0)); [assumption | contradiction]).
      repeat split. set_solver.
Qed.

Lemma init_tags_loop_nothing (tags0 : gset string) (wanted : list string) :
  (forall t, t ∈ wanted -> t ∈ tags0) ->
  forall q, BtAdmin.init_tags_loop tags0 false wanted q = q.
Proof.
  induction wanted as [|tag rest IH]; intros Hall q; [reflexivity|].
  cbn [BtAdmin.init_tags_loop].
  destruct (decide (tag ∉ tags0)) as [Hout | _].
  - exfalso. apply Hout, Hall. left.
  - cbn. apply IH. intros t Ht. apply Hall. now right.
Qed.

(** X9. [init_tags] without [reset] creates, one call each and in the order
    of the sites with "keep" last, the tags the client did not have.
    Afterwards the client has every site tag and "keep" beside the tags it
    had; its categories are untouched; and a second run does nothing. *)
Theorem init_tags_creates_missing (SITES : list string) (q : BtAdmin.qbittorrent) :
  BtAdmin.tags (BtAdmin.init_tags SITES false q) =
    BtAdmin.tags q ∪ list_to_set (SITES ++ ["keep"]) /\
  BtAdmin.calls (BtAdmin.init_tags SITES false q) =
    BtAdmin.calls q ++
      map (fun t => BtAdmin.torrents_create_tags [t])
        (List.filter (fun t => bool_decide (t ∉ BtAdmin.tags q)) (SITES ++ ["keep"])) /\
  BtAdmin.categories (BtAdmin.init_tags SITES false q) = BtAdmin.categories q /\
  BtAdmin.init_tags SITES false (BtAdmin.init_tags SITES false q) =
    BtAdmin.init_tags SITES false q.
Proof.
  unfold BtAdmin.init_tags at 1 2 3.
  destruct (init_tags_loop_spec (BtAdmin.tags q) false (SITES ++ ["keep"]) q)
    as (Ht & Hc & Hg).
  split; [|split; [|split]].
  - rewrite Ht. apply set_eq. intros t.
    destruct (decide (t ∈ BtAdmin.tags q)); set_solver.
  - exact Hc.
  - exact Hg.
  - unfold BtAdmin.init_tags at 1. apply init_tags_loop_nothing.
    intros t Hin. unfold BtAdmin.init_tags. rewrite Ht.
    destruct (decide (t ∈ BtAdmin.tags q)); set_solver.
Qed.

(** X10. [init_tags] with [reset] deletes, one call each, the site tags and
    "keep" where the client has them, and leaves every other tag and the
    categories alone. Run after [init_tags] without [reset], on a client
    that had none of these tags at first, it gives back the tags the client
    started with. *)
Theorem init_tags_reset_deletes (SITES : list string) (q : BtAdmin.qbittorrent) :
  BtAdmin.tags (BtAdmin.init_tags SITES true q) =
    BtAdmin.tags q ∖ list_to_set (SITES ++ ["keep"]) /\
  BtAdmin.calls (BtAdmin.init_tags SITES true q) =
    BtAdmin.calls q ++
      map (fun t => BtAdmin.torrents_delete_tags [t])
        (List.filter (fun t => bool_decide (t ∈ BtAdmin.tags q)) (SITES ++ ["keep"])) /\
  BtAdmin.categories (BtAdmin.init_tags SITES true q) = BtAdmin.categories q /\
  ((forall t, t ∈ SITES ++ ["keep"] -> t ∉ BtAdmin.tags q) ->
   BtAdmin.tags (BtAdmin.init_tags SITES true (BtAdmin.init_tags SITES false q)) =
     BtAdmin.tags q).
Proof.
  assert (Hreset : forall q',
            BtAdmin.tags (BtAdmin.init_tags SITES true q') =
            BtAdmin.tags q' ∖ list_to_set (SITES ++ ["keep"])).
  { intros q'. unfold BtAdmin.init_tags.
    destruct (init_tags_loop_spec (BtAdmin.tags q') true (SITES ++ ["keep"]) q')
      as (Ht & _). rewrite Ht. set_solver. }
  split; [apply Hreset|]. split; [|split].
  - unfold BtAdmin.init_tags.
    exact (proj1 (proj2 (init_tags_loop_spec (BtAdmin.tags q) true (SITES ++ ["keep"]) q))).
  - unfold BtAdmin.init_tags.
    exact (proj2 (proj2 (init_tags_loop_spec (BtAdmin.tags q) true (SITES ++ ["keep"]) q))).
  - intros Hnone. rewrite Hreset.
    rewrite (proj1 (init_tags_creates_missing SITES q)).
    apply set_eq. intros t. set_solver.
Qed.

End Maintenance.

(** ** The version the constructor asks for *)

Section Version.

Lemma digit_cases (a : Z) :
  0 <= a <= 9 ->
  a = 0 \/ a = 1 \/ a = 2 \/ a = 3 \/ a = 4 \/ a = 5 \/ a = 6 \/ a = 7 \/ a = 8 \/ a = 9.
Proof. lia. Qed.

(** X11. The constructor compares the version of qBittorrent with "v4.5.2"
    as strings. On versions whose three components are single digits this
    is the comparison of the versions: [a.b.c] is accepted exactly when it
    is 4.5.2 or later, and the client then starts with the upload limit
    95.0. On longer components it is not: every version that starts with
    "v4.1" (4.10 to 4.19 among them) and every version that starts with
    "v1" (10 to 19 among them) is refused with [ConnectionError]. *)
Theorem init_version_gate (float : Type) (limit : float) :
  (forall a b c, 0 <= a <= 9 -> 0 <= b <= 9 -> 0 <= c <= 9 ->
     BtAdmin.__init__ limit (version_string a b c) =
       if 452 <=? 100 * a + 10 * b + c then Return (Bt.mk_BtClient float limit)
       else Raise ConnectionError) /\
  (forall rest, BtAdmin.__init__ limit ("v4.1" +:+ rest) = Raise ConnectionError) /\
  (forall rest, BtAdmin.__init__ limit ("v1" +:+ rest) = Raise ConnectionError).
Proof.
  split; [|split].
  - intros a b c Ha Hb Hc.
    assert (Hgate : BtAdmin.str_lt (version_string a b c) "v4.5.2" =
                    negb (452 <=? 100 * a + 10 * b + c)).
    { destruct (digit_cases a Ha) as [-> | [-> | [-> | [-> | [-> | [-> | [-> | [-> | [-> | ->]]]]]]]]];
      destruct (digit_cases b Hb) as [-> | [-> | [-> | [-> | [-> | [-> | [-> | [-> | [-> | ->]]]]]]]]];
      destruct (digit_cases c Hc) as [-> | [-> | [-> | [-> | [-> | [-> | [-> | [-> | [-> | ->]]]]]]]]];
      vm_compute; reflexivity. }
    unfold BtAdmin.__init__. rewrite Hgate.
    destruct (452 <=? 100 * a + 10 * b + c); reflexivity.
  - intros rest. reflexivity.
  - intros rest. reflexivity.
Qed.

End Version.

(** ** The session: requests and retries *)

Section Retries.

Variable answer : nat -> string -> result Session.Response.

Local Abbreviation get := (Session.get answer).
Local Abbreviation get_loop := (Session.get_loop answer).
Local Abbreviation is_logged_in := (Session.is_logged_in answer).

Lemma requests_made_request (url : string) (allow : bool) (self : Session.ByrClient) :
  Session.requests_made (Session.log (Session.session_get url allow) self) =
  S (Session.requests_made self).
Proof.
  unfold Session.requests_made, Session.log. cbn [Session.events].
  rewrite List.filter_app, length_app. cbn. lia.
Qed.

Lemma requests_made_sleep (self : Session.ByrClient) :
  Session.requests_made (Session.log Session.time_sleep self) = Session.requests_made self.
Proof.
  unfold Session.requests_made, Session.log. cbn [Session.events].
  rewrite List.filter_app, length_app. cbn. lia.
Qed.

(** The loop, when the attempt number [k] from here is the first to be
    answered with 200. *)
Lemma get_loop_returns (path : string) (allow : bool) (retries : Z) (k : nat)
    (res : Session.Response) :
  forall (remaining : nat) (i : Z) (self : Session.ByrClient),
    (k < remaining)%nat -> i + Z.of_nat remaining = retries ->
    (forall j, (j < k)%nat ->
       not_ok (answer (Session.requests_made self + j) (Session._get_url path))) ->
    answer (Session.requests_made self + k) (Session._get_url path) = Return res ->
    Session.status_code res = 200 ->
    get_loop path allow retries remaining i self =
      (Return res,
       Session.mk_ByrClient
         (Session.events self ++ failed_attempts (Session._get_url path) allow k ++
          [Session.session_get (Session._get_url path) allow])).
Proof.
  induction k as [|k IH]; intros remaining i self Hk Hi Hfail Hres Hok.
  - destruct remaining as [|r]; [lia|]. cbn [Session.get_loop].
    rewrite Nat.add_0_r in Hres. rewrite Hres, Hok. cbn [Z.eqb Pos.eqb].
    reflexivity.
  - destruct remaining as [|r]; [lia|]. cbn [Session.get_loop].
    destruct (Hfail O ltac:(lia)) as (r0 & Hr0 & H0). rewrite Nat.add_0_r in Hr0.
    apply Z.eqb_neq in H0. rewrite Hr0, H0.
    replace (i =? retries - 1) with false by (symmetry; apply Z.eqb_neq; lia).
    cbn [negb].
    rewrite (IH r (i + 1)).
    + f_equal. unfold Session.log. cbn [Session.events failed_attempts].
      f_equal. rewrite <- !app_assoc. reflexivity.
    + lia.
    + lia.
    + intros j Hj. rewrite requests_made_sleep, requests_made_request.
      replace (S (Session.requests_made self) + j)%nat
        with (Session.requests_made self + S j)%nat by lia.
      apply Hfail. lia.
    + rewrite requests_made_sleep, requests_made_request.
      replace (S (Session.requests_made self) + k)%nat
        with (Session.requests_made self + S k)%nat by lia.
      exact Hres.
    + exact Hok.
Qed.

(** The loop, when none of the attempts left is answered with 200. *)
Lemma get_loop_raises (path : string) (allow : bool) (retries : Z) :
  forall (remaining : nat) (i : Z) (self : Session.ByrClient),
    i + Z.of_nat remaining = retries ->
    (forall j, (j < remaining)%nat ->
       not_ok (answer (Session.requests_made self + j) (Session._get_url path))) ->
    get_loop path allow retries remaining i self =
      (Raise ConnectionError,
       Session.mk_ByrClient
         (Session.events self ++
          match remaining with
          | O => []
          | S r =>
              failed_attempts (Session._get_url path) allow r ++
              [Session.session_get (Session._get_url path) allow]
          end)).
Proof.
  induction remaining as [|r IH]; intros i self Hi Hfail.
  - cbn. rewrite app_nil_r. destruct self. reflexivity.
  - cbn [Session.get_loop].
    destruct (Hfail O ltac:(lia)) as (r0 & Hr0 & H0). rewrite Nat.add_0_r in Hr0.
    apply Z.eqb_neq in H0. rewrite Hr0, H0.
    destruct r as [|r'].
    + replace (i =? retries - 1) with true by (symmetry; apply Z.eqb_eq; lia).
      cbn. reflexivity.
    + replace (i =? retries - 1) with false by (symmetry; apply Z.eqb_neq; lia).
      cbn [negb]. rewrite (IH (i + 1)).
      * unfold Session.log. cbn [Session.events failed_attempts].
        f_equal. f_equal. rewrite <- !app_assoc. reflexivity.
      * lia.
      * intros j Hj. rewrite requests_made_sleep, requests_made_request.
        replace (S (Session.requests_made self) + j)%nat
          with (Session.requests_made self + S j)%nat by lia.
        apply Hfail. lia.
Qed.

(** Whatever the session does: what the loop returns has status 200, and
    what it raises is its own [ConnectionError], after all its turns, or
    the exception of the session at the last request made. *)
Lemma get_loop_outcome (path : string) (allow : bool) (retries : Z) :
  forall (remaining : nat) (i : Z) (self : Session.ByrClient),
    match get_loop path allow retries remaining i self with
    | (Return res, self') =>
        Session.status_code res = 200 /\
        (Session.requests_made self < Session.requests_made self' <=
           Session.requests_made self + remaining)%nat
    | (Raise e, self') =>
        (e = ConnectionError /\
         Session.requests_made self' = (Session.requests_made self + remaining)%nat) \/
        ((Session.requests_made self < Session.requests_made self' <=
            Session.requests_made self + remaining)%nat /\
         answer (Session.requests_made self' - 1) (Session._get_url path) = Raise e)
    end.
Proof.
  induction remaining as [|r IH]; intros i self.
  - cbn. left. split; [reflexivity | lia].
  - cbn [Session.get_loop].
    destruct (answer (Session.requests_made self) (Session._get_url path))
      as [res|e] eqn:Hans.
    + destruct (Session.status_code res =? 200) eqn:Hs.
      * apply Z.eqb_eq in Hs. rewrite requests_made_request. split; [exact Hs | lia].
      * match goal with
        | |- context [get_loop _ _ _ r (i + 1) ?s] =>
            specialize (IH (i + 1) s); set (s1 := s) in *
        end.
        assert (Hreq : Session.requests_made s1 = S (Session.requests_made self)).
        { unfold s1. destruct (negb _).
          - now rewrite requests_made_sleep, requests_made_request.
          - now rewrite requests_made_request. }
        destruct (get_loop path allow retries r (i + 1) s1) as [[res'|e] self'].
        -- destruct IH as [H1 H2]. split; [exact H1 | lia].
        -- destruct IH as [[H1 H2] | [H1 H2]]; [left | right].
           ++ split; [exact H1 | lia].
           ++ split; [lia | exact H2].
    + right. rewrite requests_made_request. split; [lia|].
      replace (S (Session.requests_made self) - 1)%nat
        with (Session.requests_made self) by lia.
      exact Hans.
Qed.

(** X12. Whatever the session does, a response that [get] returns has
    status 200 and is reached after at least one request and at most
    [retries]. An exception of [get] is either the [ConnectionError] it
    raises itself, after exactly as many requests as it has attempts, or
    the exception the session raised at the last request made, passed on
    as it is: [get] does not retry after it. *)
Theorem get_outcome (path : string) (retries : Z) (allow : bool) (self : Session.ByrClient) :
  match get path retries allow self with
  | (Return res, self') =>
      Session.status_code res = 200 /\
      (Session.requests_made self < Session.requests_made self' <=
         Session.requests_made self + Z.to_nat retries)%nat
  | (Raise e, self') =>
      (e = ConnectionError /\
       Session.requests_made self' = (Session.requests_made self + Z.to_nat retries)%nat) \/
      ((Session.requests_made self < Session.requests_made self' <=
          Session.requests_made self + Z.to_nat retries)%nat /\
       answer (Session.requests_made self' - 1) (Session._get_url path) = Raise e)
  end.
Proof. apply get_loop_outcome. Qed.

(** X13. When the session answers the attempts before attempt [k]
    (counted from 0) with a status other than 200 and attempt [k] with
    status 200, and [k < retries], [get] returns that answer, after [k]
    failed requests each followed by a pause and one last request. *)
Theorem get_returns_first_ok (path : string) (retries : Z) (allow : bool)
    (self : Session.ByrClient) (k : nat) (res : Session.Response) :
  Z.of_nat k < retries ->
  (forall j, (j < k)%nat ->
     not_ok (answer (Session.requests_made self + j) (Session._get_url path))) ->
  answer (Session.requests_made self + k) (Session._get_url path) = Return res ->
  Session.status_code res = 200 ->
  get path retries allow self =
    (Return res,
     Session.mk_ByrClient
       (Session.events self ++ failed_attempts (Session._get_url path) allow k ++
        [Session.session_get (Session._get_url path) allow])).
Proof.
  intros Hk Hfail Hres Hok. unfold Session.get.
  apply get_loop_returns; try assumption; lia.
Qed.

(** X14. When the session answers each of the first [retries] attempts
    with a status other than 200, [get] raises [ConnectionError] after
    [retries] requests, with a pause after each but the last; and with a
    [retries] that is not positive it raises without any request. *)
Theorem get_raises_after_retries (path : string) (retries : Z) (allow : bool)
    (self : Session.ByrClient) :
  (forall j, (j < Z.to_nat retries)%nat ->
     not_ok (answer (Session.requests_made self + j) (Session._get_url path))) ->
  get path retries allow self =
    (Raise ConnectionError,
     Session.mk_ByrClient
       (Session.events self ++
        match Z.to_nat retries with
        | O => []
        | S r =>
            failed_attempts (Session._get_url path) allow r ++
            [Session.session_get (Session._get_url path) allow]
        end)).
Proof.
  intros Hfail. unfold Session.get.
  destruct (Z.le_gt_cases retries 0) as [Hle | Hgt].
  - replace (Z.to_nat retries) with O by lia. cbn. rewrite app_nil_r.
    destruct self. reflexivity.
  - apply get_loop_raises; [lia | exact Hfail].
Qed.

(** X15. [is_logged_in] makes exactly one request, for the front page and
    without following redirects, and never pauses. It returns [True] when
    the answer has status 200 and [False] when it has another status, or
    when the session raises the builtin [ConnectionError]. Any other
    exception of the session, those of [requests] among them (a refused
    connection, a timeout), is not handled and comes out of
    [is_logged_in]. *)
Theorem is_logged_in_one_request (self : Session.ByrClient) :
  Session.events (snd (is_logged_in self)) =
    Session.events self ++ [Session.session_get "https://byr.pt/" false] /\
  fst (is_logged_in self) =
    match answer (Session.requests_made self) "https://byr.pt/" with
    | Return res => Return (Session.status_code res =? 200)
    | Raise ConnectionError => Return false
    | Raise e => Raise e
    end.
Proof.
  unfold Session.is_logged_in, Session.get.
  change (Z.to_nat 1) with 1%nat. cbn [Session.get_loop].
  change (Session._get_url EmptyString) with "https://byr.pt/".
  destruct (answer (Session.requests_made self) "https://byr.pt/") as [res|e].
  - destruct (Session.status_code res =? 200); split; reflexivity.
  - destruct e; split; reflexivity.
Qed.

End Retries.

(** A site that answers 503 twice and then 200. *)
Lemma get_returns_first_ok_witness :
  Session.get
    (fun (n : nat) (_ : string) =>
       if (n <? 2)%nat then Return (Session.mk_Response 503 "busy")
       else Return (Session.mk_Response 200 "page"))
    "torrents.php" 3 false (Session.mk_ByrClient []) =
    (Return (Session.mk_Response 200 "page"),
     Session.mk_ByrClient
       [Session.session_get "https://byr.pt/torrents.php" false; Session.time_sleep;
        Session.session_get "https://byr.pt/torrents.php" false; Session.time_sleep;
        Session.session_get "https://byr.pt/torrents.php" false]).
Proof.
  refine (get_returns_first_ok
            (fun (n : nat) (_ : string) =>
               if (n <? 2)%nat then Return (Session.mk_Response 503 "busy")
               else Return (Session.mk_Response 200 "page"))
            "torrents.php" 3 false (Session.mk_ByrClient []) 2
            (Session.mk_Response 200 "page") _ _ _ _).
  - reflexivity.
  - intros j Hj. destruct j as [|[|j]]; [| |lia];
      (exists (Session.mk_Response 503 "busy"); split; [reflexivity | discriminate]).
  - reflexivity.
  - reflexivity.
Defined.

(** A site that only answers 302: three requests, two pauses. *)
Lemma get_raises_after_retries_witness :
  Session.get (fun _ _ => Return (Session.mk_Response 302 EmptyString)) "torrents.php" 3 false
    (Session.mk_ByrClient []) =
    (Raise ConnectionError,
     Session.mk_ByrClient
       [Session.session_get "https://byr.pt/torrents.php" false; Session.time_sleep;
        Session.session_get "https://byr.pt/torrents.php" false; Session.time_sleep;
        Session.session_get "https://byr.pt/torrents.php" false]).
Proof.
  refine (get_raises_after_retries (fun _ _ => Return (Session.mk_Response 302 EmptyString))
            "torrents.php" 3 false (Session.mk_ByrClient []) _).
  intros j _. exists (Session.mk_Response 302 EmptyString).
  split; [reflexivity | discriminate].
Defined.

(** ** Addresses and the ids in them *)

Section Addresses.

Lemma split_without (s : string) (sep : ascii) :
  without_char sep s = true -> split s sep = [s].
Proof.
  unfold without_char. induction s as [|c s IH]; [reflexivity|].
  cbn [all_chars split]. intros H. apply andb_prop in H as [Hc Hs].
  apply negb_true_iff in Hc. rewrite Hc, (IH Hs). reflexivity.
Qed.

Lemma split_app (a b : string) (sep : ascii) :
  without_char sep a = true ->
  split (a +:+ String sep b) sep = a :: split b sep.
Proof.
  unfold without_char. induction a as [|c a IH]; intros H.
  - cbn. now rewrite Ascii.eqb_refl.
  - cbn [all_chars] in H. apply andb_prop in H as [Hc Ha].
    apply negb_true_iff in Hc. cbn [String.append split]. rewrite Hc, (IH Ha). reflexivity.
Qed.

Lemma split_once_app (a b : string) (sep : ascii) :
  without_char sep a = true ->
  split_once (a +:+ String sep b) sep = Some (a, b).
Proof.
  unfold without_char. induction a as [|c a IH]; intros H.
  - cbn. now rewrite Ascii.eqb_refl.
  - cbn [all_chars] in H. apply andb_prop in H as [Hc Ha].
    apply negb_true_iff in Hc. cbn [String.append split_once]. rewrite Hc, (IH Ha). reflexivity.
Qed.

Lemma without_char_app (c : ascii) (a b : string) :
  without_char c (a +:+ b) = without_char c a && without_char c b.
Proof. apply all_chars_app. Qed.

(** Adding a value keeps the first value recorded under a name. *)
Lemma add_value_keeps_first (key v : string) (vs : list string) (name value : string)
    (d : list (string * list string)) :
  Urllib.lookup key d = Some (v :: vs) ->
  exists vs', Urllib.lookup key (Urllib.add_value name value d) = Some (v :: vs').
Proof.
  induction d as [|[n ws] d IH]; [discriminate|].
  cbn [Urllib.lookup Urllib.add_value].
  destruct (String.eqb n key) eqn:Hk.
  - intros [= ->]. destruct (String.eqb n name).
    + cbn [Urllib.lookup]. rewrite Hk. eexists. reflexivity.
    + cbn [Urllib.lookup]. rewrite Hk. eexists. reflexivity.
  - intros H. destruct (IH H) as [vs' Hvs'].
    destruct (String.eqb n name); cbn [Urllib.lookup]; rewrite Hk.
    + exists vs. exact H.
    + exists vs'. exact Hvs'.
Qed.

Lemma parse_qs_fold_keeps_first (key v : string) (fields : list string) :
  forall (d : list (string * list string)) (vs : list string),
    Urllib.lookup key d = Some (v :: vs) ->
    exists vs',
      Urllib.lookup key
        (fold_left
           (fun d field =>
              match split_once field "=" with
              | Some (name, value) => if truthy value then Urllib.add_value name value d else d
              | None => d
              end) fields d) = Some (v :: vs').
Proof.
  induction fields as [|field rest IH]; intros d vs H; [eauto|].
  cbn [fold_left].
  destruct (split_once field "=") as [[name value]|]; [|eauto].
  destruct (truthy value); [|eauto].
  destruct (add_value_keeps_first key v vs name value d H) as [vs' Hvs'].
  eauto.
Qed.

Lemma str_of_int_truthy (n : Z) : truthy (str_of_int n) = true.
Proof.
  destruct (Z.ltb_spec n 0) as [Hneg | Hpos].
  - unfold str_of_int. replace (n <? 0) with true by (symmetry; now apply Z.ltb_lt).
    reflexivity.
  - now destruct (str_of_int_digits n Hpos).
Qed.

Lemma str_of_int_without (c : ascii) (n : Z) :
  is_digit c = false -> Ascii.eqb c "-" = false -> without_char c (str_of_int n) = true.
Proof.
  intros Hd Hm. unfold without_char.
  eapply all_chars_impl; [|apply (str_of_int_chars n)].
  intros x Hx. destruct (Ascii.eqb x c) eqn:E; [|reflexivity].
  apply Ascii.eqb_eq in E. subst x. rewrite Hd, Hm in Hx. discriminate.
Qed.

Lemma address_without (c : ascii) (page : string) :
  is_address_char c = false -> all_chars is_address_char page = true ->
  without_char c page = true.
Proof.
  intros Hc. unfold without_char. apply all_chars_impl. intros x Hx.
  destruct (Ascii.eqb x c) eqn:E; [|reflexivity].
  apply Ascii.eqb_eq in E. subst x. congruence.
Qed.

(** The id written into a plain address is read back. *)
Lemma extract_url_id_address (page tail : string) (n : Z) :
  all_chars is_address_char page = true ->
  without_char "#" tail = true ->
  tail = EmptyString \/ startswith tail "&" = true ->
  Api._extract_url_id (page +:+ "?id=" +:+ str_of_int n +:+ tail) = Return n.
Proof.
  intros Hpage Ht Htail.
  pose proof (address_without "?" page eq_refl Hpage) as Hq.
  pose proof (address_without "#" page eq_refl Hpage) as Hh.
  assert (Hnum : forall c, is_digit c = false -> Ascii.eqb c "-" = false ->
                           without_char c (str_of_int n) = true)
    by (intros c; apply str_of_int_without).
  unfold Api._extract_url_id, Urllib.query_of.
  rewrite split_without.
  2:{ rewrite !without_char_app, Hh, Ht, (Hnum "#"%char) by reflexivity. reflexivity. }
  cbn [hd].
  change (page +:+ "?id=" +:+ str_of_int n +:+ tail)
    with (page +:+ String "?" ("id=" +:+ str_of_int n +:+ tail)).
  rewrite (split_once_app page _ "?" Hq).
  assert (Hfields : exists more,
            split ("id=" +:+ str_of_int n +:+ tail) "&" = ("id=" +:+ str_of_int n) :: more).
  { destruct Htail as [-> | Hamp].
    - exists []. rewrite append_empty_r. apply split_without.
      rewrite without_char_app, (Hnum "&"%char) by reflexivity. reflexivity.
    - destruct tail as [|c rest]; [discriminate Hamp|].
      cbn [startswith] in Hamp.
      destruct (Ascii.eqb "&" c) eqn:E; [|discriminate Hamp].
      apply Ascii.eqb_eq in E. subst c. exists (split rest "&").
      rewrite <- append_assoc. apply split_app.
      rewrite without_char_app, (Hnum "&"%char) by reflexivity. reflexivity. }
  destruct Hfields as [more Hfields].
  unfold Urllib.parse_qs. rewrite Hfields. cbn [fold_left].
  change ("id=" +:+ str_of_int n) with ("id" +:+ String "=" (str_of_int n)).
  rewrite (split_once_app "id" _ "=") by reflexivity.
  rewrite str_of_int_truthy. cbn [Urllib.add_value].
  destruct (parse_qs_fold_keeps_first "id" (str_of_int n) more
              [("id", [str_of_int n])] [] eq_refl) as [vs' Hvs'].
  rewrite Hvs'. cbn [or_raise rbind head].
  unfold int. rewrite int_of_str_str_of_int. reflexivity.
Qed.

(** X16. [_extract_url_id] reads back the id written into an address: for
    a plain address [page] (ASCII letters and digits, dots, underscores,
    hyphens, slashes and colons) and any integer [n], the id of
    [page?id=n] is [n], also when further fields follow the id after an
    ampersand. *)
Theorem extract_url_id_roundtrip (page tail : string) (n : Z) :
  all_chars is_address_char page = true ->
  without_char "#" tail = true ->
  tail = EmptyString \/ startswith tail "&" = true ->
  Api._extract_url_id (page +:+ "?id=" +:+ str_of_int n +:+ tail) = Return n.
Proof. apply extract_url_id_address. Qed.

(** The address of a listing entry, as the site links to it and in full. *)
Lemma extract_url_id_roundtrip_witness :
  Api._extract_url_id "details.php?id=1024&hit=1" = Return 1024 /\
  Api._extract_url_id "https://byr.pt/details.php?id=1024" = Return 1024.
Proof.
  split.
  - exact (extract_url_id_roundtrip "details.php" "&hit=1" 1024
             eq_refl eq_refl (or_intror eq_refl)).
  - exact (extract_url_id_roundtrip "https://byr.pt/details.php" EmptyString 1024
             eq_refl eq_refl (or_introl eq_refl)).
Defined.

End Addresses.

(** ** The profile and the listing, as requested from the site *)

Lemma bind_run_return {A B} (m : Api.M A) (k : A -> Api.M B) (self self1 : Api.ByrApi) (a : A) :
  m self = (Return a, self1) -> Api.bind m k self = k a self1.
Proof. intros H. unfold Api.bind. now rewrite H. Qed.

Lemma bind_run_raise {A B} (m : Api.M A) (k : A -> Api.M B) (self self1 : Api.ByrApi) (e : exn) :
  m self = (Raise e, self1) -> Api.bind m k self = (Raise e, self1).
Proof. intros H. unfold Api.bind. now rewrite H. Qed.

Lemma int_raises (s : string) (e : exn) : int s = Raise e -> e = ValueError.
Proof. unfold int, or_raise. destruct (int_of_str s); congruence. Qed.

Section Requests.

Variable float : Type.
Variable float_zero : float.
Variable float_of_str : string -> option float.
Variable float_div : float -> Z -> float.
Variable datetime : Type.
Variable fromisoformat : string -> option datetime.
Variable total_seconds : datetime -> datetime -> float.
Variable convert_byr_size : string -> result float.
Variable convert_byr_category : string -> string.
Variable PROMOTION_FREE : string.
Variable PROMOTION_TWO_UP : string.
Variable PROMOTION_HALF_DOWN : string.
Variable PROMOTION_THIRTY_DOWN : string.
Variable respond : list string -> string -> result Bs4.node.

Local Abbreviation user_info :=
  (Api.user_info float float_zero float_of_str convert_byr_size respond).
Local Abbreviation _extract_info_bar := (Api._extract_info_bar float).
Local Abbreviation _extract_torrent_row :=
  (Api._extract_torrent_row float float_zero float_div datetime fromisoformat
     total_seconds convert_byr_size convert_byr_category
     PROMOTION_FREE PROMOTION_TWO_UP PROMOTION_HALF_DOWN PROMOTION_THIRTY_DOWN).
Local Abbreviation _extract_torrent_table :=
  (Api._extract_torrent_table float float_zero float_div datetime fromisoformat
     total_seconds convert_byr_size convert_byr_category
     PROMOTION_FREE PROMOTION_TWO_UP PROMOTION_HALF_DOWN PROMOTION_THIRTY_DOWN).
Local Abbreviation list_torrents :=
  (Api.list_torrents float float_zero float_div datetime fromisoformat
     total_seconds convert_byr_size convert_byr_category
     PROMOTION_FREE PROMOTION_TWO_UP PROMOTION_HALF_DOWN PROMOTION_THIRTY_DOWN respond).
Local Abbreviation _extract_promotion_info :=
  (Api._extract_promotion_info
     PROMOTION_FREE PROMOTION_TWO_UP PROMOTION_HALF_DOWN PROMOTION_THIRTY_DOWN).

(** X17. Once the id of the current user is cached, [user_info] makes
    exactly one request, whether it returns or raises: the profile page of
    the user asked for, the cached user when the id asked for is 0. The
    cached id stays as it is, and the address requested carries the id:
    [_extract_url_id] reads it back. *)
Theorem user_info_cached_requests (user_id : Z) (self : Api.ByrApi) :
  Api._user_id self <> 0 ->
  Api.requests (Api.client (snd (user_info user_id self))) =
    Api.requests (Api.client self) ++
      ["userdetails.php?id=" +:+
       str_of_int (if user_id =? 0 then Api._user_id self else user_id)] /\
  Api._user_id (snd (user_info user_id self)) = Api._user_id self /\
  Api._extract_url_id
    ("userdetails.php?id=" +:+
     str_of_int (if user_id =? 0 then Api._user_id self else user_id)) =
    Return (if user_id =? 0 then Api._user_id self else user_id).
Proof.
  intros Hcached.
  set (uid := if user_id =? 0 then Api._user_id self else user_id).
  assert (Hfirst : (if user_id =? 0 then Api.current_user_id respond else Api.ret user_id) self
                   = (Return uid, self)).
  { unfold uid. destruct (user_id =? 0); [now apply current_user_id_hit | reflexivity]. }
  split; [|split].
  3:{ replace ("userdetails.php?id=" +:+ str_of_int uid)
        with ("userdetails.php" +:+ "?id=" +:+ str_of_int uid +:+ EmptyString)
        by (now rewrite append_empty_r).
      apply extract_url_id_address; auto. }
  all: unfold Api.user_info; rewrite (bind_run_return _ _ _ _ _ Hfirst).
  all: unfold Api.bind at 1; unfold Api.get_soup at 1.
  all: destruct (respond _ _) as [page|e]; cbn [rbind]; [|reflexivity].
  all: unfold Api.bind at 1; unfold Api.lift at 1.
  all: match goal with |- context [Api._extract_user_info ?a ?b ?c ?d ?i] =>
         destruct (Api._extract_user_info a b c d i) as [u|e] end; [|reflexivity].
  all: unfold Api.bind at 1; rewrite current_user_id_hit by exact Hcached.
  all: cbn [Api._user_id];
       destruct (uid =? Api._user_id self); unfold Api.lift, Api.ret; reflexivity.
Qed.

(** X18. [_extract_info_bar] raises [StopIteration] when the info bar has
    no bonus-coloured text holding the ranking label, and only then. With
    such a text the only exception it can raise is [ValueError], from
    [int] on a count that [str.isdigit] accepts and [int] refuses: a
    circled two after the seeding arrow makes it raise. *)
Theorem extract_info_bar_raises (u : Api.ByrUser.t float) (page : Bs4.element) :
  (List.filter (fun tag => contains (Bs4.text_of tag) "上传排行")
     (Bs4.select page "#info_block font.color_bonus") = [] ->
   _extract_info_bar u page = Raise StopIteration) /\
  (List.filter (fun tag => contains (Bs4.text_of tag) "上传排行")
     (Bs4.select page "#info_block font.color_bonus") <> [] ->
   forall e, _extract_info_bar u page = Raise e -> e = ValueError) /\
  _extract_info_bar u
    (Bs4.mk_element
       (Bs4.Tag "[document]" []
          [Bs4.Tag "div" [("id", "info_block")]
             [ Bs4.Tag "font" [("class", "color_bonus")] [Bs4.NavigableString "上传排行: "];
               Bs4.Tag "img" [("class", "arrowup"); ("title", "当前做种")] [];
               Bs4.NavigableString " ② " ]]) []) = Raise ValueError.
Proof.
  split; [|split].
  - unfold Api._extract_info_bar. intros ->. reflexivity.
  - unfold Api._extract_info_bar.
    destruct (List.filter _ _) as [|tag tags]; [congruence|]. intros _ e.
    cbn [head or_raise rbind]. cbv zeta.
    repeat match goal with
           | |- context [if isdigit ?x then _ else _] =>
               destruct (isdigit x); cbn [rbind]
           | |- context [int ?x] =>
               let E := fresh "E" in
               destruct (int x) eqn:E; cbn [rbind];
               [|intros [= <-]; exact (int_raises _ _ E)]
           end; discriminate.
  - vm_compute. reflexivity.
Qed.

Lemma nth_error_drop_1 {A} (l : list A) (i : nat) :
  nth_error (drop 1 l) i = nth_error l (S i).
Proof. destruct l; [now destruct i | reflexivity]. Qed.

(** X19. [list_torrents] makes one request, for "torrents.php", and leaves
    the cached user id alone. When the session raises, it raises the same.
    When it returns, it returns one record per row of the table after the
    first, which is the header: the record at position [i] is the
    extraction of row [i + 1], and a table with the header alone or without
    any row gives the empty list. *)
Theorem list_torrents_skips_header (clock : nat -> datetime) (self : Api.ByrApi) :
  Api.requests (Api.client (snd (list_torrents clock self))) =
    Api.requests (Api.client self) ++ ["torrents.php"] /\
  Api._user_id (snd (list_torrents clock self)) = Api._user_id self /\
  (forall e, respond (Api.requests (Api.client self)) "torrents.php" = Raise e ->
     fst (list_torrents clock self) = Raise e) /\
  (forall page torrents,
     respond (Api.requests (Api.client self)) "torrents.php" = Return page ->
     fst (list_torrents clock self) = Return torrents ->
     length torrents =
       (length (Bs4.select (Bs4.mk_element page []) "table.torrents > form > tr") - 1)%nat /\
     forall i row,
       nth_error (Bs4.select (Bs4.mk_element page []) "table.torrents > form > tr") (S i)
         = Some row ->
       exists t, nth_error torrents i = Some t /\
                 _extract_torrent_row (clock i) row = Return t).
Proof.
  unfold Api.list_torrents, Api.bind, Api.get_soup, Api.lift.
  destruct (respond (Api.requests (Api.client self)) "torrents.php") as [page|e];
    cbn [rbind fst snd Api.client Api.requests Api._user_id].
  - split; [reflexivity|]. split; [reflexivity|]. split; [discriminate|].
    intros page' torrents [= <-] H.
    destruct (proj1 (extract_torrent_table_all_or_nothing _ _ _ _ _ _ _ _ _ _ _ _ _ _)
                torrents H) as [Hlen Hrows].
    split.
    + rewrite Hlen, length_drop. reflexivity.
    + intros i row Hrow. apply Hrows. now rewrite nth_error_drop_1.
  - split; [reflexivity|]. split; [reflexivity|]. split; [|discriminate].
    intros e' [= <-]. reflexivity.
Qed.

(** X20. When the extraction of a row returns, the row has at least nine
    cells; the title of the record is the [title] attribute of the first
    link to a details page in the torrent-name table of the second cell (not
    the link's text), its id is the [id] field of that link's address, its
    promotions are those of the second cell, and its uploaded and
    downloaded amounts are zero. *)
Theorem extract_torrent_row_fields (now : datetime) (row : Bs4.element)
    (t : Api.TorrentInfo.t float) :
  _extract_torrent_row now row = Return t ->
  (9 <= length (Bs4.find_all_children row "td"))%nat /\
  exists title_cell link href,
    nth_error (Bs4.find_all_children row "td") 1 = Some title_cell /\
    Bs4.select_one title_cell "table.torrentname td.embedded a[href^=details]" = Some link /\
    Bs4.attrs_get link "title" = Some (Api.TorrentInfo.title t) /\
    Bs4.attrs_get link "href" = Some href /\
    Api._extract_url_id href = Return (Api.TorrentInfo.seed_id t) /\
    Api.TorrentInfo.promotions t = _extract_promotion_info title_cell /\
    Api.TorrentInfo.uploaded t = float_zero /\
    Api.TorrentInfo.downloaded t = float_zero.
Proof.
  intros H. unfold Api._extract_torrent_row in H. rinv H.
  injection H as <-.
  cbn [Api.TorrentInfo.title Api.TorrentInfo.seed_id Api.TorrentInfo.promotions
       Api.TorrentInfo.uploaded Api.TorrentInfo.downloaded].
  split.
  - match goal with
    | Hc : Api.item _ 8 = Return ?c |- _ =>
        unfold Api.item, or_raise in Hc;
        destruct (nth_error (Bs4.find_all_children row "td") 8) eqn:Hnth; [|discriminate Hc]
    end.
    assert (Hlt : (8 < length (Bs4.find_all_children row "td"))%nat)
      by (apply nth_error_Some; congruence).
    lia.
  - match goal with
    | Hc : Api.item _ 1 = Return ?c |- _ =>
        exists c; unfold Api.item, or_raise in Hc;
        destruct (nth_error (Bs4.find_all_children row "td") 1) as [c'|]; [|discriminate Hc];
        injection Hc as ->
    end.
    match goal with
    | Hl : or_raise AttributeError (Bs4.select_one ?c ?sel) = Return ?l |- _ =>
        destruct (Bs4.select_one c sel) as [link|] eqn:Hlink; [|discriminate Hl];
        injection Hl as <-
    end.
    unfold Api.attr_of in *. cbn [or_raise rbind] in *.
    repeat match goal with
           | Ha : or_raise KeyError (Bs4.attrs_get link ?k) = Return ?v |- _ =>
               destruct (Bs4.attrs_get link k) eqn:?; [|discriminate Ha];
               injection Ha as <-
           end.
    eexists link, _. repeat split; try reflexivity; eassumption.
Qed.

End Requests.

(** Logged in as user 42 with the id cached, asking for user 77 requests
    that profile and nothing else. *)
Lemma user_info_cached_requests_witness :
  42 <> 0 /\
  Api.requests
    (Api.client
       (snd (Example.user_info 77 (Api.mk_ByrApi (Api.mk_ByrClient [EmptyString]) 42)))) =
    [EmptyString; "userdetails.php?id=77"].
Proof.
  assert (H : Api._user_id (Api.mk_ByrApi (Api.mk_ByrClient [EmptyString]) 42) <> 0)
    by discriminate.
  split; [exact H|].
  exact (proj1 (user_info_cached_requests Example.float Example.float_zero
                  Example.float_of_str Example.convert_byr_size Example.respond
                  77 (Api.mk_ByrApi (Api.mk_ByrClient [EmptyString]) 42) H)).
Defined.

(** The example row extracts, and has nine cells. *)
Lemma extract_torrent_row_fields_witness :
  exists t,
    Example._extract_torrent_row (Example.clock 0)
      (Bs4.mk_element
         (Example.listing_row "2023-05-01 12:00:00" Example.named_uploader) []) =
      Return t /\
    Api.TorrentInfo.title t = "Some.Title" /\
    (9 <= length
            (Bs4.find_all_children
               (Bs4.mk_element
                  (Example.listing_row "2023-05-01 12:00:00" Example.named_uploader) [])
               "td"))%nat.
Proof.
  assert (H : { t | Example._extract_torrent_row (Example.clock 0)
                      (Bs4.mk_element
                         (Example.listing_row "2023-05-01 12:00:00"
                            Example.named_uploader) []) = Return t /\
                    Api.TorrentInfo.title t = "Some.Title" }).
  { eexists. split; [vm_compute; reflexivity | reflexivity]. }
  destruct H as [t [H Htitle]].
  exists t. split; [exact H|]. split; [exact Htitle|].
  exact (proj1 (extract_torrent_row_fields _ _ _ _ _ _ _ _ _ _ _ _ _ _ _ H)).
Defined.

(** ** The configuration *)

Section Configuration.

Variable F : Type.

Local Abbreviation toml := (Commands.toml F).

Lemma descend_all_resolve (config : toml) (args : list string) (v : toml) :
  Commands.descend_all F config args = Commands.Ok v <-> resolve config args = Some v.
Proof.
  revert config. induction args as [|arg rest IH]; intros config.
  - cbn. split; intros [= ->]; reflexivity.
  - cbn [Commands.descend_all resolve].
    destruct config as [s|n|x|b|d|items|entries]; cbn [Commands.descend];
      try (split; [|discriminate]).
    + destruct (contains s arg); discriminate.
    + discriminate.
    + discriminate.
    + discriminate.
    + discriminate.
    + destruct (existsb _ items); discriminate.
    + destruct (Commands.lookup F arg entries) as [w|]; [apply IH|].
      split; discriminate.
Qed.

Lemma descend_all_app (config v : toml) (pre post : list string) :
  resolve config pre = Some v ->
  Commands.descend_all F config (pre ++ post) = Commands.descend_all F v post.
Proof.
  revert config. induction pre as [|arg rest IH]; intros config.
  - cbn. now intros [= ->].
  - cbn [resolve app Commands.descend_all].
    destruct config as [s|n|x|b|d|items|entries]; try discriminate.
    cbn [Commands.descend].
    destruct (Commands.lookup F arg entries) as [w|]; [apply IH | discriminate].
Qed.

(** X21. When the keys lead through nested tables to a value, [_require]
    is the typer applied to that value, and [_optional] differs from it
    only where the typer raises [ValueError]: it then returns the default.
    Conversely [_require] returns only when the keys lead to a value this
    way. *)
Theorem require_resolves {A} (config : toml) (typer : toml -> Commands.outcome A)
    (default : A) (args : list string) :
  (forall v, resolve config args = Some v ->
     Commands._require F config typer args = typer v /\
     Commands._optional F config typer default args =
       match typer v with
       | Commands.Fail Commands.ValueError => Commands.Ok default
       | r => r
       end) /\
  (forall a, Commands._require F config typer args = Commands.Ok a ->
     exists v, resolve config args = Some v /\ typer v = Commands.Ok a).
Proof.
  split.
  - intros v Hv. apply descend_all_resolve in Hv.
    assert (Hreq : Commands._require F config typer args = typer v).
    { unfold Commands._require. rewrite Hv.
      destruct (typer v) as [a|[|]]; reflexivity. }
    split; [exact Hreq|]. unfold Commands._optional. now rewrite Hreq.
  - intros a H. unfold Commands._require in H.
    destruct (Commands.descend_all F config args) as [v|e] eqn:Hd; [|discriminate].
    exists v. split; [now apply descend_all_resolve|].
    destruct (typer v) as [a'|[|]]; [exact H | discriminate | discriminate].
Qed.

(** X22. A key that is missing from the table the keys before it lead to
    makes [_require] raise [ValueError], whatever keys follow, and
    [_optional] return the default. *)
Theorem require_missing_key {A} (config : toml) (typer : toml -> Commands.outcome A)
    (default : A) (pre post : list string) (arg : string)
    (entries : list (string * toml)) :
  resolve config pre = Some (Commands.t_table entries) ->
  Commands.lookup F arg entries = None ->
  Commands._require F config typer (pre ++ arg :: post) = Commands.Fail Commands.ValueError /\
  Commands._optional F config typer default (pre ++ arg :: post) = Commands.Ok default.
Proof.
  intros Hpre Hmiss.
  assert (Hreq : Commands._require F config typer (pre ++ arg :: post) =
                 Commands.Fail Commands.ValueError).
  { unfold Commands._require. rewrite (descend_all_app _ _ _ _ Hpre).
    cbn [Commands.descend_all Commands.descend]. now rewrite Hmiss. }
  split; [exact Hreq|]. unfold Commands._optional. now rewrite Hreq.
Qed.

(** X23. The default of [_optional] does not cover a value of the wrong
    shape in the middle of the path. When the keys so far lead to a number,
    a boolean or a date and a key is still to come, both [_require] and
    [_optional] raise [TypeError]. When they lead to a string, the next key
    is searched in it as a substring: found, both raise [TypeError]; not
    found, [_require] raises [ValueError] and [_optional] returns the
    default. *)
Theorem require_through_scalar {A} (config : toml) (typer : toml -> Commands.outcome A)
    (default : A) (pre post : list string) (arg : string) :
  (forall v, resolve config pre = Some v -> is_scalar v = true ->
     Commands._require F config typer (pre ++ arg :: post) = Commands.Fail Commands.TypeError /\
     Commands._optional F config typer default (pre ++ arg :: post) =
       Commands.Fail Commands.TypeError) /\
  (forall s, resolve config pre = Some (Commands.t_str s) ->
     Commands._require F config typer (pre ++ arg :: post) =
       Commands.Fail (if contains s arg then Commands.TypeError else Commands.ValueError) /\
     Commands._optional F config typer default (pre ++ arg :: post) =
       if contains s arg then Commands.Fail Commands.TypeError else Commands.Ok default).
Proof.
  split.
  - intros v Hpre Hscalar.
    assert (Hreq : Commands._require F config typer (pre ++ arg :: post) =
                   Commands.Fail Commands.TypeError).
    { unfold Commands._require. rewrite (descend_all_app _ _ _ _ Hpre).
      destruct v; try discriminate; reflexivity. }
    split; [exact Hreq|]. unfold Commands._optional. now rewrite Hreq.
  - intros s Hpre.
    assert (Hreq : Commands._require F config typer (pre ++ arg :: post) =
                   Commands.Fail (if contains s arg then Commands.TypeError
                                  else Commands.ValueError)).
    { unfold Commands._require. rewrite (descend_all_app _ _ _ _ Hpre).
      cbn [Commands.descend_all Commands.descend]. destruct (contains s arg); reflexivity. }
    split; [exact Hreq|]. unfold Commands._optional. rewrite Hreq.
    destruct (contains s arg); reflexivity.
Qed.

Variable str : toml -> string.
Variable float : toml -> Commands.outcome F.
Variable float_literal : Z -> F.

Local Abbreviation convert := (Commands.convert F str float float_literal).

Lemma bind_ok_inv {A B} (r : Commands.outcome A) (k : A -> Commands.outcome B) (b : B) :
  Commands.bind r k = Commands.Ok b -> exists a, r = Commands.Ok a /\ k a = Commands.Ok b.
Proof. destruct r as [a|e]; [|discriminate]. intros H. exists a. auto. Qed.

(** X24. When [convert] returns, the credentials, the address, the download
    directory and the size limit are the values the configuration holds
    under [byr] and [qbittorrent], put through [str] and [float]; and when
    the configuration has no [scoring] entry, the three weights are the
    defaults 1, 7 and 15. *)
Theorem convert_reads_required (config : toml) (g : Commands.GlobalConfig F) :
  convert config = Commands.Ok g ->
  (exists username password url dir limit,
     resolve config ["byr"; "username"] = Some username /\
     resolve config ["byr"; "password"] = Some password /\
     resolve config ["qbittorrent"; "url"] = Some url /\
     resolve config ["qbittorrent"; "download_dir"] = Some dir /\
     resolve config ["qbittorrent"; "size_limit"] = Some limit /\
     fst (fst (Commands.byr_credentials F g)) = str username /\
     snd (fst (Commands.byr_credentials F g)) = str password /\
     Commands.qbittorrent_url F g = str url /\
     Commands.download_dir F g = str dir /\
     float limit = Commands.Ok (Commands.size_limit F g)) /\
  (resolve config ["scoring"] = None ->
   Commands.free_weight F g = float_literal 1 /\
   Commands.cost_recovery_days F g = float_literal 7 /\
   Commands.removal_exemption_days F g = float_literal 15).
Proof.
  intros H. unfold Commands.convert in H.
  apply bind_ok_inv in H as (username & Hu & H).
  apply bind_ok_inv in H as (password & Hp & H).
  apply bind_ok_inv in H as (cookie & Hc & H).
  apply bind_ok_inv in H as (url & Hurl & H).
  apply bind_ok_inv in H as (dir & Hdir & H).
  apply bind_ok_inv in H as (limit & Hlimit & H).
  apply bind_ok_inv in H as (w1 & Hw1 & H).
  apply bind_ok_inv in H as (w2 & Hw2 & H).
  apply bind_ok_inv in H as (w3 & Hw3 & H).
  injection H as <-. cbn [Commands.byr_credentials Commands.qbittorrent_url
    Commands.download_dir Commands.size_limit Commands.free_weight
    Commands.cost_recovery_days Commands.removal_exemption_days fst snd].
  apply (proj2 (require_resolves _ _ username _)) in Hu as (vu & Ru & Eu).
  apply (proj2 (require_resolves _ _ password _)) in Hp as (vp & Rp & Ep).
  apply (proj2 (require_resolves _ _ url _)) in Hurl as (vurl & Rurl & Eurl).
  apply (proj2 (require_resolves _ _ dir _)) in Hdir as (vdir & Rdir & Edir).
  apply (proj2 (require_resolves _ _ limit _)) in Hlimit as (vl & Rl & El).
  injection Eu as <-. injection Ep as <-. injection Eurl as <-. injection Edir as <-.
  split.
  - exists vu, vp, vurl, vdir, vl. repeat split; assumption.
  - intros Hnone.
    assert (Htable : exists entries, config = Commands.t_table entries).
    { cbn [resolve] in Ru. destruct config; try discriminate. eauto. }
    destruct Htable as [entries ->].
    assert (Hmiss : Commands.lookup F "scoring" entries = None).
    { cbn [resolve] in Hnone. destruct (Commands.lookup F "scoring" entries); [discriminate | reflexivity]. }
    assert (Hdef : forall key d a,
              Commands._optional F (Commands.t_table entries) float d ["scoring"; key] = Commands.Ok a ->
              a = d).
    { intros key d a Ha.
      destruct (require_missing_key (Commands.t_table entries) float d [] [key] "scoring"
                  entries eq_refl Hmiss) as [_ Hopt].
      cbn [app] in Hopt. rewrite Hopt in Ha. now injection Ha as <-. }
    repeat split; eapply Hdef; eassumption.
Qed.

End Configuration.

(** A configuration with a [byr] table, asked for the user name. *)
Lemma require_resolves_witness :
  Commands._require Z
    (Commands.t_table [("byr", Commands.t_table [("username", Commands.t_str "bob")])])
    (fun v => match v with Commands.t_str s => Commands.Ok s | _ => Commands.Fail Commands.TypeError end)
    ["byr"; "username"] = Commands.Ok "bob".
Proof.
  exact (proj1 (proj1 (require_resolves Z
           (Commands.t_table [("byr", Commands.t_table [("username", Commands.t_str "bob")])])
           (fun v => match v with
                     | Commands.t_str s => Commands.Ok s
                     | _ => Commands.Fail Commands.TypeError
                     end)
           EmptyString ["byr"; "username"]) (Commands.t_str "bob") eq_refl)).
Defined.

(** The example configuration has no [scoring] table: asking for a weight
    raises [ValueError] when required and gives the default when
    optional. *)
Lemma require_missing_key_witness :
  Commands._require Z CommandsExample.config CommandsExample.float
    ["scoring"; "free_weight"] = Commands.Fail Commands.ValueError /\
  Commands._optional Z CommandsExample.config CommandsExample.float 1
    ["scoring"; "free_weight"] = Commands.Ok 1.
Proof.
  exact (require_missing_key Z CommandsExample.config CommandsExample.float 1
           [] ["free_weight"] "scoring"
           [("byr", Commands.t_table
                      [("username", Commands.t_str "bob");
                       ("password", Commands.t_str "secret")]);
            ("qbittorrent", Commands.t_table
                      [("url", Commands.t_str "http://localhost:8080");
                       ("download_dir", Commands.t_str "/dl");
                       ("size_limit", Commands.t_int 500)])]
           eq_refl eq_refl).
Defined.

(** The example configuration converts, with the default weights. *)
Lemma convert_reads_required_witness :
  exists g,
    CommandsExample.convert CommandsExample.config = Commands.Ok g /\
    Commands.qbittorrent_url Z g = "http://localhost:8080" /\
    Commands.size_limit Z g = 500 /\
    Commands.free_weight Z g = 1 /\
    Commands.cost_recovery_days Z g = 7 /\
    Commands.removal_exemption_days Z g = 15.
Proof.
  assert (H : { g | CommandsExample.convert CommandsExample.config = Commands.Ok g /\
                    Commands.qbittorrent_url Z g = "http://localhost:8080" /\
                    Commands.size_limit Z g = 500 }).
  { eexists. split; [vm_compute; reflexivity | split; reflexivity]. }
  destruct H as [g (H & Hurl & Hlimit)].
  exists g. split; [exact H|]. split; [exact Hurl|]. split; [exact Hlimit|].
  exact (proj2 (convert_reads_required Z CommandsExample.str CommandsExample.float
                  (fun n => n) CommandsExample.config g H) eq_refl).
Defined.

(** ** Adding, removing, and the id of the current user *)

Section AddAndRemove.

Variable realpath : string -> string.
Variable float : Type.
Variable float_mul : float -> Z -> float.
Variable float_int : float -> result Z.

Local Abbreviation add_torrent := (Bt.add_torrent realpath float float_mul float_int).

(** X25. When [int] reads the upload limit, [add_torrent] returns after
    exactly one call, a [torrents_add] with the record's category and one
    tag, the record's site; and the name it gives the torrent is one
    [list_torrents] recognizes under that tag: for a site key without a
    closing bracket and an id that is not negative, [local_torrent_from],
    given the site, reads the record's id back from it, unless the id is
    0. *)
Theorem add_torrent_recognized (self : Bt.BtClient float) (torrent : string)
    (info : Bt.TorrentInfo.t) (download_dir : string) (paused : bool)
    (exists_ : Bt.exists_arg) (q : Bt.qbittorrent) (upload_limit : Z) :
  without_char "]" (Bt.TorrentInfo.site info) = true ->
  0 <= Bt.TorrentInfo.seed_id info ->
  float_int (float_mul (float_mul (Bt.upload_limit float self) 1024) 1024) =
    Return upload_limit ->
  exists save_path name,
    fst (add_torrent self torrent info download_dir paused exists_ q) = Return tt /\
    Bt.calls (snd (add_torrent self torrent info download_dir paused exists_ q)) =
      Bt.calls q ++
        [Bt.torrents_add torrent save_path (Bt.TorrentInfo.category info)
           (Bt.bool_of_exists exists_) paused name [Bt.TorrentInfo.site info] upload_limit] /\
    forall hash save_path',
      Bt.local_torrent_from (Bt.TypedTorrent.mk name hash save_path')
        (Some (Bt.TorrentInfo.site info)) =
      if Bt.TorrentInfo.seed_id info =? 0 then Raise ValueError
      else Return (Bt.LocalTorrent.mk (Bt.TypedTorrent.mk name hash save_path')
                     (Bt.TorrentInfo.seed_id info) (Bt.TorrentInfo.site info) None).
Proof.
  intros Hsite Hid Hlimit. unfold Bt.add_torrent. rewrite Hlimit.
  eexists _, (Bt._generate_rename info). split; [reflexivity|]. split; [reflexivity|].
  intros hash save_path'. now apply generate_rename_given_site.
Qed.

(** X26. Whatever [extra] is, [remove_torrent] ends with the one call that
    deletes files, which names the target alone, and no call before it
    deletes files. Without [extra] it is the only call and there is no
    pause. With [extra], one removal that keeps the files and one pause
    come first, also for an empty [extra]; that removal names the hashes of
    a collection, but no hash at all when [extra] is a generator, which
    the log message has used up. *)
Theorem remove_torrent_deletes_target_last (torrent : Bt.LocalTorrent.t)
    (extra : option (Bt.iterable Bt.LocalTorrent.t)) (q : Bt.qbittorrent) :
  exists before,
    Bt.calls (Bt.remove_torrent torrent extra q) =
      Bt.calls q ++ before ++
        [Bt.torrents_delete true [Bt.TypedTorrent.hash (Bt.LocalTorrent.torrent torrent)]] /\
    forallb (fun c => negb (deletes_files c)) before = true /\
    before =
      match extra with
      | None => []
      | Some (Bt.collection siblings) =>
          [Bt.torrents_delete false
             (map (fun t => Bt.TypedTorrent.hash (Bt.LocalTorrent.torrent t)) siblings);
           Bt.time_sleep 500]
      | Some (Bt.generator _) => [Bt.torrents_delete false []; Bt.time_sleep 500]
      end.
Proof.
  destruct extra as [[siblings|siblings]|]; eexists; (split; [|split; [|reflexivity]]);
    unfold Bt.remove_torrent, Bt.record; cbn [Bt.iterate Bt.calls map];
    rewrite <- ?app_assoc; reflexivity.
Qed.

End AddAndRemove.

Section CurrentUser.

Variable respond : list string -> string -> result Bs4.node.

Local Abbreviation current_user_id := (Api.current_user_id respond).

(** X27. With no id cached, [current_user_id] makes exactly one request,
    for the front page, whatever happens next. It raises what the session
    raises, [IndexError] when the page has no link of the class
    [User_Name], and [KeyError] when the first such link has no address;
    and whenever it raises, no id is cached: the next call asks again. *)
Theorem current_user_id_failures (self : Api.ByrApi) :
  Api._user_id self = 0 ->
  Api.requests (Api.client (snd (current_user_id self))) =
    Api.requests (Api.client self) ++ [EmptyString] /\
  (forall e, fst (current_user_id self) = Raise e ->
     Api._user_id (snd (current_user_id self)) = 0) /\
  (forall e, respond (Api.requests (Api.client self)) EmptyString = Raise e ->
     fst (current_user_id self) = Raise e) /\
  (forall page, respond (Api.requests (Api.client self)) EmptyString = Return page ->
     Bs4.select (Bs4.mk_element page []) "a[class=User_Name]" = [] ->
     fst (current_user_id self) = Raise IndexError) /\
  (forall page link rest,
     respond (Api.requests (Api.client self)) EmptyString = Return page ->
     Bs4.select (Bs4.mk_element page []) "a[class=User_Name]" = link :: rest ->
     Bs4.attrs_get link "href" = None ->
     fst (current_user_id self) = Raise KeyError).
Proof.
  intros Hzero. unfold Api.current_user_id. rewrite Hzero. cbn [Z.eqb negb].
  unfold Api.bind, Api.get_soup.
  destruct (respond (Api.requests (Api.client self)) EmptyString) as [page|e0] eqn:Hpage;
    cbn [rbind].
  - match goal with |- context [Api.lift ?r] => destruct r as [user_id|e1] eqn:Hlink end;
      unfold Api.lift; cbn [fst snd Api.client Api.requests Api._user_id].
    + split; [reflexivity|]. split; [discriminate|]. split; [discriminate|].
      split.
      * intros page' [= <-] Hnone. rewrite Hnone in Hlink. discriminate Hlink.
      * intros page' link rest [= <-] Hsel Hhref. rewrite Hsel in Hlink.
        cbn [head or_raise rbind] in Hlink. rewrite Hhref in Hlink. discriminate Hlink.
    + split; [reflexivity|]. split; [intros; exact Hzero|]. split; [discriminate|].
      split.
      * intros page' [= <-] Hnone. rewrite Hnone in Hlink.
        cbn [head or_raise rbind] in Hlink. congruence.
      * intros page' link rest [= <-] Hsel Hhref. rewrite Hsel in Hlink.
        cbn [head or_raise rbind] in Hlink. rewrite Hhref in Hlink.
        cbn [or_raise rbind] in Hlink. congruence.
  - cbn [fst snd Api.client Api.requests Api._user_id].
    split; [reflexivity|]. split; [intros; exact Hzero|]. split; [now intros e [= <-]|].
    split; discriminate.
Qed.

End CurrentUser.

(** Adding record 1024 of the site byr. *)
Lemma add_torrent_recognized_witness :
  without_char "]" "byr" = true /\ 0 <= 1024 /\
  Bt.local_torrent_from (Bt.TypedTorrent.mk "[byr-1024]Some.Title" "c0ffee" "/dl/movie")
    (Some "byr") =
    Return (Bt.LocalTorrent.mk (Bt.TypedTorrent.mk "[byr-1024]Some.Title" "c0ffee" "/dl/movie")
              1024 "byr" None).
Proof.
  assert (H : without_char "]" "byr" = true) by reflexivity.
  assert (Hid : 0 <= 1024) by lia.
  split; [exact H|]. split; [exact Hid|].
  destruct (add_torrent_recognized (fun p => p) Z Z.mul (fun x => Return x)
              (Bt.mk_BtClient Z 95) "data"
              (Bt.TorrentInfo.mk "Some.Title" 1024 "byr" "movie" EmptyString)
              "/dl" false (Bt.exists_flag false) (Bt.mk_qbittorrent ∅ []) 99614720
              H Hid eq_refl)
    as (save_path & name & _ & Hcall & Hback).
  vm_compute in Hcall. injection Hcall as _ <-.
  exact (Hback "c0ffee" "/dl/movie").
Defined.

(** A front page without the link, asked with no id cached. *)
Lemma current_user_id_failures_witness :
  fst (Api.current_user_id (fun _ _ => Return (Bs4.NavigableString "busy"))
         (Api.mk_ByrApi (Api.mk_ByrClient []) 0)) = Raise IndexError.
Proof.
  exact (proj1 (proj2 (proj2 (proj2
           (current_user_id_failures (fun _ _ => Return (Bs4.NavigableString "busy"))
              (Api.mk_ByrApi (Api.mk_ByrClient []) 0) eq_refl))))
           (Bs4.NavigableString "busy") eq_refl eq_refl).
Defined.
